(** * Orca: the check-suite verdict, the push guard and the push remediator

    A shallow embedding of three pieces of the Orca bot:

    - [handlers.AllMatchesAreResolved] and [handlers.HandleCheckSuite]
      with its helpers [handleFailure], [completeCheckRun] and
      [updateCheckRun] (checkSuiteHandler, package handlers);
    - [handlers.HandlePush] (payloadHandler, package handlers);
    - [remediator.RemediateFromPush] (package remediator).

    The handlers talk to the hosting platform and to the scanner.  Every
    such call is an entry of a trace, recorded together with the reply
    it received; the replies come from the [PayloadHandler], whose
    answers may depend on everything that happened before.  A Go [(value, err)]
    return is a pair whose second component is [None] for a nil error.

    Pointer fields of payloads and replies that the handlers
    dereference are taken as populated, which is what the platform
    sends; a nil there would panic and is outside this model. *)

From Stdlib Require Import List String Ascii ZArith Bool Lia.
From Stdlib Require Import DecimalString DecimalPos DecimalZ Eqdep_dec.
Import ListNotations.
Local Open Scope list_scope.
Local Open Scope string_scope.

(* ================================================================== *)
(** ** The fragment of Go's fmt the handlers use *)

Module fmt.

(** The line feed character (code 10). *)
Definition nl : string := String (ascii_of_nat 10) EmptyString.

(** The double quote character (code 34). *)
Definition dquote : string := String (ascii_of_nat 34) EmptyString.

(** The verb [%d] applied to an integer: decimal digits, with a
    leading minus sign below zero. *)
Definition d (z : Z) : string := NilZero.string_of_int (Z.to_int z).

End fmt.

(** A Go [error]: [None] is [nil]. *)
Definition error : Type := option string.

(* ================================================================== *)
(** ** go-github values, as far as the handlers read or write them *)

Module github.

(** A [*int] or [*int64].  Dereferencing reads [deref]; handing the
    pointer itself to the verb [%d] prints [addr]. *)
Record IntPtr := { addr : Z; deref : Z }.

Record User := { Login : string }.

Record Repository := { Owner : User; Name : string }.

Record PullRequest := { Number : IntPtr }.

Record CheckSuite := {
  CheckSuite_ID : Z;
  CheckSuite_HeadSHA : string;
  PullRequests : list PullRequest;
  CheckSuite_Repository : Repository }.

Record CheckSuiteEvent := {
  CheckSuiteEvent_Repo : Repository;
  CheckSuiteEvent_CheckSuite : CheckSuite }.

Record CheckRun := {
  CheckRun_ID : IntPtr;
  HTMLURL : string;
  CheckRun_CheckSuite : CheckSuite }.

Record CommitFile := { Filename : string; CommitFile_Status : string }.

Record RepositoryCommit := { SHA : string; Files : list CommitFile }.

Record CreateCheckRunOptions := {
  CreateCheckRunOptions_Name : string;
  CreateCheckRunOptions_HeadSHA : string;
  CreateCheckRunOptions_Status : string }.

Record CheckRunOutput := {
  Title : string;
  Summary : string;
  Text : option string }.

Record UpdateCheckRunOptions := {
  Status : string;
  Conclusion : string;
  Output : CheckRunOutput }.

Record IssueComment := { Body : string }.

Record PullRequestListOptions := { State : string; Head : string }.

Record Pusher := { Pusher_Name : string }.

Record PushEvent := {
  PushEvent_Repo : Repository;
  PushEvent_Pusher : Pusher;
  Ref : string }.

(** [checkRun.CheckSuite.Repository = repo] *)
Definition setRepository (checkRun : CheckRun) (repo : Repository) : CheckRun :=
  {| CheckRun_ID := CheckRun_ID checkRun;
     HTMLURL := HTMLURL checkRun;
     CheckRun_CheckSuite :=
       {| CheckSuite_ID := CheckSuite_ID (CheckRun_CheckSuite checkRun);
          CheckSuite_HeadSHA := CheckSuite_HeadSHA (CheckRun_CheckSuite checkRun);
          PullRequests := PullRequests (CheckRun_CheckSuite checkRun);
          CheckSuite_Repository := repo |} |}.

End github.

(* ================================================================== *)
(** ** Package scanning *)

Module scanning.

(** Modelled from the spec: the declarations of [scanning.Match] and
    [scanning.CommitScanResult] are not among the sources.  Section 3
    gives a Match a Resolved flag and a scan result its originating
    commit and its flattened list of Matches; these are the fields
    the check-suite handler reads. *)
Record Match := { Resolved : bool }.

Record CommitScanResult := { Commit : string; Matches : list Match }.

End scanning.

(* ================================================================== *)
(** ** Declarations of the repository that the handlers use but whose
       source is not available *)

(** Modelled from the spec: package caching is not among the sources.
Section 3 names the three tags of a FileState; which value a
variable of that type holds before it is assigned (the Go zero
value, [FileStateZero]) is left open, as is the type itself.
[BuildMessage] is the function of package handlers that renders the
title and the text of a check run from its scan results. *)
Class Externals := {
  FileState : Type;
  FileAdded : FileState;
  FileModified : FileState;
  FileRemoved : FileState;
  FileStateZero : FileState;
  BuildMessage : list scanning.CommitScanResult -> string * string }.

Module caching.

Record GitHubFileQuery `{Externals} := {
  RepoOwner : string;
  RepoName : string;
  CommitSHA : string;
  FileName : string;
  GitHubFileQuery_Status : FileState }.

End caching.

(* ================================================================== *)
(** ** Package handlers *)

Module handlers.

Import github scanning caching.

(** *** AllMatchesAreResolved *)

(** The inner loop of [AllMatchesAreResolved]: [false] when it hits the
    [return false], [true] when the range over [Matches] runs out. *)
Fixpoint rangeMatches (matches : list Match) : bool :=
  match matches with
  | [] => true
  | m :: rest => if negb (Resolved m) then false else rangeMatches rest
  end.

Fixpoint AllMatchesAreResolved (scanResults : list CommitScanResult) : bool :=
  match scanResults with
  | [] => true
  | result :: rest =>
      if rangeMatches (Matches result) then AllMatchesAreResolved rest
      else false
  end.

(** *** Traces *)

(** An argument handed to a zerolog [Msgf] along with the format. *)
Inductive Arg :=
| ArgString (s : string)
| ArgInt (z : Z)
| ArgPointer (p : IntPtr)
| ArgError (e : string).

Inductive Level := DebugLevel | InfoLevel | ErrorLevel.

(** One entry per call that leaves the handler, with the reply it got,
    and one per log line written.  A log line keeps the format and
    the arguments as they are passed to [Msg] or [Msgf]. *)
Inductive Event `{Externals} :=
| EvCreateCheckRun (owner repo : string) (opts : CreateCheckRunOptions)
    (reply : CheckRun * error)
| EvListCommits (owner repo : string) (number : Z)
    (reply : list RepositoryCommit * error)
| EvGetCommit (owner repo sha : string) (reply : RepositoryCommit * error)
| EvCheckFileContentFromQueries (fileQueries : list GitHubFileQuery)
    (reply : list CommitScanResult * error)
| EvCreateComment (owner repo : string) (number : Z) (comment : IssueComment)
    (reply : error)
| EvUpdateCheckRun (owner repo : string) (id : Z) (opts : UpdateCheckRunOptions)
    (reply : error)
| EvList (owner repo : string) (opts : PullRequestListOptions)
    (reply : list PullRequest * error)
| EvCheckPush (pushPayload : PushEvent) (reply : list CommitScanResult * error)
| EvHandleMatchesFromPush (pushPayload : PushEvent)
    (results : list CommitScanResult) (reply : error)
| EvLog (level : Level) (format : string) (args : list Arg).

(** What stands behind [handler.GitHubClient], [handler.Scanner] and
    the match handler: for each call, the reply, given the trace of
    everything that happened so far and the arguments of the call. *)
Record PayloadHandler `{Externals} := {
  reply_CreateCheckRun :
    list Event -> string -> string -> CreateCheckRunOptions -> CheckRun * error;
  reply_ListCommits :
    list Event -> string -> string -> Z -> list RepositoryCommit * error;
  reply_GetCommit :
    list Event -> string -> string -> string -> RepositoryCommit * error;
  reply_CheckFileContentFromQueries :
    list Event -> list GitHubFileQuery -> list CommitScanResult * error;
  reply_CreateComment :
    list Event -> string -> string -> Z -> IssueComment -> error;
  reply_UpdateCheckRun :
    list Event -> string -> string -> Z -> UpdateCheckRunOptions -> error;
  reply_List :
    list Event -> string -> string -> PullRequestListOptions ->
    list PullRequest * error;
  reply_CheckPush :
    list Event -> PushEvent -> list CommitScanResult * error;
  reply_HandleMatchesFromPush :
    list Event -> PushEvent -> list CommitScanResult -> error }.

(** A piece of handler code: given the trace so far, its value and the
    events it adds. *)
Definition M `{Externals} (A : Type) : Type := list Event -> A * list Event.

Definition ret `{Externals} {A : Type} (a : A) : M A := fun _ => (a, []).

Definition bind `{Externals} {A B : Type} (m : M A) (k : A -> M B) : M B :=
  fun past =>
    let r1 := m past in
    let r2 := k (fst r1) (past ++ snd r1)%list in
    (fst r2, (snd r1 ++ snd r2)%list).

Declare Scope handler_scope.
Delimit Scope handler_scope with handler.
Notation "x <- m ;; k" := (bind m (fun x => k))
  (at level 61, m at next level, right associativity) : handler_scope.
Notation "' pat <- m ;; k" := (bind m (fun x => match x with pat => k end))
  (at level 61, pat pattern, m at next level, right associativity) : handler_scope.
Notation "m ;; k" := (bind m (fun _ => k))
  (at level 61, right associativity) : handler_scope.
Local Open Scope handler_scope.

(** The events a piece of handler code adds to a given past. *)
Definition emitted `{Externals} {A : Type} (m : M A) (past : list Event) : list Event :=
  snd (m past).

(** How a loop body ends: it falls through to the next statement with
    a value, or it has executed a [return] of the enclosing handler. *)
Inductive Flow (A : Type) :=
| Next (a : A)
| Returned.
Arguments Next {A} a.
Arguments Returned {A}.

(** *** The calls *)

Section Calls.
Context `{Externals} (handler : PayloadHandler).

Definition log (level : Level) (format : string) (args : list Arg) : M unit :=
  fun _ => (tt, [EvLog level format args]).

Definition Checks_CreateCheckRun (owner repo : string)
    (opts : CreateCheckRunOptions) : M (CheckRun * error) :=
  fun past =>
    let reply := reply_CreateCheckRun handler past owner repo opts in
    (reply, [EvCreateCheckRun owner repo opts reply]).

Definition PullRequests_ListCommits (owner repo : string) (number : Z)
    : M (list RepositoryCommit * error) :=
  fun past =>
    let reply := reply_ListCommits handler past owner repo number in
    (reply, [EvListCommits owner repo number reply]).

Definition Repositories_GetCommit (owner repo sha : string)
    : M (RepositoryCommit * error) :=
  fun past =>
    let reply := reply_GetCommit handler past owner repo sha in
    (reply, [EvGetCommit owner repo sha reply]).

Definition Scanner_CheckFileContentFromQueries
    (fileQueries : list GitHubFileQuery) : M (list CommitScanResult * error) :=
  fun past =>
    let reply := reply_CheckFileContentFromQueries handler past fileQueries in
    (reply, [EvCheckFileContentFromQueries fileQueries reply]).

Definition Issues_CreateComment (owner repo : string) (number : Z)
    (comment : IssueComment) : M error :=
  fun past =>
    let reply := reply_CreateComment handler past owner repo number comment in
    (reply, [EvCreateComment owner repo number comment reply]).

Definition Checks_UpdateCheckRun (owner repo : string) (id : Z)
    (opts : UpdateCheckRunOptions) : M error :=
  fun past =>
    let reply := reply_UpdateCheckRun handler past owner repo id opts in
    (reply, [EvUpdateCheckRun owner repo id opts reply]).

Definition PullRequests_List (owner repo : string)
    (opts : PullRequestListOptions) : M (list PullRequest * error) :=
  fun past =>
    let reply := reply_List handler past owner repo opts in
    (reply, [EvList owner repo opts reply]).

Definition Scanner_CheckPush (pushPayload : PushEvent)
    : M (list CommitScanResult * error) :=
  fun past =>
    let reply := reply_CheckPush handler past pushPayload in
    (reply, [EvCheckPush pushPayload reply]).

Definition HandleMatchesFromPush (pushPayload : PushEvent)
    (results : list CommitScanResult) : M error :=
  fun past =>
    let reply := reply_HandleMatchesFromPush handler past pushPayload results in
    (reply, [EvHandleMatchesFromPush pushPayload results reply]).

End Calls.

(** *** The check-suite handler *)

Definition checkRunStatus : Type := string.
Definition checkRunConclusion : Type := string.

Definition checkRunStatusInProgress : checkRunStatus := "in_progress".
Definition checkRunStatusCompleted : checkRunStatus := "completed".
Definition checkRunConclusionSuccess : checkRunConclusion := "success".
Definition checkRunConclusionSkipped : checkRunConclusion := "skipped".
Definition checkRunConclusionFailure : checkRunConclusion := "failure".

Section CheckSuite.
Context `{Externals} (handler : PayloadHandler).

(** The reply UpdateCheckRun gives to the request of [updateCheckRun]. *)
Definition updateReply (checkRun : CheckRun) (status : checkRunStatus)
    (conclusion : checkRunConclusion) (summary : string) (text : option string)
    (past : list Event) : error :=
  reply_UpdateCheckRun handler past
    (Login (Owner (CheckSuite_Repository (CheckRun_CheckSuite checkRun))))
    (Name (CheckSuite_Repository (CheckRun_CheckSuite checkRun)))
    (deref (CheckRun_ID checkRun))
    {| Status := status;
       Conclusion := conclusion;
       Output := {| Title := "Orca Checks"; Summary := summary; Text := text |} |}.

Definition updateCheckRun (checkRun : CheckRun) (status : checkRunStatus)
    (conclusion : checkRunConclusion) (summary : string) (text : option string)
    : M unit :=
  let statusString := status in
  let conclusionString := conclusion in
  let outputTitle := "Orca Checks" in
  err <- Checks_UpdateCheckRun handler
           (Login (Owner (CheckSuite_Repository (CheckRun_CheckSuite checkRun))))
           (Name (CheckSuite_Repository (CheckRun_CheckSuite checkRun)))
           (deref (CheckRun_ID checkRun))
           {| Status := statusString;
              Conclusion := conclusionString;
              Output := {| Title := outputTitle;
                           Summary := summary;
                           Text := text |} |} ;;
  match err with
  | Some e =>
      log ErrorLevel "Failed to update check run %d: %v"
        [ArgPointer (CheckRun_ID checkRun); ArgError e]
  | None => ret tt
  end.

Definition handleFailure (checkRun : CheckRun) (summary : string) (err : string)
    : M unit :=
  updateCheckRun checkRun checkRunStatusCompleted checkRunConclusionFailure
    summary None ;;
  log ErrorLevel "Check run %d failed: %v"
    [ArgPointer (CheckRun_ID checkRun); ArgError err].

Definition completeCheckRun (checkRun : CheckRun)
    (conclusion : checkRunConclusion) (summary : string) (text : option string)
    : M unit :=
  updateCheckRun checkRun checkRunStatusCompleted conclusion summary text ;;
  log DebugLevel
    ("Check run %d completed with conclusion " ++ fmt.dquote ++ "%s" ++ fmt.dquote)
    [ArgPointer (CheckRun_ID checkRun); ArgString conclusion].

(** The [switch *file.Status]; [fileStatus] is declared afresh for
    every file, so it holds the zero value when no case applies. *)
Definition fileStatusOf (status : string) : FileState :=
  if (status =? "added")%string then FileAdded
  else if (status =? "modified")%string then FileModified
  else if (status =? "removed")%string then FileRemoved
  else FileStateZero.

(** [for _, file := range commitWithFiles.Files] *)
Fixpoint rangeFiles (checkSuitePayload : CheckSuiteEvent) (commitSha : string)
    (files : list CommitFile) (fileQueries : list GitHubFileQuery)
    : list GitHubFileQuery :=
  match files with
  | [] => fileQueries
  | file :: rest =>
      let fileStatus := fileStatusOf (CommitFile_Status file) in
      rangeFiles checkSuitePayload commitSha rest
        (fileQueries ++
           [ {| RepoOwner := Login (Owner (CheckSuiteEvent_Repo checkSuitePayload));
                RepoName := Name (CheckSuiteEvent_Repo checkSuitePayload);
                CommitSHA := commitSha;
                FileName := Filename file;
                GitHubFileQuery_Status := fileStatus |} ])%list
  end.

(** [for _, commit := range commits]: the file queries gathered, or
    [Returned] after a failed [GetCommit]. *)
Fixpoint rangeCommits (checkSuitePayload : CheckSuiteEvent) (checkRun : CheckRun)
    (pullRequest : PullRequest) (commits : list RepositoryCommit)
    (fileQueries : list GitHubFileQuery) : M (Flow (list GitHubFileQuery)) :=
  match commits with
  | [] => ret (Next fileQueries)
  | commit :: rest =>
      let commitSha := SHA commit in
      ' (commitWithFiles, err) <-
        Repositories_GetCommit handler
          (Login (Owner (CheckSuiteEvent_Repo checkSuitePayload)))
          (Name (CheckSuiteEvent_Repo checkSuitePayload))
          commitSha ;;
      match err with
      | Some e =>
          handleFailure checkRun
            ("Failed to get commit " ++ commitSha ++ " from pull request #"
               ++ fmt.d (addr (Number pullRequest)))
            e ;;
          ret Returned
      | None =>
          rangeCommits checkSuitePayload checkRun pullRequest rest
            (rangeFiles checkSuitePayload commitSha (Files commitWithFiles)
               fileQueries)
      end
  end.

(** The reminder posted when every match is resolved. *)
Definition reminderBody (checkRun : CheckRun) : string :=
  let body := "## :warning: Heads up!" ++ fmt.nl in
  let body := body ++
    "It looks like there is _potentially_ sensitive information in the commit history, but it appears to have since been removed."
    ++ fmt.nl in
  let body := body ++
    ("See the [Orca check results](" ++ HTMLURL checkRun
       ++ ") for more information." ++ fmt.nl) in
  let body := body ++
    "If any sensitive information is in the history, please make sure it is addressed appropriately." in
  body.

(** The body of [for _, pullRequest := range ...PullRequests]. *)
Definition pullRequestBody (checkSuitePayload : CheckSuiteEvent)
    (checkRun : CheckRun) (pullRequest : PullRequest) : M (Flow unit) :=
  let owner := Login (Owner (CheckSuiteEvent_Repo checkSuitePayload)) in
  let repo := Name (CheckSuiteEvent_Repo checkSuitePayload) in
  ' (commits, err) <-
    PullRequests_ListCommits handler owner repo (deref (Number pullRequest)) ;;
  match err with
  | Some e =>
      handleFailure checkRun
        ("Failed to get commits from pull request #"
           ++ fmt.d (addr (Number pullRequest)))
        e ;;
      ret Returned
  | None =>
      gathered <- rangeCommits checkSuitePayload checkRun pullRequest commits [] ;;
      match gathered with
      | Returned => ret Returned
      | Next fileQueries =>
          ' (commitScanResults, err) <-
            Scanner_CheckFileContentFromQueries handler fileQueries ;;
          match err with
          | Some e =>
              handleFailure checkRun
                ("Failed to scan commits from pull request #"
                   ++ fmt.d (addr (Number pullRequest)))
                e ;;
              ret Returned
          | None =>
              if (0 <? List.length commitScanResults)%nat then
                if AllMatchesAreResolved commitScanResults then
                  log InfoLevel
                    "Matches found but resolved in pull request #%d, passing check with reminder"
                    [ArgPointer (Number pullRequest)] ;;
                  let conclusion := checkRunConclusionSuccess in
                  let body := reminderBody checkRun in
                  err <- Issues_CreateComment handler owner repo
                           (deref (Number pullRequest)) {| Body := body |} ;;
                  match err with
                  | Some e =>
                      handleFailure checkRun
                        "Failed to reply to Pull Request with commit history warning"
                        e ;;
                      ret Returned
                  | None =>
                      let (title, text) := BuildMessage commitScanResults in
                      completeCheckRun checkRun conclusion title (Some text) ;;
                      ret Returned
                  end
                else
                  log DebugLevel
                    "Potentially sensitive information detected, failing check" [] ;;
                  let conclusion := checkRunConclusionFailure in
                  let (title, text) := BuildMessage commitScanResults in
                  completeCheckRun checkRun conclusion title (Some text) ;;
                  ret Returned
              else
                log DebugLevel "No matches to address" [] ;;
                ret (Next tt)
          end
      end
  end.

(** [for _, pullRequest := range checkSuitePayload.CheckSuite.PullRequests] *)
Fixpoint rangePullRequests (checkSuitePayload : CheckSuiteEvent)
    (checkRun : CheckRun) (pullRequests : list PullRequest) : M (Flow unit) :=
  match pullRequests with
  | [] => ret (Next tt)
  | pullRequest :: rest =>
      flow <- pullRequestBody checkSuitePayload checkRun pullRequest ;;
      match flow with
      | Returned => ret Returned
      | Next _ => rangePullRequests checkSuitePayload checkRun rest
      end
  end.

Definition HandleCheckSuite (checkSuitePayload : CheckSuiteEvent) : M unit :=
  let owner := Login (Owner (CheckSuiteEvent_Repo checkSuitePayload)) in
  let repo := Name (CheckSuiteEvent_Repo checkSuitePayload) in
  log InfoLevel "Handling check suite event from %s/%s (%d)"
    [ArgString owner; ArgString repo;
     ArgInt (CheckSuite_ID (CheckSuiteEvent_CheckSuite checkSuitePayload))] ;;
  log DebugLevel "Creating new check run" [] ;;
  let inProgressString := checkRunStatusInProgress in
  ' (checkRun, err) <-
    Checks_CreateCheckRun handler owner repo
      {| CreateCheckRunOptions_Name := "Orca Checks";
         CreateCheckRunOptions_HeadSHA :=
           CheckSuite_HeadSHA (CheckSuiteEvent_CheckSuite checkSuitePayload);
         CreateCheckRunOptions_Status := inProgressString |} ;;
  match err with
  | Some _ =>
      (* log.Error().Err(err): the zerolog event is built and dropped,
         no Msg or Send writes it *)
      ret tt
  | None =>
      log DebugLevel "Check run %d created" [ArgPointer (CheckRun_ID checkRun)] ;;
      let checkRun := setRepository checkRun (CheckSuiteEvent_Repo checkSuitePayload) in
      if (0 <? List.length (PullRequests (CheckSuiteEvent_CheckSuite checkSuitePayload)))%nat
      then
        flow <- rangePullRequests checkSuitePayload checkRun
                  (PullRequests (CheckSuiteEvent_CheckSuite checkSuitePayload)) ;;
        match flow with
        | Returned => ret tt
        | Next _ =>
            completeCheckRun checkRun checkRunConclusionSuccess
              "No issues detected" None
        end
      else
        completeCheckRun checkRun checkRunConclusionSkipped
          "No Pull Requests found. Orca Checks are currently only supported from Pull Requests"
          None ;;
        log InfoLevel "No pull request exists, skipping" []
  end.

End CheckSuite.

(** *** The push handler *)

Section Push.
Context `{Externals} (handler : PayloadHandler).

Definition HandlePush (pushPayload : PushEvent) : M unit :=
  log InfoLevel "Handling push..." [] ;;
  ' (pullRequests, err) <-
    PullRequests_List handler
      (Login (Owner (PushEvent_Repo pushPayload)))
      (Name (PushEvent_Repo pushPayload))
      {| State := "open";
         Head := Pusher_Name (PushEvent_Pusher pushPayload) ++ ":" ++ Ref pushPayload |} ;;
  if (0 <? List.length pullRequests)%nat then
    log InfoLevel
      ("Pull Request already exists for %s, skipping check on push." ++ fmt.nl)
      [ArgString (Ref pushPayload)]
  else
    ' (commitScanResults, err) <- Scanner_CheckPush handler pushPayload ;;
    match err with
    | Some _ =>
        (* log.Fatal().Err(err): built and dropped, then return *)
        ret tt
    | None =>
        if (0 <? List.length commitScanResults)%nat then
          log InfoLevel "Potentially sensitive information detected. Rectifying..." [] ;;
          err <- HandleMatchesFromPush handler pushPayload commitScanResults ;;
          match err with
          | Some _ => ret tt
          | None => log InfoLevel "Push has been addressed" []
          end
        else
          log InfoLevel "No matches to address" []
    end.

End Push.

(** *** Reading a trace *)

Section Reading.
Context `{Externals}.

(** Status and conclusion of every UpdateCheckRun request, in order. *)
Definition verdictOf (ev : Event) : list (checkRunStatus * checkRunConclusion) :=
  match ev with
  | EvUpdateCheckRun _ _ _ opts _ => [(Status opts, Conclusion opts)]
  | _ => []
  end.

Definition verdicts (trace : list Event)
    : list (checkRunStatus * checkRunConclusion) :=
  flat_map verdictOf trace.

(** Every status sent for the check run, by CreateCheckRun or by
    UpdateCheckRun, with the error the request came back with. *)
Definition statusWriteOf (ev : Event) : list (checkRunStatus * error) :=
  match ev with
  | EvCreateCheckRun _ _ opts reply =>
      [(CreateCheckRunOptions_Status opts, snd reply)]
  | EvUpdateCheckRun _ _ _ opts reply => [(Status opts, reply)]
  | _ => []
  end.

Definition statusWrites (trace : list Event) : list (checkRunStatus * error) :=
  flat_map statusWriteOf trace.

(** The check run was created: CreateCheckRun came back without error. *)
Definition isCreation (ev : Event) : bool :=
  match ev with
  | EvCreateCheckRun _ _ _ (_, None) => true
  | _ => false
  end.

Definition checkRunCreated (trace : list Event) : bool := existsb isCreation trace.

(** The calls that gather and scan the commits of a pull request. *)
Definition isFetch (ev : Event) : bool :=
  match ev with
  | EvListCommits _ _ _ _ => true
  | EvGetCommit _ _ _ _ => true
  | EvCheckFileContentFromQueries _ _ => true
  | _ => false
  end.

Definition fetches (trace : list Event) : list Event := filter isFetch trace.

(** The error of a gathering or scanning call that failed. *)
Definition fetchError (ev : Event) : option string :=
  match ev with
  | EvListCommits _ _ _ (_, err) => err
  | EvGetCommit _ _ _ (_, err) => err
  | EvCheckFileContentFromQueries _ (_, err) => err
  | _ => None
  end.

(** The pull-request numbers handed to ListCommits, in order. *)
Definition listedOf (ev : Event) : list Z :=
  match ev with
  | EvListCommits _ _ number _ => [number]
  | _ => []
  end.

Definition listed (trace : list Event) : list Z := flat_map listedOf trace.

(** The replies of the scanner, in order. *)
Definition scanOf (ev : Event) : list (list CommitScanResult * error) :=
  match ev with
  | EvCheckFileContentFromQueries _ reply => [reply]
  | _ => []
  end.

Definition scans (trace : list Event) : list (list CommitScanResult * error) :=
  flat_map scanOf trace.

(** The comments posted: pull-request number, body and reply. *)
Definition commentOf (ev : Event) : list (Z * string * error) :=
  match ev with
  | EvCreateComment _ _ number comment reply => [(number, Body comment, reply)]
  | _ => []
  end.

Definition comments (trace : list Event) : list (Z * string * error) :=
  flat_map commentOf trace.

Definition isLog (ev : Event) : bool :=
  match ev with
  | EvLog _ _ _ => true
  | _ => false
  end.

(** The completion written after the loop over the pull requests
    ran to its end: Success, summary [No issues detected], no text. *)
Definition isAllClear (ev : Event) : bool :=
  match ev with
  | EvUpdateCheckRun _ _ _ opts _ =>
      (Status opts =? checkRunStatusCompleted)
      && (Conclusion opts =? checkRunConclusionSuccess)
      && (Summary (Output opts) =? "No issues detected")
      && match Text (Output opts) with None => true | Some _ => false end
  | _ => false
  end.

Definition allClear (trace : list Event) : bool := existsb isAllClear trace.

(** The pull-request numbers of the payload, in payload order. *)
Definition payloadNumbers (checkSuitePayload : CheckSuiteEvent) : list Z :=
  map (fun pullRequest => deref (Number pullRequest))
    (PullRequests (CheckSuiteEvent_CheckSuite checkSuitePayload)).

End Reading.

Arguments verdicts : simpl never.
Arguments statusWrites : simpl never.
Arguments listed : simpl never.
Arguments scans : simpl never.
Arguments comments : simpl never.
Arguments fetches : simpl never.
Arguments checkRunCreated : simpl never.
Arguments allClear : simpl never.

(** *** The events of the completion helpers, given the reply *)

Section HelperEvents.
Context `{Externals}.

Definition updateCheckRunEvents (checkRun : CheckRun) (status : checkRunStatus)
    (conclusion : checkRunConclusion) (summary : string) (text : option string)
    (reply : error) : list Event :=
  EvUpdateCheckRun
    (Login (Owner (CheckSuite_Repository (CheckRun_CheckSuite checkRun))))
    (Name (CheckSuite_Repository (CheckRun_CheckSuite checkRun)))
    (deref (CheckRun_ID checkRun))
    {| Status := status;
       Conclusion := conclusion;
       Output := {| Title := "Orca Checks"; Summary := summary; Text := text |} |}
    reply
  :: match reply with
     | Some e =>
         [EvLog ErrorLevel "Failed to update check run %d: %v"
            [ArgPointer (CheckRun_ID checkRun); ArgError e]]
     | None => []
     end.

Definition handleFailureEvents (checkRun : CheckRun) (summary : string)
    (err : string) (reply : error) : list Event :=
  (updateCheckRunEvents checkRun checkRunStatusCompleted checkRunConclusionFailure
     summary None reply
   ++ [EvLog ErrorLevel "Check run %d failed: %v"
         [ArgPointer (CheckRun_ID checkRun); ArgError err]])%list.

Definition completeCheckRunEvents (checkRun : CheckRun)
    (conclusion : checkRunConclusion) (summary : string) (text : option string)
    (reply : error) : list Event :=
  (updateCheckRunEvents checkRun checkRunStatusCompleted conclusion summary text reply
   ++ [EvLog DebugLevel
         ("Check run %d completed with conclusion " ++ fmt.dquote ++ "%s" ++ fmt.dquote)
         [ArgPointer (CheckRun_ID checkRun); ArgString conclusion]])%list.

End HelperEvents.

End handlers.

(* ================================================================== *)
(** ** The traces the check-suite handler can leave

    Whatever the platform answers, the events of one run of the handler
    follow one of a few patterns.  They are spelled out here once, so
    that each property of the handler is read off the pattern. *)

Module shape.

Import github scanning caching handlers.

Section Shapes.
Context `{Externals} (checkSuitePayload : CheckSuiteEvent) (checkRun : CheckRun).

Let owner := Login (Owner (CheckSuiteEvent_Repo checkSuitePayload)).
Let repo := Name (CheckSuiteEvent_Repo checkSuitePayload).

(** The loop over the commits of one pull request. *)
Inductive Commits (pullRequest : PullRequest)
  : list RepositoryCommit -> list GitHubFileQuery ->
    Flow (list GitHubFileQuery) -> list Event -> Prop :=
| Commits_done fileQueries :
    Commits pullRequest [] fileQueries (Next fileQueries) []
| Commits_step commit rest fileQueries commitWithFiles flow trace :
    Commits pullRequest rest
      (rangeFiles checkSuitePayload (SHA commit) (Files commitWithFiles) fileQueries)
      flow trace ->
    Commits pullRequest (commit :: rest) fileQueries flow
      (EvGetCommit owner repo (SHA commit) (commitWithFiles, None) :: trace)
| Commits_failed commit rest fileQueries commitWithFiles e reply :
    Commits pullRequest (commit :: rest) fileQueries Returned
      (EvGetCommit owner repo (SHA commit) (commitWithFiles, Some e)
       :: handleFailureEvents checkRun
            ("Failed to get commit " ++ SHA commit ++ " from pull request #"
               ++ fmt.d (addr (Number pullRequest)))
            e reply).

(** One turn of the loop over the pull requests. *)
Inductive Turn (pullRequest : PullRequest) : Flow unit -> list Event -> Prop :=
| Turn_listFailed commits e reply :
    Turn pullRequest Returned
      (EvListCommits owner repo (deref (Number pullRequest)) (commits, Some e)
       :: handleFailureEvents checkRun
            ("Failed to get commits from pull request #"
               ++ fmt.d (addr (Number pullRequest)))
            e reply)
| Turn_commitFailed commits trace :
    Commits pullRequest commits [] Returned trace ->
    Turn pullRequest Returned
      (EvListCommits owner repo (deref (Number pullRequest)) (commits, None)
       :: trace)
| Turn_scanFailed commits fileQueries trace results e reply :
    Commits pullRequest commits [] (Next fileQueries) trace ->
    Turn pullRequest Returned
      (EvListCommits owner repo (deref (Number pullRequest)) (commits, None)
       :: trace
       ++ EvCheckFileContentFromQueries fileQueries (results, Some e)
       :: handleFailureEvents checkRun
            ("Failed to scan commits from pull request #"
               ++ fmt.d (addr (Number pullRequest)))
            e reply)%list
| Turn_clean commits fileQueries trace :
    Commits pullRequest commits [] (Next fileQueries) trace ->
    Turn pullRequest (Next tt)
      (EvListCommits owner repo (deref (Number pullRequest)) (commits, None)
       :: trace
       ++ [EvCheckFileContentFromQueries fileQueries ([], None);
           EvLog DebugLevel "No matches to address" []])%list
| Turn_unresolved commits fileQueries trace results reply :
    Commits pullRequest commits [] (Next fileQueries) trace ->
    results <> [] ->
    AllMatchesAreResolved results = false ->
    Turn pullRequest Returned
      (EvListCommits owner repo (deref (Number pullRequest)) (commits, None)
       :: trace
       ++ EvCheckFileContentFromQueries fileQueries (results, None)
       :: EvLog DebugLevel
            "Potentially sensitive information detected, failing check" []
       :: completeCheckRunEvents checkRun checkRunConclusionFailure
            (fst (BuildMessage results)) (Some (snd (BuildMessage results)))
            reply)%list
| Turn_reminded commits fileQueries trace results reply :
    Commits pullRequest commits [] (Next fileQueries) trace ->
    results <> [] ->
    AllMatchesAreResolved results = true ->
    Turn pullRequest Returned
      (EvListCommits owner repo (deref (Number pullRequest)) (commits, None)
       :: trace
       ++ EvCheckFileContentFromQueries fileQueries (results, None)
       :: EvLog InfoLevel
            "Matches found but resolved in pull request #%d, passing check with reminder"
            [ArgPointer (Number pullRequest)]
       :: EvCreateComment owner repo (deref (Number pullRequest))
            {| Body := reminderBody checkRun |} None
       :: completeCheckRunEvents checkRun checkRunConclusionSuccess
            (fst (BuildMessage results)) (Some (snd (BuildMessage results)))
            reply)%list
| Turn_reminderFailed commits fileQueries trace results e reply :
    Commits pullRequest commits [] (Next fileQueries) trace ->
    results <> [] ->
    AllMatchesAreResolved results = true ->
    Turn pullRequest Returned
      (EvListCommits owner repo (deref (Number pullRequest)) (commits, None)
       :: trace
       ++ EvCheckFileContentFromQueries fileQueries (results, None)
       :: EvLog InfoLevel
            "Matches found but resolved in pull request #%d, passing check with reminder"
            [ArgPointer (Number pullRequest)]
       :: EvCreateComment owner repo (deref (Number pullRequest))
            {| Body := reminderBody checkRun |} (Some e)
       :: handleFailureEvents checkRun
            "Failed to reply to Pull Request with commit history warning"
            e reply)%list.

(** The loop over the pull requests. *)
Inductive Loop : list PullRequest -> Flow unit -> list Event -> Prop :=
| Loop_done : Loop [] (Next tt) []
| Loop_next pullRequest rest turn flow trace :
    Turn pullRequest (Next tt) turn ->
    Loop rest flow trace ->
    Loop (pullRequest :: rest) flow (turn ++ trace)%list
| Loop_return pullRequest rest turn :
    Turn pullRequest Returned turn ->
    Loop (pullRequest :: rest) Returned turn.

End Shapes.

Section Opening.
Context `{Externals} (checkSuitePayload : CheckSuiteEvent).

Let owner := Login (Owner (CheckSuiteEvent_Repo checkSuitePayload)).
Let repo := Name (CheckSuiteEvent_Repo checkSuitePayload).

(** What the handler does up to and including CreateCheckRun. *)
Definition opening (reply : CheckRun * error) : list Event :=
  [EvLog InfoLevel "Handling check suite event from %s/%s (%d)"
     [ArgString owner; ArgString repo;
      ArgInt (CheckSuite_ID (CheckSuiteEvent_CheckSuite checkSuitePayload))];
   EvLog DebugLevel "Creating new check run" [];
   EvCreateCheckRun owner repo
     {| CreateCheckRunOptions_Name := "Orca Checks";
        CreateCheckRunOptions_HeadSHA :=
          CheckSuite_HeadSHA (CheckSuiteEvent_CheckSuite checkSuitePayload);
        CreateCheckRunOptions_Status := checkRunStatusInProgress |}
     reply].

(** The check run as the handler holds it after creation. *)
Definition held (created : CheckRun) : CheckRun :=
  setRepository created (CheckSuiteEvent_Repo checkSuitePayload).

End Opening.

(** *** A trace as an uneventful part followed by an ending *)

Section Endings.
Context `{Externals} (checkSuitePayload : CheckSuiteEvent) (checkRun : CheckRun).

Let owner := Login (Owner (CheckSuiteEvent_Repo checkSuitePayload)).
Let repo := Name (CheckSuiteEvent_Repo checkSuitePayload).

(** A GetCommit that came back without error. *)
Definition fetched (ev : Event) : bool :=
  match ev with
  | EvGetCommit _ _ _ (_, None) => true
  | _ => false
  end.

(** The events of the turns that fall through to the next pull request:
    gathering calls without error, scans without error and without a
    result, and log lines. *)
Definition calm (ev : Event) : bool :=
  match ev with
  | EvListCommits _ _ _ (_, None) => true
  | EvGetCommit _ _ _ (_, None) => true
  | EvCheckFileContentFromQueries _ ([], None) => true
  | EvLog _ _ _ => true
  | _ => false
  end.

(** The ways a turn for [pullRequest] makes the handler return. *)
Inductive Ending (pullRequest : PullRequest) : list Event -> Prop :=
| Ending_failed ev e summary reply :
    isFetch ev = true ->
    fetchError ev = Some e ->
    Ending pullRequest (ev :: handleFailureEvents checkRun summary e reply)
| Ending_unresolved fileQueries results reply :
    results <> [] ->
    AllMatchesAreResolved results = false ->
    Ending pullRequest
      (EvCheckFileContentFromQueries fileQueries (results, None)
       :: EvLog DebugLevel
            "Potentially sensitive information detected, failing check" []
       :: completeCheckRunEvents checkRun checkRunConclusionFailure
            (fst (BuildMessage results)) (Some (snd (BuildMessage results))) reply)
| Ending_reminded fileQueries results reply :
    results <> [] ->
    AllMatchesAreResolved results = true ->
    Ending pullRequest
      (EvCheckFileContentFromQueries fileQueries (results, None)
       :: EvLog InfoLevel
            "Matches found but resolved in pull request #%d, passing check with reminder"
            [ArgPointer (Number pullRequest)]
       :: EvCreateComment owner repo (deref (Number pullRequest))
            {| Body := reminderBody checkRun |} None
       :: completeCheckRunEvents checkRun checkRunConclusionSuccess
            (fst (BuildMessage results)) (Some (snd (BuildMessage results))) reply)
| Ending_reminderFailed fileQueries results e reply :
    results <> [] ->
    AllMatchesAreResolved results = true ->
    Ending pullRequest
      (EvCheckFileContentFromQueries fileQueries (results, None)
       :: EvLog InfoLevel
            "Matches found but resolved in pull request #%d, passing check with reminder"
            [ArgPointer (Number pullRequest)]
       :: EvCreateComment owner repo (deref (Number pullRequest))
            {| Body := reminderBody checkRun |} (Some e)
       :: handleFailureEvents checkRun
            "Failed to reply to Pull Request with commit history warning" e reply).

End Endings.

Section Runs.
Context `{Externals} (checkSuitePayload : CheckSuiteEvent).

(** One run of the handler: the check run is not created; or there is
    no pull request; or some turn of the loop returns, after an
    uneventful part; or every turn falls through. *)
Inductive Run : list Event -> Prop :=
| Run_notCreated created e :
    Run (opening checkSuitePayload (created, Some e))
| Run_skipped created reply :
    PullRequests (CheckSuiteEvent_CheckSuite checkSuitePayload) = [] ->
    Run
      (opening checkSuitePayload (created, None)
       ++ EvLog DebugLevel "Check run %d created" [ArgPointer (CheckRun_ID created)]
       :: completeCheckRunEvents (held checkSuitePayload created)
            checkRunConclusionSkipped
            "No Pull Requests found. Orca Checks are currently only supported from Pull Requests"
            None reply
       ++ [EvLog InfoLevel "No pull request exists, skipping" []])%list
| Run_ended created quiet ending pullRequest k :
    Forall (fun ev => calm ev = true) quiet ->
    Ending checkSuitePayload (held checkSuitePayload created) pullRequest ending ->
    nth_error (PullRequests (CheckSuiteEvent_CheckSuite checkSuitePayload)) k
      = Some pullRequest ->
    listed (quiet ++ ending)%list = firstn (S k) (payloadNumbers checkSuitePayload) ->
    scans quiet = repeat ([], None) k ->
    Run
      (opening checkSuitePayload (created, None)
       ++ EvLog DebugLevel "Check run %d created" [ArgPointer (CheckRun_ID created)]
       :: quiet ++ ending)%list
| Run_allClear created quiet reply :
    PullRequests (CheckSuiteEvent_CheckSuite checkSuitePayload) <> [] ->
    Forall (fun ev => calm ev = true) quiet ->
    listed quiet = payloadNumbers checkSuitePayload ->
    scans quiet =
      repeat ([], None)
        (List.length (PullRequests (CheckSuiteEvent_CheckSuite checkSuitePayload))) ->
    Run
      (opening checkSuitePayload (created, None)
       ++ EvLog DebugLevel "Check run %d created" [ArgPointer (CheckRun_ID created)]
       :: quiet
       ++ completeCheckRunEvents (held checkSuitePayload created)
            checkRunConclusionSuccess "No issues detected" None reply)%list.

End Runs.

End shape.

(* ================================================================== *)
(** ** Package remediator *)

Module remediator.

(** The webhook payload of a push (webhooks.v5), as far as it is read:
    its fields are plain strings. *)
Record PushPayload := {
  Repository_Owner_Login : string;
  Repository_Name : string;
  Pusher_Name : string }.

(** Modelled from the spec: [handlers.CommitScanResult] as the
    remediator sees it is not among the sources.  Section 3 gives a
    FileMatch a display path and a locator URL, a LineMatch its line
    number, a ContentMatch a file and its LineMatch entries, and a scan
    result its commit with the FileMatches and the ContentMatches. *)
Record FileMatch := { FileMatch_Path : string; FileMatch_URL : string }.

Record LineMatch := { LineNumber : Z }.

Record ContentMatch := {
  ContentMatch_Path : string;
  ContentMatch_URL : string;
  LineMatches : list LineMatch }.

Record CommitScanResult := {
  Commit : string;
  FileMatches : list FileMatch;
  ContentMatches : list ContentMatch }.

Record IssueRequest := {
  Title : string;
  Body : string;
  Assignee : string }.

(** [handlerContext.GitHubAPIClient.Issues.Create]: the error it
    returns for an owner, a repository and a request. *)
Record HandlerContext := {
  Issues_Create : string -> string -> IssueRequest -> error }.

(** A call that left the remediator, with its reply. *)
Inductive Call :=
| IssuesCreate (owner repo : string) (request : IssueRequest) (reply : error).

(** [for _, dangerousFile := range result.FileMatches] *)
Fixpoint rangeFileMatches (fileMatches : list FileMatch) (body : string) : string :=
  match fileMatches with
  | [] => body
  | dangerousFile :: rest =>
      rangeFileMatches rest
        (body ++ ("- [" ++ FileMatch_Path dangerousFile ++ "]("
                    ++ FileMatch_URL dangerousFile ++ ")" ++ fmt.nl))
  end.

(** [for _, lineMatch := range contentMatch.LineMatches] *)
Fixpoint rangeLineMatches (contentMatch : ContentMatch)
    (lineMatches : list LineMatch) (body : string) : string :=
  match lineMatches with
  | [] => body
  | lineMatch :: rest =>
      rangeLineMatches contentMatch rest
        (body ++ (ContentMatch_URL contentMatch ++ "#L"
                    ++ fmt.d (LineNumber lineMatch) ++ fmt.nl))
  end.

(** [for _, contentMatch := range result.ContentMatches] *)
Fixpoint rangeContentMatches (contentMatches : list ContentMatch) (body : string)
    : string :=
  match contentMatches with
  | [] => body
  | contentMatch :: rest =>
      let body := body ++ ("### " ++ ContentMatch_Path contentMatch ++ fmt.nl) in
      rangeContentMatches rest
        (rangeLineMatches contentMatch (LineMatches contentMatch) body)
  end.

(** [for _, result := range results] *)
Fixpoint rangeResults (results : list CommitScanResult) (body : string) : string :=
  match results with
  | [] => body
  | result :: rest =>
      let body := body ++ ("Introduced in " ++ Commit result ++ ":" ++ fmt.nl) in
      let body :=
        if (0 <? List.length (FileMatches result))%nat then
          let body := body ++ ("Potentially sensitive files:" ++ fmt.nl) in
          let body := rangeFileMatches (FileMatches result) body in
          body ++ (fmt.nl ++ fmt.nl)
        else body in
      let body :=
        if (0 <? List.length (ContentMatches result))%nat then
          let body := body ++ ("Files containing potentially sensitive data:" ++ fmt.nl) in
          rangeContentMatches (ContentMatches result) body
        else body in
      rangeResults rest body
  end.

(** The error returned, and the calls made on the way. *)
Definition RemediateFromPush (pushPayload : PushPayload)
    (results : list CommitScanResult) (handlerContext : HandlerContext)
    : error * list Call :=
  let title :=
    if (1 <? List.length results)%nat then
      "Potentially sensitive data found in "
        ++ fmt.d (Z.of_nat (List.length results)) ++ " commits"
    else
      "Potentially sensitive data found in a commit" in
  let body :=
    "Potentially sensitive data has recently been pushed to this repository."
      ++ fmt.nl ++ fmt.nl in
  let body := rangeResults results body in
  let request :=
    {| Title := title; Body := body; Assignee := Pusher_Name pushPayload |} in
  let err :=
    Issues_Create handlerContext
      (Repository_Owner_Login pushPayload) (Repository_Name pushPayload) request in
  let calls :=
    [IssuesCreate (Repository_Owner_Login pushPayload) (Repository_Name pushPayload)
       request err] in
  match err with
  | Some e => (Some e, calls)
  | None => (None, calls)
  end.

End remediator.

(* ================================================================== *)
(** ** A concrete setting to run the handlers in *)

Module sample.

Import github scanning caching handlers.

Inductive FileState3 := Added | Modified | Removed.

#[export] Instance externals : Externals := {|
  FileState := FileState3;
  FileAdded := Added;
  FileModified := Modified;
  FileRemoved := Removed;
  FileStateZero := Added;
  BuildMessage := fun results =>
    ("Potentially sensitive data detected",
     fmt.d (Z.of_nat (List.length results)) ++ " commits flagged") |}.

Definition repo : Repository :=
  {| Owner := {| Login := "octo" |}; Name := "orca" |}.

Definition pr (n : Z) : PullRequest := {| Number := {| addr := 4096 + n; deref := n |} |}.

Definition suite (prs : list PullRequest) : CheckSuiteEvent :=
  {| CheckSuiteEvent_Repo := repo;
     CheckSuiteEvent_CheckSuite :=
       {| CheckSuite_ID := 7; CheckSuite_HeadSHA := "abc123";
          PullRequests := prs; CheckSuite_Repository := repo |} |}.

Definition run : CheckRun :=
  {| CheckRun_ID := {| addr := 8192; deref := 55 |};
     HTMLURL := "https://example.test/runs/55";
     CheckRun_CheckSuite :=
       {| CheckSuite_ID := 7; CheckSuite_HeadSHA := "abc123";
          PullRequests := []; CheckSuite_Repository := repo |} |}.

Definition commit (sha : string) (files : list CommitFile) : RepositoryCommit :=
  {| SHA := sha; Files := files |}.

Definition res (sha : string) (flags : list bool) : CommitScanResult :=
  {| scanning.Commit := sha; Matches := map (fun b => {| Resolved := b |}) flags |}.

(** A platform that answers every call without error: each pull
    request has the one commit [c1] touching [secret.pem], the scan of
    pull request number [n] answers [scan n] (the number is recovered
    from the last ListCommits of the past), and [commentErr],
    [updateErr] are the errors of CreateComment and UpdateCheckRun. *)
Fixpoint lastListed (past : list Event) (acc : Z) : Z :=
  match past with
  | [] => acc
  | EvListCommits _ _ n _ :: rest => lastListed rest n
  | _ :: rest => lastListed rest acc
  end.

Definition platform (scan : Z -> list CommitScanResult * error)
    (commentErr updateErr : error) : PayloadHandler :=
  {| reply_CreateCheckRun := fun _ _ _ _ => (run, None);
     reply_ListCommits := fun _ _ _ _ => ([commit "c1" []], None);
     reply_GetCommit := fun _ _ _ sha =>
       (commit sha [ {| Filename := "secret.pem"; CommitFile_Status := "added" |} ], None);
     reply_CheckFileContentFromQueries := fun past _ => scan (lastListed past 0);
     reply_CreateComment := fun _ _ _ _ _ => commentErr;
     reply_UpdateCheckRun := fun _ _ _ _ _ => updateErr;
     reply_List := fun _ _ _ _ => ([], None);
     reply_CheckPush := fun _ _ => ([], None);
     reply_HandleMatchesFromPush := fun _ _ _ => None |}.

(** The file queries gathered for one pull request of that platform. *)
Definition queries : list GitHubFileQuery :=
  [ {| RepoOwner := "octo"; RepoName := "orca"; CommitSHA := "c1";
       FileName := "secret.pem"; GitHubFileQuery_Status := Added |} ].

(** Scan results: one commit with two resolved matches; one commit with
    a resolved and an unresolved match. *)
Definition resolved : list CommitScanResult := [res "c1" [true; true]].

Definition unresolved : list CommitScanResult := [res "c1" [true; false]].

(** Every scan finds resolved matches; the reminder is accepted. *)
Definition reminded : PayloadHandler :=
  platform (fun _ => (resolved, None)) None None.

(** Every scan finds resolved matches; the reminder is refused. *)
Definition reminderRefused : PayloadHandler :=
  platform (fun _ => (resolved, None)) (Some "comment refused") None.

(** Pull request 2 holds an unresolved match, the others are clean. *)
Definition secondUnresolved : PayloadHandler :=
  platform (fun n => if (n =? 2)%Z then (unresolved, None) else ([], None)) None None.

(** The scan of pull request 2 fails, the others are clean. *)
Definition secondScanFails : PayloadHandler :=
  platform (fun n => if (n =? 2)%Z then ([], Some "scan failed") else ([], None))
    None None.

(** Every scan is clean; the completing update is refused. *)
Definition updateRefused : PayloadHandler :=
  platform (fun _ => ([], None)) None (Some "update refused").

(** Every scan is clean and every call is accepted. *)
Definition clean : PayloadHandler := platform (fun _ => ([], None)) None None.

Definition push : PushEvent :=
  {| PushEvent_Repo := repo;
     PushEvent_Pusher := {| Pusher_Name := "mona" |};
     Ref := "refs/heads/feature" |}.

(** A platform on which the pushed ref has the open pull requests
    [opened], and on which a scan of the push would find a match. *)
Definition pushPlatform (opened : list PullRequest) : PayloadHandler :=
  {| reply_CreateCheckRun := fun _ _ _ _ => (run, None);
     reply_ListCommits := fun _ _ _ _ => ([], None);
     reply_GetCommit := fun _ _ _ sha => (commit sha [], None);
     reply_CheckFileContentFromQueries := fun _ _ => ([], None);
     reply_CreateComment := fun _ _ _ _ _ => None;
     reply_UpdateCheckRun := fun _ _ _ _ _ => None;
     reply_List := fun _ _ _ _ => (opened, None);
     reply_CheckPush := fun _ _ => (unresolved, None);
     reply_HandleMatchesFromPush := fun _ _ _ => None |}.

Definition pushed : remediator.PushPayload :=
  {| remediator.Repository_Owner_Login := "octo";
     remediator.Repository_Name := "orca";
     remediator.Pusher_Name := "mona" |}.

Definition finding (sha : string) : remediator.CommitScanResult :=
  {| remediator.Commit := sha;
     remediator.FileMatches :=
       [ {| remediator.FileMatch_Path := "secret.pem";
            remediator.FileMatch_URL := "https://example.test/secret.pem" |} ];
     remediator.ContentMatches :=
       [ {| remediator.ContentMatch_Path := "config.yml";
            remediator.ContentMatch_URL := "https://example.test/config.yml";
            remediator.LineMatches := [ {| remediator.LineNumber := 12 |} ] |} ] |}.

Definition accepting : remediator.HandlerContext :=
  {| remediator.Issues_Create := fun _ _ _ => None |}.

End sample.

(* ================================================================== *)
(** ** Further readings of a check-suite trace *)

Module reading.

Import github scanning caching handlers.

Section Readings.
Context `{Externals}.

(** The UpdateCheckRun requests: owner, repository, check-run id and
    options, in order. *)
Definition updateOf (ev : Event) : list (string * string * Z * UpdateCheckRunOptions) :=
  match ev with
  | EvUpdateCheckRun owner repo id opts _ => [(owner, repo, id, opts)]
  | _ => []
  end.

Definition updates (trace : list Event)
    : list (string * string * Z * UpdateCheckRunOptions) :=
  flat_map updateOf trace.

(** The comments posted, with the repository they go to: owner,
    repository, pull-request number, body and reply. *)
Definition postOf (ev : Event) : list (string * string * Z * string * error) :=
  match ev with
  | EvCreateComment owner repo number comment reply =>
      [(owner, repo, number, Body comment, reply)]
  | _ => []
  end.

Definition posts (trace : list Event)
    : list (string * string * Z * string * error) :=
  flat_map postOf trace.

(** The file query the check-suite handler builds for one file of the
    commit [commitSha]. *)
Definition fileQuery (checkSuitePayload : CheckSuiteEvent) (commitSha : string)
    (file : CommitFile) : GitHubFileQuery :=
  {| RepoOwner := Login (Owner (CheckSuiteEvent_Repo checkSuitePayload));
     RepoName := Name (CheckSuiteEvent_Repo checkSuitePayload);
     CommitSHA := commitSha;
     FileName := Filename file;
     GitHubFileQuery_Status := fileStatusOf (CommitFile_Status file) |}.

(** The file queries that one GetCommit answered without error gives
    rise to: one per file of the reply, under the SHA that was asked for. *)
Definition queriesOf (checkSuitePayload : CheckSuiteEvent) (ev : Event)
    : list GitHubFileQuery :=
  match ev with
  | EvGetCommit _ _ sha (commitWithFiles, None) =>
      map (fileQuery checkSuitePayload sha) (Files commitWithFiles)
  | _ => []
  end.

(** [gets] are the GetCommit calls for [commits], one each, in order,
    all answered without error. *)
Definition fetchedFor (checkSuitePayload : CheckSuiteEvent)
    (commits : list RepositoryCommit) (gets : list Event) : Prop :=
  Forall2
    (fun commit ev =>
       exists commitWithFiles,
         ev = EvGetCommit
                (Login (Owner (CheckSuiteEvent_Repo checkSuitePayload)))
                (Name (CheckSuiteEvent_Repo checkSuitePayload))
                (SHA commit) (commitWithFiles, None))
    commits gets.

(** The calls of the match handler for a push: payload, scan results
    and reply, in order. *)
Definition remediationOf (ev : Event)
    : list (PushEvent * list CommitScanResult * error) :=
  match ev with
  | EvHandleMatchesFromPush pushPayload results reply => [(pushPayload, results, reply)]
  | _ => []
  end.

Definition remediations (trace : list Event)
    : list (PushEvent * list CommitScanResult * error) :=
  flat_map remediationOf trace.

(** The scan with the queries [fileQueries] sits in [trace] right after
    the listing of a pull request of [pullRequests] and the GetCommit
    calls for the commits listed, and its queries are those of the
    files these calls returned, in order. *)
Definition scannedFrom (checkSuitePayload : CheckSuiteEvent)
    (pullRequests : list PullRequest) (trace : list Event)
    (fileQueries : list GitHubFileQuery) (reply : list CommitScanResult * error)
    : Prop :=
  exists before pullRequest commits gets after,
    In pullRequest pullRequests /\
    trace =
      (before
       ++ EvListCommits
            (Login (Owner (CheckSuiteEvent_Repo checkSuitePayload)))
            (Name (CheckSuiteEvent_Repo checkSuitePayload))
            (deref (Number pullRequest)) (commits, None)
       :: gets
       ++ EvCheckFileContentFromQueries fileQueries reply
       :: after)%list /\
    fetchedFor checkSuitePayload commits gets /\
    fileQueries = flat_map (queriesOf checkSuitePayload) gets.

End Readings.

Arguments updates : simpl never.
Arguments posts : simpl never.

End reading.

(* ================================================================== *)
(** ** The handlers of issues, pull requests, reviews and comments *)

Module content.

Import handlers.

(** The five events whose text is scanned. *)
Inductive Trigger :=
| Issue
| IssueComment
| PullRequest
| PullRequestReview
| PullRequestReviewComment.

(** Modelled from the spec: the result types of the scanner and their
    method HasMatches belong to package scanning, which is not among
    the sources; section 3 says that HasMatches holds when the result
    has a match.  The payload of each event is the go-github type of
    that event.  All of them are left open here, one per trigger. *)
Class Scanned := {
  Payload : Trigger -> Type;
  ScanResult : Trigger -> Type;
  HasMatches : forall t : Trigger, ScanResult t -> bool }.

(** A call that leaves one of these handlers, with its reply, or a log
    line.  [EvCheck Issue] is [Scanner.CheckIssue], [EvHandleMatches
    Issue] is [HandleMatchesFromIssue], and so on for each trigger. *)
Inductive Event `{Scanned} :=
| EvCheck (t : Trigger) (payload : Payload t) (reply : ScanResult t * error)
| EvHandleMatches (t : Trigger) (payload : Payload t) (result : ScanResult t)
    (reply : error)
| EvLog (level : Level) (format : string) (args : list Arg).

(** The scanner and the match handler behind a payload handler: their
    replies, given the trace so far. *)
Record PayloadHandler `{Scanned} := {
  reply_Check : list Event -> forall t : Trigger, Payload t -> ScanResult t * error;
  reply_HandleMatches :
    list Event -> forall t : Trigger, Payload t -> ScanResult t -> error }.

Definition M `{Scanned} (A : Type) : Type := list Event -> A * list Event.

Definition ret `{Scanned} {A : Type} (a : A) : M A := fun _ => (a, []).

Definition bind `{Scanned} {A B : Type} (m : M A) (k : A -> M B) : M B :=
  fun past =>
    let r1 := m past in
    let r2 := k (fst r1) (past ++ snd r1)%list in
    (fst r2, (snd r1 ++ snd r2)%list).

Declare Scope content_scope.
Delimit Scope content_scope with content.
Notation "x <- m ;; k" := (bind m (fun x => k))
  (at level 61, m at next level, right associativity) : content_scope.
Notation "' pat <- m ;; k" := (bind m (fun x => match x with pat => k end))
  (at level 61, pat pattern, m at next level, right associativity) : content_scope.
Notation "m ;; k" := (bind m (fun _ => k))
  (at level 61, right associativity) : content_scope.
Local Open Scope content_scope.

Definition emitted `{Scanned} {A : Type} (m : M A) (past : list Event) : list Event :=
  snd (m past).

Section Handlers.
Context `{Scanned} (handler : PayloadHandler).

Definition log (level : Level) (format : string) (args : list Arg) : M unit :=
  fun _ => (tt, [EvLog level format args]).

Definition check (t : Trigger) (payload : Payload t) : M (ScanResult t * error) :=
  fun past =>
    let reply := reply_Check handler past t payload in
    (reply, [EvCheck t payload reply]).

Definition handleMatches (t : Trigger) (payload : Payload t) (result : ScanResult t)
    : M error :=
  fun past =>
    let reply := reply_HandleMatches handler past t payload result in
    (reply, [EvHandleMatches t payload result reply]).

Definition Scanner_CheckIssue := check Issue.
Definition Scanner_CheckIssueComment := check IssueComment.
Definition Scanner_CheckPullRequest := check PullRequest.
Definition Scanner_CheckPullRequestReview := check PullRequestReview.
Definition Scanner_CheckPullRequestReviewComment := check PullRequestReviewComment.

Definition HandleMatchesFromIssue := handleMatches Issue.
Definition HandleMatchesFromIssueComment := handleMatches IssueComment.
Definition HandleMatchesFromPullRequest := handleMatches PullRequest.
Definition HandleMatchesFromPullRequestReview := handleMatches PullRequestReview.
Definition HandleMatchesFromPullRequestReviewComment :=
  handleMatches PullRequestReviewComment.

Definition HandleIssue (issuePayload : Payload Issue) : M unit :=
  log InfoLevel "Handling issue..." [] ;;
  ' (issueScanResult, err) <- Scanner_CheckIssue issuePayload ;;
  match err with
  | Some _ =>
      (* log.Fatal().Err(err): built and dropped, then return *)
      ret tt
  | None =>
      if HasMatches Issue issueScanResult then
        log InfoLevel "Potentially sensitive information detected. Rectifying..." [] ;;
        err <- HandleMatchesFromIssue issuePayload issueScanResult ;;
        match err with
        | Some _ => ret tt
        | None => log InfoLevel "Issue has been addressed" []
        end
      else
        log InfoLevel "No matches to address" []
  end.

Definition HandleIssueComment (issueCommentPayload : Payload IssueComment) : M unit :=
  log InfoLevel "Handling issue..." [] ;;
  ' (issueScanResult, err) <- Scanner_CheckIssueComment issueCommentPayload ;;
  match err with
  | Some _ => ret tt
  | None =>
      if HasMatches IssueComment issueScanResult then
        log InfoLevel "Potentially sensitive information detected. Rectifying..." [] ;;
        err <- HandleMatchesFromIssueComment issueCommentPayload issueScanResult ;;
        match err with
        | Some _ => ret tt
        | None => log InfoLevel "Issue comment has been addressed" []
        end
      else
        log InfoLevel "No matches to address" []
  end.

Definition HandlePullRequest (pullRequestPayload : Payload PullRequest) : M unit :=
  log InfoLevel "Handling pull request..." [] ;;
  ' (pullRequestScanResult, err) <- Scanner_CheckPullRequest pullRequestPayload ;;
  match err with
  | Some _ => ret tt
  | None =>
      if HasMatches PullRequest pullRequestScanResult then
        log InfoLevel "Potentially sensitive information detected. Rectifying..." [] ;;
        err <- HandleMatchesFromPullRequest pullRequestPayload pullRequestScanResult ;;
        match err with
        | Some _ => ret tt
        | None => log InfoLevel "Pull request has been addressed" []
        end
      else
        log InfoLevel "No matches to address" []
  end.

Definition HandlePullRequestReview
    (pullRequestReviewPayload : Payload PullRequestReview) : M unit :=
  log InfoLevel "Handling pull request review..." [] ;;
  ' (pullRequestReviewScanResult, err) <-
    Scanner_CheckPullRequestReview pullRequestReviewPayload ;;
  match err with
  | Some _ => ret tt
  | None =>
      if HasMatches PullRequestReview pullRequestReviewScanResult then
        log InfoLevel "Potentially sensitive information detected. Rectifying..." [] ;;
        err <- HandleMatchesFromPullRequestReview pullRequestReviewPayload
                 pullRequestReviewScanResult ;;
        match err with
        | Some _ => ret tt
        | None => log InfoLevel "Pull request review has been addressed" []
        end
      else
        log InfoLevel "No matches to address" []
  end.

Definition HandlePullRequestReviewComment
    (pullRequestReviewCommentPayload : Payload PullRequestReviewComment) : M unit :=
  log InfoLevel "Handling pull request review comment..." [] ;;
  ' (pullRequestReviewCommentScanResult, err) <-
    Scanner_CheckPullRequestReviewComment pullRequestReviewCommentPayload ;;
  match err with
  | Some _ => ret tt
  | None =>
      if HasMatches PullRequestReviewComment pullRequestReviewCommentScanResult then
        log InfoLevel "Potentially sensitive information detected. Rectifying..." [] ;;
        err <- HandleMatchesFromPullRequestReviewComment
                 pullRequestReviewCommentPayload pullRequestReviewCommentScanResult ;;
        match err with
        | Some _ =>
            (* log.Info().Err(err): built and dropped as well *)
            ret tt
        | None => log InfoLevel "Pull request review comment has been addressed" []
        end
      else
        log InfoLevel "No matches to address" []
  end.

(** The handler of each trigger. *)
Definition handlerOf (t : Trigger) : Payload t -> M unit :=
  match t with
  | Issue => HandleIssue
  | IssueComment => HandleIssueComment
  | PullRequest => HandlePullRequest
  | PullRequestReview => HandlePullRequestReview
  | PullRequestReviewComment => HandlePullRequestReviewComment
  end.

End Handlers.

Section Reading.
Context `{Scanned}.

Definition isCheck (ev : Event) : bool :=
  match ev with
  | EvCheck _ _ _ => true
  | _ => false
  end.

Definition isHandleMatches (ev : Event) : bool :=
  match ev with
  | EvHandleMatches _ _ _ _ => true
  | _ => false
  end.

End Reading.

End content.

(* ================================================================== *)
(** ** Building a payload handler *)

Module construction.

(** The parts a payload handler is built from; their types belong to
    packages scanning and api, to crypto/rsa and to go-github, and are
    left open. *)
Class Parts := {
  Scanner : Type;
  PatternStore : Type;
  PrivateKey : Type;
  Client : Type }.

Record PayloadHandler `{Parts} := {
  InstallationId : Z;
  AppId : Z;
  GitHubClient : Client;
  PayloadHandler_Scanner : Scanner }.

(** [scanning.NewScanner] and [api.GetGitHubApiClient]: what they
    return, a value and an error. *)
Record Makers `{Parts} := {
  NewScanner : PatternStore -> Scanner * error;
  GetGitHubApiClient : Z -> Z -> PrivateKey -> Client * error }.

Inductive Call `{Parts} :=
| CallNewScanner (patternStore : PatternStore)
| CallGetGitHubApiClient (installationId appId : Z) (privateKey : PrivateKey).

(** The pair returned, a handler or nil and an error or nil, and the
    calls made on the way. *)
Definition NewPayloadHandler `{Parts} (makers : Makers)
    (installationId appId : Z) (privateKey : PrivateKey)
    (patternStore : PatternStore)
    : (option PayloadHandler * error) * list Call :=
  let (scanner, err) := NewScanner makers patternStore in
  match err with
  | Some e => ((None, Some e), [CallNewScanner patternStore])
  | None =>
      let (gitHubApiClient, err) :=
        GetGitHubApiClient makers installationId appId privateKey in
      match err with
      | Some e =>
          ((None, Some e),
           [CallNewScanner patternStore;
            CallGetGitHubApiClient installationId appId privateKey])
      | None =>
          let handler :=
            {| InstallationId := installationId;
               AppId := appId;
               GitHubClient := gitHubApiClient;
               PayloadHandler_Scanner := scanner |} in
          ((Some handler, None),
           [CallNewScanner patternStore;
            CallGetGitHubApiClient installationId appId privateKey])
      end
  end.

End construction.

(* ================================================================== *)
(** ** The report of the push remediator, part by part *)

Module report.

Import remediator.

(** The strings of a list, one after the other. *)
Definition joined (parts : list string) : string :=
  fold_right append EmptyString parts.

(** The bullet of one dangerous file. *)
Definition fileLine (dangerousFile : FileMatch) : string :=
  "- [" ++ FileMatch_Path dangerousFile ++ "](" ++ FileMatch_URL dangerousFile
    ++ ")" ++ fmt.nl.

(** The link to one matching line of a file. *)
Definition lineLink (contentMatch : ContentMatch) (lineMatch : LineMatch) : string :=
  ContentMatch_URL contentMatch ++ "#L" ++ fmt.d (LineNumber lineMatch) ++ fmt.nl.

(** The heading of one file with content matches and its line links. *)
Definition contentPart (contentMatch : ContentMatch) : string :=
  "### " ++ ContentMatch_Path contentMatch ++ fmt.nl
    ++ joined (map (lineLink contentMatch) (LineMatches contentMatch)).

(** The header line of one scan result. *)
Definition header (result : CommitScanResult) : string :=
  "Introduced in " ++ Commit result ++ ":" ++ fmt.nl.

(** All that one scan result adds to the body. *)
Definition resultPart (result : CommitScanResult) : string :=
  header result
    ++ match FileMatches result with
       | [] => EmptyString
       | _ :: _ =>
           "Potentially sensitive files:" ++ fmt.nl
             ++ joined (map fileLine (FileMatches result))
             ++ fmt.nl ++ fmt.nl
       end
    ++ match ContentMatches result with
       | [] => EmptyString
       | _ :: _ =>
           "Files containing potentially sensitive data:" ++ fmt.nl
             ++ joined (map contentPart (ContentMatches result))
       end.

(** The opening paragraph of every body. *)
Definition preamble : string :=
  "Potentially sensitive data has recently been pushed to this repository."
    ++ fmt.nl ++ fmt.nl.

(** [part] occurs in [text]. *)
Definition occursIn (part text : string) : Prop :=
  exists before after, text = before ++ part ++ after.

(** The body of the one issue request of a call sequence. *)
Definition bodies (calls : list Call) : list string :=
  map (fun call => match call with IssuesCreate _ _ request _ => Body request end) calls.

Definition titles (calls : list Call) : list string :=
  map (fun call => match call with IssuesCreate _ _ request _ => Title request end) calls.

End report.

(* ================================================================== *)
(** ** Further concrete settings *)

Module scenario.

Import github scanning caching handlers.

(** A check run whose reply names another repository than the event. *)
Definition foreignRun : CheckRun :=
  {| CheckRun_ID := {| addr := 12288; deref := 77 |};
     HTMLURL := "https://example.test/runs/77";
     CheckRun_CheckSuite :=
       {| CheckSuite_ID := 9; CheckSuite_HeadSHA := "abc123";
          PullRequests := [];
          CheckSuite_Repository :=
            {| Owner := {| Login := "other" |}; Name := "elsewhere" |} |} |}.

(** A platform like [sample.clean], but CreateCheckRun answers with
    [created] and the error [creationErr]. *)
Definition creating (created : CheckRun) (creationErr : error) : PayloadHandler :=
  {| reply_CreateCheckRun := fun _ _ _ _ => (created, creationErr);
     reply_ListCommits := reply_ListCommits sample.clean;
     reply_GetCommit := reply_GetCommit sample.clean;
     reply_CheckFileContentFromQueries := reply_CheckFileContentFromQueries sample.clean;
     reply_CreateComment := reply_CreateComment sample.clean;
     reply_UpdateCheckRun := reply_UpdateCheckRun sample.clean;
     reply_List := reply_List sample.clean;
     reply_CheckPush := reply_CheckPush sample.clean;
     reply_HandleMatchesFromPush := reply_HandleMatchesFromPush sample.clean |}.

(** A platform for pushes: the listing of open pull requests answers
    [listing], the scan of the push [scanned], the match handler
    [handled]. *)
Definition pushing (listing : list PullRequest * error)
    (scanned : list CommitScanResult * error) (handled : error) : PayloadHandler :=
  {| reply_CreateCheckRun := reply_CreateCheckRun sample.clean;
     reply_ListCommits := reply_ListCommits sample.clean;
     reply_GetCommit := reply_GetCommit sample.clean;
     reply_CheckFileContentFromQueries := reply_CheckFileContentFromQueries sample.clean;
     reply_CreateComment := reply_CreateComment sample.clean;
     reply_UpdateCheckRun := reply_UpdateCheckRun sample.clean;
     reply_List := fun _ _ _ _ => listing;
     reply_CheckPush := fun _ _ => scanned;
     reply_HandleMatchesFromPush := fun _ _ _ => handled |}.

(** Texts as payloads, the secrets found as scan results. *)
#[export] Instance texts : content.Scanned := {|
  content.Payload := fun _ => string;
  content.ScanResult := fun _ => list string;
  content.HasMatches := fun _ found =>
    match found with [] => false | _ :: _ => true end |}.

(** A scanner that answers [scanned] and a match handler that answers
    [handled], whatever the event kind. *)
Definition reading (scanned : list string * error) (handled : error)
    : content.PayloadHandler :=
  {| content.reply_Check := fun _ _ _ => scanned;
     content.reply_HandleMatches := fun _ _ _ _ => handled |}.

End scenario.

(* ================================================================== *)
(** ** Properties *)

Import github scanning caching handlers.
Local Open Scope list_scope.

(** *** AllMatchesAreResolved *)

Lemma rangeMatches_false (matches : list Match) :
  rangeMatches matches = false <-> exists m, In m matches /\ Resolved m = false.
Proof.
  induction matches as [|m rest IH]; simpl.
  - split; [discriminate | intros [m [[] _]]].
  - destruct (Resolved m) eqn:E; simpl.
    + rewrite IH. split.
      * intros [m' [Hin Hm']]. exists m'. auto.
      * intros [m' [[Heq | Hin] Hm']]; [subst; congruence | exists m'; auto].
    + split; [intros _; exists m; auto | reflexivity].
Qed.

Lemma AllMatchesAreResolved_false (scanResults : list CommitScanResult) :
  AllMatchesAreResolved scanResults = false <->
  exists result m, In result scanResults /\ In m (Matches result) /\ Resolved m = false.
Proof.
  induction scanResults as [|result rest IH]; simpl.
  - split; [discriminate | intros [r [m [[] _]]]].
  - destruct (rangeMatches (Matches result)) eqn:E.
    + rewrite IH. split.
      * intros [r [m [Hr Hm]]]. exists r, m. auto.
      * intros [r [m [[Heq | Hr] [Hm Hres]]]].
        -- subst r.
           assert (rangeMatches (Matches result) = false) as Hf
             by (apply rangeMatches_false; exists m; auto).
           congruence.
        -- exists r, m. auto.
    + split; [intros _ | reflexivity].
      apply rangeMatches_false in E. destruct E as [m [Hm Hres]].
      exists result, m. auto.
Qed.

(** C1 (AllMatchesAreResolved).  The empty list of scan results gives
    true; the answer is false exactly when some Match of some scan
    result has Resolved = false; equivalently it is true exactly when
    every Match of every result has Resolved = true. *)
Theorem AllMatchesAreResolved_spec :
  AllMatchesAreResolved [] = true /\
  forall scanResults : list CommitScanResult,
    (AllMatchesAreResolved scanResults = false <->
       exists result m,
         In result scanResults /\ In m (Matches result) /\ Resolved m = false) /\
    (AllMatchesAreResolved scanResults = true <->
       forall result m,
         In result scanResults -> In m (Matches result) -> Resolved m = true).
Proof.
  split; [reflexivity|].
  intros scanResults. split; [apply AllMatchesAreResolved_false|].
  split.
  - intros Htrue result m Hr Hm.
    destruct (Resolved m) eqn:E; [reflexivity|].
    assert (AllMatchesAreResolved scanResults = false) as Hf
      by (apply AllMatchesAreResolved_false; exists result, m; auto).
    congruence.
  - intros Hall.
    destruct (AllMatchesAreResolved scanResults) eqn:E; [reflexivity|].
    apply AllMatchesAreResolved_false in E.
    destruct E as [result [m [Hr [Hm Hres]]]].
    rewrite (Hall result m Hr Hm) in Hres. discriminate.
Qed.

(** *** Reading a trace piece by piece *)

Section Pieces.
Context `{Externals}.

Lemma verdicts_app (a b : list Event) : verdicts (a ++ b) = verdicts a ++ verdicts b.
Proof. apply flat_map_app. Qed.

Lemma verdicts_cons (ev : Event) (rest : list Event) :
  verdicts (ev :: rest) = verdictOf ev ++ verdicts rest.
Proof. reflexivity. Qed.

Lemma verdicts_nil : verdicts (@nil Event) = [].
Proof. reflexivity. Qed.

Lemma statusWrites_app (a b : list Event) : statusWrites (a ++ b) = statusWrites a ++ statusWrites b.
Proof. apply flat_map_app. Qed.

Lemma statusWrites_cons (ev : Event) (rest : list Event) :
  statusWrites (ev :: rest) = statusWriteOf ev ++ statusWrites rest.
Proof. reflexivity. Qed.

Lemma statusWrites_nil : statusWrites (@nil Event) = [].
Proof. reflexivity. Qed.

Lemma listed_app (a b : list Event) : listed (a ++ b) = listed a ++ listed b.
Proof. apply flat_map_app. Qed.

Lemma listed_cons (ev : Event) (rest : list Event) :
  listed (ev :: rest) = listedOf ev ++ listed rest.
Proof. reflexivity. Qed.

Lemma listed_nil : listed (@nil Event) = [].
Proof. reflexivity. Qed.

Lemma scans_app (a b : list Event) : scans (a ++ b) = scans a ++ scans b.
Proof. apply flat_map_app. Qed.

Lemma scans_cons (ev : Event) (rest : list Event) :
  scans (ev :: rest) = scanOf ev ++ scans rest.
Proof. reflexivity. Qed.

Lemma scans_nil : scans (@nil Event) = [].
Proof. reflexivity. Qed.

Lemma comments_app (a b : list Event) : comments (a ++ b) = comments a ++ comments b.
Proof. apply flat_map_app. Qed.

Lemma comments_cons (ev : Event) (rest : list Event) :
  comments (ev :: rest) = commentOf ev ++ comments rest.
Proof. reflexivity. Qed.

Lemma comments_nil : comments (@nil Event) = [].
Proof. reflexivity. Qed.

Lemma fetches_app (a b : list Event) : fetches (a ++ b) = fetches a ++ fetches b.
Proof. apply filter_app. Qed.

Lemma fetches_cons (ev : Event) (rest : list Event) :
  fetches (ev :: rest) = (if isFetch ev then [ev] else []) ++ fetches rest.
Proof. unfold fetches. cbn. destruct (isFetch ev); reflexivity. Qed.

Lemma fetches_nil : fetches (@nil Event) = [].
Proof. reflexivity. Qed.

Lemma checkRunCreated_app (a b : list Event) :
  checkRunCreated (a ++ b) = checkRunCreated a || checkRunCreated b.
Proof. apply existsb_app. Qed.

Lemma checkRunCreated_cons (ev : Event) (rest : list Event) :
  checkRunCreated (ev :: rest) = isCreation ev || checkRunCreated rest.
Proof. reflexivity. Qed.

Lemma checkRunCreated_nil : checkRunCreated (@nil Event) = false.
Proof. reflexivity. Qed.

Lemma allClear_app (a b : list Event) : allClear (a ++ b) = allClear a || allClear b.
Proof. apply existsb_app. Qed.

Lemma allClear_cons (ev : Event) (rest : list Event) :
  allClear (ev :: rest) = isAllClear ev || allClear rest.
Proof. reflexivity. Qed.

Lemma allClear_nil : allClear (@nil Event) = false.
Proof. reflexivity. Qed.

Lemma verdicts_handleFailureEvents checkRun summary e reply :
  verdicts (handleFailureEvents checkRun summary e reply) = [(checkRunStatusCompleted, checkRunConclusionFailure)].
Proof. destruct reply; reflexivity. Qed.

Lemma verdicts_completeCheckRunEvents checkRun conclusion summary text reply :
  verdicts (completeCheckRunEvents checkRun conclusion summary text reply) = [(checkRunStatusCompleted, conclusion)].
Proof. destruct reply; reflexivity. Qed.

Lemma statusWrites_handleFailureEvents checkRun summary e reply :
  statusWrites (handleFailureEvents checkRun summary e reply) = [(checkRunStatusCompleted, reply)].
Proof. destruct reply; reflexivity. Qed.

Lemma statusWrites_completeCheckRunEvents checkRun conclusion summary text reply :
  statusWrites (completeCheckRunEvents checkRun conclusion summary text reply) = [(checkRunStatusCompleted, reply)].
Proof. destruct reply; reflexivity. Qed.

Lemma listed_handleFailureEvents checkRun summary e reply :
  listed (handleFailureEvents checkRun summary e reply) = [].
Proof. destruct reply; reflexivity. Qed.

Lemma listed_completeCheckRunEvents checkRun conclusion summary text reply :
  listed (completeCheckRunEvents checkRun conclusion summary text reply) = [].
Proof. destruct reply; reflexivity. Qed.

Lemma scans_handleFailureEvents checkRun summary e reply :
  scans (handleFailureEvents checkRun summary e reply) = [].
Proof. destruct reply; reflexivity. Qed.

Lemma scans_completeCheckRunEvents checkRun conclusion summary text reply :
  scans (completeCheckRunEvents checkRun conclusion summary text reply) = [].
Proof. destruct reply; reflexivity. Qed.

Lemma comments_handleFailureEvents checkRun summary e reply :
  comments (handleFailureEvents checkRun summary e reply) = [].
Proof. destruct reply; reflexivity. Qed.

Lemma comments_completeCheckRunEvents checkRun conclusion summary text reply :
  comments (completeCheckRunEvents checkRun conclusion summary text reply) = [].
Proof. destruct reply; reflexivity. Qed.

Lemma fetches_handleFailureEvents checkRun summary e reply :
  fetches (handleFailureEvents checkRun summary e reply) = [].
Proof. destruct reply; reflexivity. Qed.

Lemma fetches_completeCheckRunEvents checkRun conclusion summary text reply :
  fetches (completeCheckRunEvents checkRun conclusion summary text reply) = [].
Proof. destruct reply; reflexivity. Qed.

Lemma checkRunCreated_handleFailureEvents checkRun summary e reply :
  checkRunCreated (handleFailureEvents checkRun summary e reply) = false.
Proof. destruct reply; reflexivity. Qed.

Lemma checkRunCreated_completeCheckRunEvents checkRun conclusion summary text reply :
  checkRunCreated (completeCheckRunEvents checkRun conclusion summary text reply) = false.
Proof. destruct reply; reflexivity. Qed.

Lemma allClear_handleFailureEvents checkRun summary e reply :
  allClear (handleFailureEvents checkRun summary e reply) = false.
Proof. destruct reply; reflexivity. Qed.

Lemma allClear_completeCheckRunEvents checkRun conclusion summary text reply :
  allClear (completeCheckRunEvents checkRun conclusion summary text reply) =
  (conclusion =? checkRunConclusionSuccess)%string
  && (summary =? "No issues detected")%string
  && match text with None => true | Some _ => false end.
Proof.
  destruct reply; unfold allClear; cbn;
    rewrite ?orb_false_r; reflexivity.
Qed.

Lemma calm_silent (quiet : list Event) :
  Forall (fun ev => shape.calm ev = true) quiet ->
  verdicts quiet = [] /\ statusWrites quiet = [] /\ comments quiet = [] /\
  checkRunCreated quiet = false /\ allClear quiet = false.
Proof.
  induction 1 as [|ev rest Hev _ IH]; [repeat split|].
  destruct IH as (Hv & Hs & Hc & Hcr & Ha).
  rewrite verdicts_cons, statusWrites_cons, comments_cons, checkRunCreated_cons,
    allClear_cons, Hv, Hs, Hc, Hcr, Ha.
  destruct ev; try discriminate Hev; repeat split.
Qed.

Lemma calm_fetchError (ev : Event) : shape.calm ev = true -> fetchError ev = None.
Proof.
  destruct ev as [| ? ? ? [? [?|]] | ? ? ? [? [?|]] | ? [[|? ?] [?|]] | | | | | |];
    cbn; congruence.
Qed.

Lemma calm_scan fileQueries results err :
  shape.calm (EvCheckFileContentFromQueries fileQueries (results, err)) = true ->
  results = [] /\ err = None.
Proof.
  destruct results, err; cbn; intros; try discriminate; auto.
Qed.

Lemma calm_scans (quiet : list Event) :
  Forall (fun ev => shape.calm ev = true) quiet ->
  forall reply, In reply (scans quiet) -> reply = ([], None).
Proof.
  induction 1 as [|ev rest Hev _ IH]; intros reply Hin; [destruct Hin|].
  rewrite scans_cons in Hin. apply in_app_or in Hin.
  destruct Hin as [Hin | Hin]; [|auto].
  destruct ev as [| | | fileQueries [results err] | | | | | |]; try destruct Hin.
  - subst reply. apply calm_scan in Hev. destruct Hev; subst. reflexivity.
  - destruct H0.
Qed.

Lemma fetched_calm (trace : list Event) :
  Forall (fun ev => shape.fetched ev = true) trace ->
  Forall (fun ev => shape.calm ev = true) trace /\ listed trace = [] /\ scans trace = [].
Proof.
  induction 1 as [|ev rest Hev _ IH]; [repeat split; constructor|].
  destruct IH as (Hc & Hl & Hs).
  destruct ev as [| | ? ? ? [? [?|]] | | | | | | |]; try discriminate Hev.
  rewrite listed_cons, scans_cons, Hl, Hs. repeat split. constructor; auto.
Qed.

End Pieces.

Create Rewrite HintDb read.

#[local] Hint Rewrite
  @verdicts_app @verdicts_cons @verdicts_nil
  @statusWrites_app @statusWrites_cons @statusWrites_nil
  @listed_app @listed_cons @listed_nil
  @scans_app @scans_cons @scans_nil
  @comments_app @comments_cons @comments_nil
  @fetches_app @fetches_cons @fetches_nil
  @checkRunCreated_app @checkRunCreated_cons @checkRunCreated_nil
  @allClear_app @allClear_cons @allClear_nil
  @verdicts_handleFailureEvents @verdicts_completeCheckRunEvents
  @statusWrites_handleFailureEvents @statusWrites_completeCheckRunEvents
  @listed_handleFailureEvents @listed_completeCheckRunEvents
  @scans_handleFailureEvents @scans_completeCheckRunEvents
  @comments_handleFailureEvents @comments_completeCheckRunEvents
  @fetches_handleFailureEvents @fetches_completeCheckRunEvents
  @checkRunCreated_handleFailureEvents @checkRunCreated_completeCheckRunEvents
  @allClear_handleFailureEvents @allClear_completeCheckRunEvents
  : read.

(** Splits every reading of the goal along the pieces of the trace and
    evaluates it on the single events. *)
Ltac read :=
  autorewrite with read;
  cbn [verdictOf statusWriteOf listedOf scanOf commentOf isFetch isCreation
       isAllClear app orb andb fst snd
       Status Conclusion Output Summary Text CreateCheckRunOptions_Status].

(** *** The helpers of the check-suite handler, run on a past *)

Section Runs.
Context `{Externals} (handler : PayloadHandler).

Lemma updateCheckRun_run checkRun status conclusion summary text past :
  updateCheckRun handler checkRun status conclusion summary text past =
  (tt,
   updateCheckRunEvents checkRun status conclusion summary text
     (reply_UpdateCheckRun handler past
        (Login (Owner (CheckSuite_Repository (CheckRun_CheckSuite checkRun))))
        (Name (CheckSuite_Repository (CheckRun_CheckSuite checkRun)))
        (deref (CheckRun_ID checkRun))
        {| Status := status;
           Conclusion := conclusion;
           Output := {| Title := "Orca Checks"; Summary := summary; Text := text |} |})).
Proof.
  unfold updateCheckRun, updateCheckRunEvents, bind, Checks_UpdateCheckRun. cbn.
  destruct (reply_UpdateCheckRun _ _ _ _ _ _); reflexivity.
Qed.

Lemma handleFailure_run checkRun summary err past :
  handleFailure handler checkRun summary err past =
  (tt,
   handleFailureEvents checkRun summary err
     (updateReply handler checkRun checkRunStatusCompleted checkRunConclusionFailure
        summary None past)).
Proof.
  unfold handleFailure, handleFailureEvents, bind.
  rewrite updateCheckRun_run. reflexivity.
Qed.

Lemma completeCheckRun_run checkRun conclusion summary text past :
  completeCheckRun handler checkRun conclusion summary text past =
  (tt,
   completeCheckRunEvents checkRun conclusion summary text
     (updateReply handler checkRun checkRunStatusCompleted conclusion summary text past)).
Proof.
  unfold completeCheckRun, completeCheckRunEvents, bind.
  rewrite updateCheckRun_run. reflexivity.
Qed.

Lemma rangeCommits_shape checkSuitePayload checkRun pullRequest commits :
  forall fileQueries past,
    shape.Commits checkSuitePayload checkRun pullRequest commits fileQueries
      (fst (rangeCommits handler checkSuitePayload checkRun pullRequest commits
              fileQueries past))
      (snd (rangeCommits handler checkSuitePayload checkRun pullRequest commits
              fileQueries past)).
Proof.
  induction commits as [|commit rest IH]; intros fileQueries past.
  - cbn. constructor.
  - cbn [rangeCommits]. unfold bind, Repositories_GetCommit. cbn [fst snd].
    destruct (reply_GetCommit handler past _ _ _) as [commitWithFiles [e|]];
      cbn [fst snd].
    + rewrite handleFailure_run. unfold ret. cbn [fst snd app].
      rewrite app_nil_r. constructor.
    + constructor. apply IH.
Qed.

Lemma pullRequestBody_shape checkSuitePayload checkRun pullRequest past :
  shape.Turn checkSuitePayload checkRun pullRequest
    (fst (pullRequestBody handler checkSuitePayload checkRun pullRequest past))
    (snd (pullRequestBody handler checkSuitePayload checkRun pullRequest past)).
Proof.
  unfold pullRequestBody, bind, PullRequests_ListCommits. cbn [fst snd].
  destruct (reply_ListCommits handler past _ _ _) as [commits [e|]]; cbn [fst snd].
  { rewrite handleFailure_run. unfold ret. cbn [fst snd app].
    rewrite app_nil_r. constructor. }
  match goal with
  | |- context [rangeCommits handler ?p ?c ?pr ?cs ?q ?past'] =>
      pose proof (rangeCommits_shape p c pr cs q past') as HC;
      destruct (rangeCommits handler p c pr cs q past') as [[fileQueries|] ctr]
  end; cbn [fst snd] in *.
  2: { unfold ret. cbn [fst snd app]. rewrite app_nil_r.
       apply shape.Turn_commitFailed. exact HC. }
  unfold Scanner_CheckFileContentFromQueries. cbn [fst snd].
  match goal with
  | |- context [reply_CheckFileContentFromQueries handler ?past' ?q] =>
      destruct (reply_CheckFileContentFromQueries handler past' q)
        as [results [e|]]
  end; cbn [fst snd].
  { rewrite handleFailure_run. unfold ret. cbn [fst snd app].
    rewrite app_nil_r. eapply shape.Turn_scanFailed. exact HC. }
  destruct results as [|result results].
  { cbn. apply shape.Turn_clean. exact HC. }
  cbn [List.length Nat.ltb Nat.leb].
  destruct (AllMatchesAreResolved (result :: results)) eqn:Hres.
  - unfold log, Issues_CreateComment. cbn [fst snd app].
    match goal with
    | |- context [reply_CreateComment handler ?past' ?o ?r ?n ?c] =>
        destruct (reply_CreateComment handler past' o r n c) as [e|]
    end; cbn [fst snd].
    + rewrite handleFailure_run. unfold ret. cbn [fst snd app].
      rewrite app_nil_r.
      apply shape.Turn_reminderFailed; [exact HC | discriminate | exact Hres].
    + destruct (BuildMessage (result :: results)) as [title text] eqn:HB.
      unfold bind. rewrite completeCheckRun_run. unfold ret. cbn [fst snd app].
      rewrite app_nil_r.
      replace title with (fst (BuildMessage (result :: results))) by (rewrite HB; reflexivity).
      replace text with (snd (BuildMessage (result :: results))) by (rewrite HB; reflexivity).
      apply shape.Turn_reminded; [exact HC | discriminate | exact Hres].
  - unfold log. cbn [fst snd app].
    destruct (BuildMessage (result :: results)) as [title text] eqn:HB.
    unfold bind. rewrite completeCheckRun_run. unfold ret. cbn [fst snd app].
    rewrite app_nil_r.
    replace title with (fst (BuildMessage (result :: results))) by (rewrite HB; reflexivity).
    replace text with (snd (BuildMessage (result :: results))) by (rewrite HB; reflexivity).
    apply shape.Turn_unresolved; [exact HC | discriminate | exact Hres].
Qed.

Lemma rangePullRequests_shape checkSuitePayload checkRun pullRequests :
  forall past,
    shape.Loop checkSuitePayload checkRun pullRequests
      (fst (rangePullRequests handler checkSuitePayload checkRun pullRequests past))
      (snd (rangePullRequests handler checkSuitePayload checkRun pullRequests past)).
Proof.
  induction pullRequests as [|pullRequest rest IH]; intros past.
  - cbn. constructor.
  - cbn [rangePullRequests]. unfold bind.
    pose proof (pullRequestBody_shape checkSuitePayload checkRun pullRequest past) as HT.
    destruct (pullRequestBody handler checkSuitePayload checkRun pullRequest past)
      as [[[]|] turn]; cbn [fst snd] in *.
    + apply shape.Loop_next; [exact HT | apply IH].
    + unfold ret. cbn [fst snd]. rewrite app_nil_r.
      apply shape.Loop_return. exact HT.
Qed.

Lemma Commits_normal checkSuitePayload checkRun pullRequest commits fileQueries flow trace :
  shape.Commits checkSuitePayload checkRun pullRequest commits fileQueries flow trace ->
  match flow with
  | Next _ => Forall (fun ev => shape.fetched ev = true) trace
  | Returned =>
      exists quiet ending,
        trace = quiet ++ ending /\
        Forall (fun ev => shape.fetched ev = true) quiet /\
        shape.Ending checkSuitePayload checkRun pullRequest ending /\
        listed trace = []
  end.
Proof.
  induction 1 as [qs | commit rest qs cwf flow trace _ IH | commit rest qs cwf e reply].
  - constructor.
  - destruct flow.
    + constructor; [reflexivity | exact IH].
    + destruct IH as (quiet & ending & -> & Hq & He & Hl).
      eexists (_ :: quiet), ending. split; [reflexivity|].
      split; [constructor; [reflexivity | exact Hq]|].
      split; [exact He | exact Hl].
  - eexists [], _. split; [reflexivity|]. split; [constructor|].
    split; [apply shape.Ending_failed; reflexivity|].
    read. reflexivity.
Qed.

Lemma Turn_normal checkSuitePayload checkRun pullRequest flow turn :
  shape.Turn checkSuitePayload checkRun pullRequest flow turn ->
  match flow with
  | Next _ =>
      Forall (fun ev => shape.calm ev = true) turn /\
      listed turn = [deref (Number pullRequest)] /\
      scans turn = [([], None)]
  | Returned =>
      exists quiet ending,
        turn = quiet ++ ending /\
        Forall (fun ev => shape.calm ev = true) quiet /\
        shape.Ending checkSuitePayload checkRun pullRequest ending /\
        listed turn = [deref (Number pullRequest)] /\
        scans quiet = []
  end.
Proof.
  destruct 1 as [commits e reply | commits trace HC | commits qs trace results e reply HC
                 | commits qs trace HC | commits qs trace results reply HC Hne Hres
                 | commits qs trace results reply HC Hne Hres
                 | commits qs trace results e reply HC Hne Hres];
    try (apply Commits_normal in HC; cbn in HC).
  - eexists [], _. split; [reflexivity|]. split; [constructor|].
    split; [apply shape.Ending_failed; reflexivity|].
    split; [|reflexivity].
    read. reflexivity.
  - destruct HC as (quiet & ending & -> & Hq & He & Hl).
    apply fetched_calm in Hq. destruct Hq as (Hq & _ & Hs).
    eexists (_ :: quiet), ending. split; [reflexivity|].
    split; [constructor; [reflexivity | exact Hq]|].
    split; [exact He|]. split; [|exact Hs].
    rewrite listed_cons, Hl. reflexivity.
  - apply fetched_calm in HC. destruct HC as (Hq & Hl & Hs).
    eexists (_ :: trace), _. split; [reflexivity|].
    split; [constructor; [reflexivity | exact Hq]|].
    split; [apply shape.Ending_failed; reflexivity|].
    split; [|exact Hs].
    read. rewrite Hl. reflexivity.
  - apply fetched_calm in HC. destruct HC as (Hq & Hl & Hs).
    split; [|split].
    + constructor; [reflexivity|]. apply Forall_app. split; [exact Hq|].
      repeat constructor.
    + read. rewrite Hl. reflexivity.
    + read. rewrite Hs. reflexivity.
  - apply fetched_calm in HC. destruct HC as (Hq & Hl & Hs).
    eexists (_ :: trace), _. split; [reflexivity|].
    split; [constructor; [reflexivity | exact Hq]|].
    split; [apply shape.Ending_unresolved; assumption|].
    split; [|exact Hs].
    read. rewrite Hl. reflexivity.
  - apply fetched_calm in HC. destruct HC as (Hq & Hl & Hs).
    eexists (_ :: trace), _. split; [reflexivity|].
    split; [constructor; [reflexivity | exact Hq]|].
    split; [apply shape.Ending_reminded; assumption|].
    split; [|exact Hs].
    read. rewrite Hl. reflexivity.
  - apply fetched_calm in HC. destruct HC as (Hq & Hl & Hs).
    eexists (_ :: trace), _. split; [reflexivity|].
    split; [constructor; [reflexivity | exact Hq]|].
    split; [apply shape.Ending_reminderFailed; assumption|].
    split; [|exact Hs].
    read. rewrite Hl. reflexivity.
Qed.

Lemma Loop_normal checkSuitePayload checkRun pullRequests flow trace :
  shape.Loop checkSuitePayload checkRun pullRequests flow trace ->
  match flow with
  | Next _ =>
      Forall (fun ev => shape.calm ev = true) trace /\
      listed trace = map (fun pullRequest => deref (Number pullRequest)) pullRequests /\
      scans trace = repeat ([], None) (List.length pullRequests)
  | Returned =>
      exists quiet ending pullRequest k,
        trace = quiet ++ ending /\
        Forall (fun ev => shape.calm ev = true) quiet /\
        shape.Ending checkSuitePayload checkRun pullRequest ending /\
        nth_error pullRequests k = Some pullRequest /\
        listed trace
          = firstn (S k) (map (fun pullRequest => deref (Number pullRequest)) pullRequests) /\
        scans quiet = repeat ([], None) k
  end.
Proof.
  induction 1 as [| pullRequest rest turn flow trace HT _ IH | pullRequest rest turn HT];
    try (apply Turn_normal in HT; cbn in HT).
  - repeat split. constructor.
  - destruct HT as (Hc & Hl & Hs). destruct flow.
    + destruct IH as (Hc' & Hl' & Hs'). split; [|split].
      * apply Forall_app. split; assumption.
      * rewrite listed_app, Hl, Hl'. reflexivity.
      * rewrite scans_app, Hs, Hs'. reflexivity.
    + destruct IH as (quiet & ending & pr & k & -> & Hq & He & Hn & Hl' & Hs').
      exists (turn ++ quiet), ending, pr, (S k).
      split; [apply app_assoc|].
      split; [apply Forall_app; split; assumption|].
      split; [exact He|]. split; [exact Hn|]. split.
      * rewrite listed_app, Hl, Hl'. reflexivity.
      * rewrite scans_app, Hs, Hs'. reflexivity.
  - destruct HT as (quiet & ending & -> & Hq & He & Hl & Hs).
    exists quiet, ending, pullRequest, 0%nat.
    repeat split; assumption.
Qed.

(** Every run of the check-suite handler, on every platform and after
    every past, leaves one of the four kinds of trace. *)
Theorem HandleCheckSuite_run checkSuitePayload past :
  shape.Run checkSuitePayload
    (emitted (HandleCheckSuite handler checkSuitePayload) past).
Proof.
  unfold emitted, HandleCheckSuite, bind, log, Checks_CreateCheckRun.
  cbn [fst snd app].
  match goal with
  | |- context [reply_CreateCheckRun handler ?past' ?o ?r ?opts] =>
      destruct (reply_CreateCheckRun handler past' o r opts) as [created [e|]]
  end; cbn [fst snd app].
  { apply shape.Run_notCreated. }
  destruct (PullRequests (CheckSuiteEvent_CheckSuite checkSuitePayload))
    as [|pullRequest rest] eqn:Hprs.
  - cbn [List.length Nat.ltb Nat.leb]. unfold bind.
    rewrite completeCheckRun_run. cbn [fst snd app].
    pose proof (shape.Run_skipped checkSuitePayload created) as HS.
    unfold shape.opening in HS. cbn [app] in HS. apply HS. exact Hprs.
  - cbn [List.length Nat.ltb Nat.leb].
    match goal with
    | |- context [rangePullRequests handler ?p ?c ?prs ?past'] =>
        pose proof (rangePullRequests_shape p c prs past') as HL;
        destruct (rangePullRequests handler p c prs past') as [[[]|] trace]
    end; cbn [fst snd] in *; apply Loop_normal in HL.
    + rewrite completeCheckRun_run. cbn [fst snd].
      destruct HL as (Hc & Hl & Hs).
      pose proof (shape.Run_allClear checkSuitePayload created trace) as HS.
      unfold shape.opening in HS. cbn [app] in HS. apply HS.
      * rewrite Hprs. discriminate.
      * exact Hc.
      * unfold payloadNumbers. rewrite Hprs. exact Hl.
      * rewrite Hprs. exact Hs.
    + unfold ret. cbn [fst snd]. rewrite app_nil_r.
      destruct HL as (quiet & ending & pr & k & -> & Hq & He & Hn & Hl & Hs).
      pose proof (shape.Run_ended checkSuitePayload created quiet ending pr k) as HS.
      unfold shape.opening in HS. cbn [app] in HS. apply HS; try assumption.
      * rewrite Hprs. exact Hn.
      * unfold payloadNumbers. rewrite Hprs. exact Hl.
Qed.

End Runs.

(** *** What an ending and a whole run read as *)

Section Verdict.
Context `{Externals}.

Lemma updateFailure_logged checkRun status conclusion summary text e :
  In (EvLog ErrorLevel "Failed to update check run %d: %v"
        [ArgPointer (CheckRun_ID checkRun); ArgError e])
     (updateCheckRunEvents checkRun status conclusion summary text (Some e)).
Proof. right. left. reflexivity. Qed.

Lemma Ending_read checkSuitePayload checkRun pullRequest ending :
  shape.Ending checkSuitePayload checkRun pullRequest ending ->
  exists ev rest conclusion reply,
    ending = ev :: rest /\
    isFetch ev = true /\
    fetches rest = [] /\
    scans rest = [] /\
    comments [ev] = [] /\
    verdicts ending = [(checkRunStatusCompleted, conclusion)] /\
    statusWrites ending = [(checkRunStatusCompleted, reply)] /\
    checkRunCreated ending = false /\
    allClear ending = false /\
    (forall e, reply = Some e ->
       In (EvLog ErrorLevel "Failed to update check run %d: %v"
             [ArgPointer (CheckRun_ID checkRun); ArgError e]) ending).
Proof.
  destruct 1 as [ev e summary reply Hf He | qs results reply Hne Hres
                 | qs results reply Hne Hres | qs results e reply Hne Hres].
  - exists ev, (handleFailureEvents checkRun summary e reply),
      checkRunConclusionFailure, reply.
    destruct ev; try discriminate Hf; read; repeat split;
      intros e' ->; right; apply in_or_app; left; apply updateFailure_logged.
  - eexists _, _, checkRunConclusionFailure, reply.
    split; [reflexivity|]. read. repeat split.
    intros e' ->. right. right. apply in_or_app. left. apply updateFailure_logged.
  - eexists _, _, checkRunConclusionSuccess, reply.
    split; [reflexivity|]. read. rewrite andb_false_r. repeat split.
    intros e' ->. do 3 right. apply in_or_app. left. apply updateFailure_logged.
  - eexists _, _, checkRunConclusionFailure, reply.
    split; [reflexivity|]. read. repeat split.
    intros e' ->. do 3 right. apply in_or_app. left. apply updateFailure_logged.
Qed.

End Verdict.

(** *** The check-suite handler *)

Lemma opening_read `{Externals} checkSuitePayload (reply : CheckRun * error) :
  verdicts (shape.opening checkSuitePayload reply) = [] /\
  statusWrites (shape.opening checkSuitePayload reply)
    = [(checkRunStatusInProgress, snd reply)] /\
  listed (shape.opening checkSuitePayload reply) = [] /\
  scans (shape.opening checkSuitePayload reply) = [] /\
  comments (shape.opening checkSuitePayload reply) = [] /\
  fetches (shape.opening checkSuitePayload reply) = [] /\
  checkRunCreated (shape.opening checkSuitePayload reply)
    = match snd reply with None => true | Some _ => false end /\
  allClear (shape.opening checkSuitePayload reply) = false.
Proof. destruct reply as [created [e|]]; repeat split. Qed.

(** C4 (no pull request).  When the payload carries no pull request the
    handler makes no gathering or scanning call, and the verdicts it
    sends for the check run it created are the single completion with
    conclusion Skipped (none at all when CreateCheckRun failed, so that
    there is no check run); Success and Failure are never sent. *)
Theorem HandleCheckSuite_no_pull_request `{Externals}
    (handler : PayloadHandler) (checkSuitePayload : CheckSuiteEvent)
    (past : list Event) :
  PullRequests (CheckSuiteEvent_CheckSuite checkSuitePayload) = [] ->
  let trace := emitted (HandleCheckSuite handler checkSuitePayload) past in
  fetches trace = [] /\
  (checkRunCreated trace = true ->
   verdicts trace = [(checkRunStatusCompleted, checkRunConclusionSkipped)]) /\
  ~ In (checkRunStatusCompleted, checkRunConclusionSuccess) (verdicts trace) /\
  ~ In (checkRunStatusCompleted, checkRunConclusionFailure) (verdicts trace).
Proof.
  intros Hprs trace. subst trace.
  destruct (HandleCheckSuite_run handler checkSuitePayload past)
    as [created e | created reply _ | created quiet ending pr k _ _ Hn _ _
        | created quiet reply Hne _ _ _].
  - repeat split; try discriminate; intros [].
  - pose proof (opening_read checkSuitePayload (created, None))
      as (Hv & _ & _ & _ & _ & Hf & _ & _).
    read. rewrite Hv, Hf. cbn. repeat split.
    + intros [Heq | []]. discriminate Heq.
    + intros [Heq | []]. discriminate Heq.
  - rewrite Hprs in Hn. destruct k; discriminate Hn.
  - contradiction.
Qed.

Lemma In_fetches `{Externals} (ev : Event) (trace : list Event) :
  In ev trace -> isFetch ev = true -> In ev (fetches trace).
Proof. intros Hin Hf. apply filter_In. split; assumption. Qed.

Lemma fetches_calm `{Externals} (ev : Event) (quiet : list Event) :
  Forall (fun ev => shape.calm ev = true) quiet ->
  In ev (fetches quiet) -> shape.calm ev = true.
Proof.
  intros Hq Hin. apply filter_In in Hin. destruct Hin as [Hin _].
  rewrite Forall_forall in Hq. apply Hq. exact Hin.
Qed.

(** Where an event of a gathering or scanning call can sit in the trace
    of a run: in the uneventful part, or at the head of the ending. *)
Lemma Run_fetch `{Externals} checkSuitePayload (trace : list Event) (ev : Event) :
  shape.Run checkSuitePayload trace ->
  In ev trace -> isFetch ev = true ->
  shape.calm ev = true \/
  exists created quiet rest pullRequest k,
    trace =
      shape.opening checkSuitePayload (created, None)
      ++ EvLog DebugLevel "Check run %d created" [ArgPointer (CheckRun_ID created)]
      :: quiet ++ ev :: rest /\
    Forall (fun ev => shape.calm ev = true) quiet /\
    shape.Ending checkSuitePayload (shape.held checkSuitePayload created) pullRequest
      (ev :: rest) /\
    nth_error (PullRequests (CheckSuiteEvent_CheckSuite checkSuitePayload)) k
      = Some pullRequest /\
    listed (quiet ++ ev :: rest) = firstn (S k) (payloadNumbers checkSuitePayload) /\
    scans quiet = repeat ([], None) k.
Proof.
  intros HR Hin Hf. apply In_fetches in Hin; [|exact Hf].
  destruct HR as [created e | created reply _ | created quiet ending pr k Hq He Hn Hl Hs
                  | created quiet reply _ Hq _ _].
  - destruct Hin.
  - pose proof (opening_read checkSuitePayload (created, None))
      as (_ & _ & _ & _ & _ & Hof & _).
    revert Hin. read. rewrite Hof. intros [].
  - pose proof (opening_read checkSuitePayload (created, None))
      as (_ & _ & _ & _ & _ & Hof & _).
    pose proof He as He'. apply Ending_read in He'.
    destruct He' as (ev' & rest & c & reply & -> & Hf' & Hrest & _).
    revert Hin. read. rewrite Hof, Hf', Hrest. cbn [app]. intros Hin.
    apply in_app_or in Hin. destruct Hin as [Hin | [Heq | []]].
    + left. eapply fetches_calm; eassumption.
    + subst ev'. right. exists created, quiet, rest, pr, k. repeat split; assumption.
  - pose proof (opening_read checkSuitePayload (created, None))
      as (_ & _ & _ & _ & _ & Hof & _).
    revert Hin. read. rewrite Hof, app_nil_r. cbn [app]. intros Hin.
    left. eapply fetches_calm; eassumption.
Qed.

Lemma fetchError_isFetch `{Externals} (ev : Event) (e : string) :
  fetchError ev = Some e -> isFetch ev = true.
Proof. destruct ev; cbn; intros; congruence. Qed.

Lemma handleFailureEvents_split `{Externals} checkRun summary e reply :
  exists logs,
    handleFailureEvents checkRun summary e reply =
      EvUpdateCheckRun
        (Login (Owner (CheckSuite_Repository (CheckRun_CheckSuite checkRun))))
        (Name (CheckSuite_Repository (CheckRun_CheckSuite checkRun)))
        (deref (CheckRun_ID checkRun))
        {| Status := checkRunStatusCompleted;
           Conclusion := checkRunConclusionFailure;
           Output := {| Title := "Orca Checks"; Summary := summary; Text := None |} |}
        reply
      :: logs /\
    Forall (fun ev => isLog ev = true) logs /\
    (forall e', reply = Some e' ->
       In (EvLog ErrorLevel "Failed to update check run %d: %v"
             [ArgPointer (CheckRun_ID checkRun); ArgError e']) logs).
Proof.
  destruct reply as [e0|]; eexists; (split; [reflexivity|]); cbn [app]; split.
  - repeat constructor.
  - intros e' [= <-]. left. reflexivity.
  - repeat constructor.
  - intros e' [=].
Qed.

Lemma completeCheckRunEvents_split `{Externals} checkRun conclusion summary text reply :
  exists logs,
    completeCheckRunEvents checkRun conclusion summary text reply =
      EvUpdateCheckRun
        (Login (Owner (CheckSuite_Repository (CheckRun_CheckSuite checkRun))))
        (Name (CheckSuite_Repository (CheckRun_CheckSuite checkRun)))
        (deref (CheckRun_ID checkRun))
        {| Status := checkRunStatusCompleted;
           Conclusion := conclusion;
           Output := {| Title := "Orca Checks"; Summary := summary; Text := text |} |}
        reply
      :: logs /\
    Forall (fun ev => isLog ev = true) logs /\
    (forall e', reply = Some e' ->
       In (EvLog ErrorLevel "Failed to update check run %d: %v"
             [ArgPointer (CheckRun_ID checkRun); ArgError e']) logs).
Proof.
  destruct reply as [e0|]; eexists; (split; [reflexivity|]); cbn [app]; split.
  - repeat constructor.
  - intros e' [= <-]. left. reflexivity.
  - repeat constructor.
  - intros e' [=].
Qed.

(** In every ending the completing request comes last, but for log
    lines; what precedes it in the ending sends no status. *)
Lemma Ending_split `{Externals} checkSuitePayload checkRun pullRequest ending :
  shape.Ending checkSuitePayload checkRun pullRequest ending ->
  exists before owner repo id opts reply logs,
    ending = before ++ EvUpdateCheckRun owner repo id opts reply :: logs /\
    statusWrites before = [] /\
    Status opts = checkRunStatusCompleted /\
    Forall (fun ev => isLog ev = true) logs /\
    (forall e', reply = Some e' ->
       In (EvLog ErrorLevel "Failed to update check run %d: %v"
             [ArgPointer (CheckRun_ID checkRun); ArgError e']) logs).
Proof.
  destruct 1 as [ev e summary reply Hf He | qs results reply Hne Hres
                 | qs results reply Hne Hres | qs results e reply Hne Hres].
  - destruct (handleFailureEvents_split checkRun summary e reply)
      as (logs & -> & Hlogs & Hlog).
    exists [ev]. do 6 eexists. split; [reflexivity|].
    split; [destruct ev; try discriminate Hf; reflexivity|]. auto.
  - destruct (completeCheckRunEvents_split checkRun checkRunConclusionFailure
                (fst (BuildMessage results)) (Some (snd (BuildMessage results))) reply)
      as (logs & -> & Hlogs & Hlog).
    eexists [_; _]. do 6 eexists. split; [reflexivity|]. auto.
  - destruct (completeCheckRunEvents_split checkRun checkRunConclusionSuccess
                (fst (BuildMessage results)) (Some (snd (BuildMessage results))) reply)
      as (logs & -> & Hlogs & Hlog).
    eexists [_; _; _]. do 6 eexists. split; [reflexivity|]. auto.
  - destruct (handleFailureEvents_split checkRun
                "Failed to reply to Pull Request with commit history warning" e reply)
      as (logs & -> & Hlogs & Hlog).
    eexists [_; _; _]. do 6 eexists. split; [reflexivity|]. auto.
Qed.

Lemma logs_silent `{Externals} (logs : list Event) :
  Forall (fun ev => isLog ev = true) logs ->
  statusWrites logs = [] /\ verdicts logs = [].
Proof.
  induction 1 as [|ev rest Hev _ [IHs IHv]]; [split; reflexivity|].
  rewrite statusWrites_cons, verdicts_cons, IHs, IHv.
  destruct ev; try discriminate Hev. split; reflexivity.
Qed.

(** C6 (one completion).  Once the check run is created, the trace of
    the handler splits around a single UpdateCheckRun request with
    status Completed: before it the only status sent is InProgress, at
    creation; after it come log lines only, among them the report of
    the failure when the request failed.  So on every path the statuses
    sent are InProgress and then Completed, once, with no second
    request after a failed one. *)
Theorem HandleCheckSuite_completes_once `{Externals}
    (handler : PayloadHandler) (checkSuitePayload : CheckSuiteEvent)
    (past : list Event) :
  let trace := emitted (HandleCheckSuite handler checkSuitePayload) past in
  checkRunCreated trace = true ->
  exists created before owner repo id opts reply logs,
    In (EvCreateCheckRun
          (Login (Owner (CheckSuiteEvent_Repo checkSuitePayload)))
          (Name (CheckSuiteEvent_Repo checkSuitePayload))
          {| CreateCheckRunOptions_Name := "Orca Checks";
             CreateCheckRunOptions_HeadSHA :=
               CheckSuite_HeadSHA (CheckSuiteEvent_CheckSuite checkSuitePayload);
             CreateCheckRunOptions_Status := checkRunStatusInProgress |}
          (created, None)) before /\
    trace = before ++ EvUpdateCheckRun owner repo id opts reply :: logs /\
    statusWrites before = [(checkRunStatusInProgress, None)] /\
    Status opts = checkRunStatusCompleted /\
    Forall (fun ev => isLog ev = true) logs /\
    (forall e, reply = Some e ->
       In (EvLog ErrorLevel "Failed to update check run %d: %v"
             [ArgPointer (CheckRun_ID created); ArgError e]) logs) /\
    statusWrites trace
      = [(checkRunStatusInProgress, None); (checkRunStatusCompleted, reply)].
Proof.
  intros trace. subst trace.
  assert (forall before owner repo id opts reply logs,
            statusWrites before = [(checkRunStatusInProgress, None)] ->
            Status opts = checkRunStatusCompleted ->
            Forall (fun ev => isLog ev = true) logs ->
            statusWrites (before ++ EvUpdateCheckRun owner repo id opts reply :: logs)
              = [(checkRunStatusInProgress, None); (checkRunStatusCompleted, reply)])
    as Hwrites.
  { intros before owner repo id opts reply logs Hb Hst Hlogs.
    apply logs_silent in Hlogs. destruct Hlogs as [Hls _].
    rewrite statusWrites_app, statusWrites_cons, Hb, Hls.
    cbn [statusWriteOf app]. rewrite Hst. reflexivity. }
  pose proof (HandleCheckSuite_run handler checkSuitePayload past) as HR.
  destruct HR as [created e | created reply _ | created quiet ending pr k Hq He _ _ _
                  | created quiet reply _ Hq _ _]; intros Hcreated.
  - discriminate Hcreated.
  - destruct (completeCheckRunEvents_split (shape.held checkSuitePayload created)
                checkRunConclusionSkipped
                "No Pull Requests found. Orca Checks are currently only supported from Pull Requests"
                None reply) as (logs & Hsplit & Hlogs & Hlog).
    rewrite Hsplit.
    exists created,
      (shape.opening checkSuitePayload (created, None)
       ++ [EvLog DebugLevel "Check run %d created" [ArgPointer (CheckRun_ID created)]]).
    do 4 eexists.
    exists reply, (logs ++ [EvLog InfoLevel "No pull request exists, skipping" []]).
    assert (Forall (fun ev => isLog ev = true)
              (logs ++ [EvLog InfoLevel "No pull request exists, skipping" []]))
      as Hlogs' by (apply Forall_app; split; [exact Hlogs | repeat constructor]).
    match goal with
    | |- _ /\ ?whole = ?parts /\ _ =>
        assert (whole = parts) as Hassoc by (rewrite <- app_assoc; reflexivity)
    end.
    split; [apply in_or_app; left; do 2 right; left; reflexivity|].
    split; [exact Hassoc|].
    split; [reflexivity|]. split; [reflexivity|]. split; [exact Hlogs'|].
    split; [intros e Heq; apply in_or_app; left; apply (Hlog e Heq)|].
    rewrite Hassoc. apply Hwrites; [reflexivity | reflexivity | exact Hlogs'].
  - apply Ending_split in He.
    destruct He as (epre & owner & repo & id & opts & reply & logs
                    & -> & Hes & Hst & Hlogs & Hlog).
    apply calm_silent in Hq. destruct Hq as (_ & Hqs & _).
    assert (statusWrites
              (shape.opening checkSuitePayload (created, None)
               ++ EvLog DebugLevel "Check run %d created"
                    [ArgPointer (CheckRun_ID created)]
               :: quiet ++ epre)
            = [(checkRunStatusInProgress, None)]) as Hb.
    { pose proof (opening_read checkSuitePayload (created, None)) as (_ & Hos & _).
      rewrite statusWrites_app, statusWrites_cons, statusWrites_app, Hos, Hqs, Hes.
      reflexivity. }
    exists created,
      (shape.opening checkSuitePayload (created, None)
       ++ EvLog DebugLevel "Check run %d created" [ArgPointer (CheckRun_ID created)]
       :: quiet ++ epre),
      owner, repo, id, opts, reply, logs.
    assert ((shape.opening checkSuitePayload (created, None)
             ++ EvLog DebugLevel "Check run %d created"
                  [ArgPointer (CheckRun_ID created)]
             :: quiet ++ epre ++ EvUpdateCheckRun owner repo id opts reply :: logs)
            = (shape.opening checkSuitePayload (created, None)
               ++ EvLog DebugLevel "Check run %d created"
                    [ArgPointer (CheckRun_ID created)]
               :: quiet ++ epre)
              ++ EvUpdateCheckRun owner repo id opts reply :: logs) as Hassoc.
    { rewrite <- !app_assoc. cbn [app]. rewrite <- app_assoc. reflexivity. }
    split; [apply in_or_app; left; do 2 right; left; reflexivity|].
    split; [exact Hassoc|]. split; [exact Hb|]. split; [exact Hst|].
    split; [exact Hlogs|]. split; [exact Hlog|].
    rewrite Hassoc. apply Hwrites; assumption.
  - destruct (completeCheckRunEvents_split (shape.held checkSuitePayload created)
                checkRunConclusionSuccess "No issues detected" None reply)
      as (logs & Hsplit & Hlogs & Hlog).
    rewrite Hsplit.
    apply calm_silent in Hq. destruct Hq as (_ & Hqs & _).
    assert (statusWrites
              (shape.opening checkSuitePayload (created, None)
               ++ EvLog DebugLevel "Check run %d created"
                    [ArgPointer (CheckRun_ID created)]
               :: quiet)
            = [(checkRunStatusInProgress, None)]) as Hb.
    { pose proof (opening_read checkSuitePayload (created, None)) as (_ & Hos & _).
      rewrite statusWrites_app, statusWrites_cons, Hos, Hqs. reflexivity. }
    exists created,
      (shape.opening checkSuitePayload (created, None)
       ++ EvLog DebugLevel "Check run %d created" [ArgPointer (CheckRun_ID created)]
       :: quiet).
    do 4 eexists. exists reply, logs.
    assert (forall tail : list Event,
              shape.opening checkSuitePayload (created, None)
              ++ EvLog DebugLevel "Check run %d created"
                   [ArgPointer (CheckRun_ID created)]
              :: quiet ++ tail
              = (shape.opening checkSuitePayload (created, None)
                 ++ EvLog DebugLevel "Check run %d created"
                      [ArgPointer (CheckRun_ID created)]
                 :: quiet) ++ tail) as Hassoc.
    { intros tail. rewrite <- !app_assoc. reflexivity. }
    split; [apply in_or_app; left; do 2 right; left; reflexivity|].
    split; [apply Hassoc|]. split; [exact Hb|]. split; [reflexivity|].
    split; [exact Hlogs|]. split; [exact Hlog|].
    rewrite Hassoc. apply Hwrites; [exact Hb | reflexivity | exact Hlogs].
Qed.

(** C3 (unresolved match).  Whenever a scan made by the handler comes
    back with a match whose Resolved flag is false, the one verdict the
    handler sends is the completion with conclusion Failure. *)
Theorem HandleCheckSuite_unresolved_fails `{Externals}
    (handler : PayloadHandler) (checkSuitePayload : CheckSuiteEvent)
    (past : list Event) (fileQueries : list GitHubFileQuery)
    (results : list CommitScanResult) (err : error)
    (result : CommitScanResult) (m : Match) :
  let trace := emitted (HandleCheckSuite handler checkSuitePayload) past in
  In (EvCheckFileContentFromQueries fileQueries (results, err)) trace ->
  In result results -> In m (Matches result) -> Resolved m = false ->
  verdicts trace = [(checkRunStatusCompleted, checkRunConclusionFailure)].
Proof.
  intros trace Hin Hr Hm Hres. subst trace.
  destruct (Run_fetch checkSuitePayload _ _
              (HandleCheckSuite_run handler checkSuitePayload past) Hin eq_refl)
    as [Hcalm | (created & quiet & rest & pr & k & -> & Hq & He & _)].
  { apply calm_scan in Hcalm. destruct Hcalm as [-> _]. destruct Hr. }
  apply calm_silent in Hq. destruct Hq as (Hqv & _).
  pose proof (opening_read checkSuitePayload (created, None)) as (Hov & _).
  assert (AllMatchesAreResolved results = false) as Hall
    by (apply AllMatchesAreResolved_false; exists result, m; auto).
  inversion He; subst; read; rewrite ?Hov, ?Hqv; try reflexivity.
  congruence.
Qed.

(** C5 (gathering or scanning fails).  When ListCommits, GetCommit or
    the scan comes back with an error, the very next request is the
    completion of handleFailure: conclusion Failure, no detail text;
    after it only log lines are written; and before the failing call no
    verdict was sent and no comment posted, so nothing of the scan is
    reported. *)
Theorem HandleCheckSuite_fetch_error_aborts `{Externals}
    (handler : PayloadHandler) (checkSuitePayload : CheckSuiteEvent)
    (past : list Event) (ev : Event) (e : string) :
  let trace := emitted (HandleCheckSuite handler checkSuitePayload) past in
  In ev trace -> fetchError ev = Some e ->
  exists before created summary reply logs,
    trace =
      before ++ ev
      :: EvUpdateCheckRun
           (Login (Owner (CheckSuiteEvent_Repo checkSuitePayload)))
           (Name (CheckSuiteEvent_Repo checkSuitePayload))
           (deref (CheckRun_ID created))
           {| Status := checkRunStatusCompleted;
              Conclusion := checkRunConclusionFailure;
              Output := {| Title := "Orca Checks"; Summary := summary; Text := None |} |}
           reply
      :: logs /\
    handleFailureEvents (shape.held checkSuitePayload created) summary e reply
      = EvUpdateCheckRun
           (Login (Owner (CheckSuiteEvent_Repo checkSuitePayload)))
           (Name (CheckSuiteEvent_Repo checkSuitePayload))
           (deref (CheckRun_ID created))
           {| Status := checkRunStatusCompleted;
              Conclusion := checkRunConclusionFailure;
              Output := {| Title := "Orca Checks"; Summary := summary; Text := None |} |}
           reply
        :: logs /\
    Forall (fun ev => isLog ev = true) logs /\
    verdicts before = [] /\
    comments before = [] /\
    verdicts trace = [(checkRunStatusCompleted, checkRunConclusionFailure)] /\
    comments trace = [].
Proof.
  intros trace Hin Herr. subst trace.
  destruct (Run_fetch checkSuitePayload _ _
              (HandleCheckSuite_run handler checkSuitePayload past) Hin
              (fetchError_isFetch ev e Herr))
    as [Hcalm | (created & quiet & rest & pr & k & Heq & Hq & He & _)].
  { apply calm_fetchError in Hcalm. congruence. }
  rewrite Heq. clear Heq Hin.
  apply calm_silent in Hq. destruct Hq as (Hqv & _ & Hqc & _).
  pose proof (opening_read checkSuitePayload (created, None))
    as (Hov & _ & _ & _ & Hoc & _).
  inversion He as [ev' e' summary reply Hf He' | | |]; subst; try discriminate Herr.
  assert (e' = e) by congruence. subst e'.
  destruct (handleFailureEvents_split (shape.held checkSuitePayload created)
              summary e reply) as (logs & Hsplit & Hlogs & _).
  exists (shape.opening checkSuitePayload (created, None)
          ++ EvLog DebugLevel "Check run %d created" [ArgPointer (CheckRun_ID created)]
          :: quiet),
    created, summary, reply, logs.
  split; [rewrite Hsplit, <- app_assoc; reflexivity|].
  split; [exact Hsplit|]. split; [exact Hlogs|].
  assert (comments [ev] = []) as Hev
    by (destruct ev; try discriminate Hf; reflexivity).
  assert (verdicts [ev] = []) as Hev'
    by (destruct ev; try discriminate Hf; reflexivity).
  rewrite comments_cons, app_nil_r in Hev.
  rewrite verdicts_cons, app_nil_r in Hev'.
  read. rewrite Hov, Hoc, Hqv, Hqc, Hev, Hev'. repeat split.
Qed.

(** C2, as amended (all matches resolved).  Whenever a scan made by the
    handler comes back with a non-empty set of results in which every
    match is resolved, the handler next posts the reminder comment on
    the pull request it is scanning, before any verdict; when the
    comment is created without error the one verdict that follows is
    the completion with conclusion Success, and when creating the
    comment fails it is the completion with conclusion Failure. *)
Theorem HandleCheckSuite_resolved_reminds `{Externals}
    (handler : PayloadHandler) (checkSuitePayload : CheckSuiteEvent)
    (past : list Event) (fileQueries : list GitHubFileQuery)
    (results : list CommitScanResult) :
  let trace := emitted (HandleCheckSuite handler checkSuitePayload) past in
  In (EvCheckFileContentFromQueries fileQueries (results, None)) trace ->
  results <> [] ->
  AllMatchesAreResolved results = true ->
  exists before pullRequest created commentReply after,
    In pullRequest (PullRequests (CheckSuiteEvent_CheckSuite checkSuitePayload)) /\
    trace =
      before
      ++ EvCheckFileContentFromQueries fileQueries (results, None)
      :: EvLog InfoLevel
           "Matches found but resolved in pull request #%d, passing check with reminder"
           [ArgPointer (Number pullRequest)]
      :: EvCreateComment
           (Login (Owner (CheckSuiteEvent_Repo checkSuitePayload)))
           (Name (CheckSuiteEvent_Repo checkSuitePayload))
           (deref (Number pullRequest))
           {| Body := reminderBody (shape.held checkSuitePayload created) |}
           commentReply
      :: after /\
    verdicts before = [] /\
    comments before = [] /\
    verdicts after
      = [(checkRunStatusCompleted,
          match commentReply with
          | None => checkRunConclusionSuccess
          | Some _ => checkRunConclusionFailure
          end)].
Proof.
  intros trace Hin Hne Hall. subst trace.
  destruct (Run_fetch checkSuitePayload _ _
              (HandleCheckSuite_run handler checkSuitePayload past) Hin eq_refl)
    as [Hcalm | (created & quiet & rest & pr & k & Heq & Hq & He & Hn & _)].
  { apply calm_scan in Hcalm. destruct Hcalm as [-> _]. contradiction. }
  rewrite Heq. clear Heq Hin.
  apply calm_silent in Hq. destruct Hq as (Hqv & _ & Hqc & _).
  pose proof (opening_read checkSuitePayload (created, None))
    as (Hov & _ & _ & _ & Hoc & _).
  apply nth_error_In in Hn.
  inversion He as [ev' e' summary reply Hf He' | qs' rs' reply _ Hres
                   | qs' rs' reply _ _ | qs' rs' e' reply _ _];
    subst; try discriminate He'; try congruence.
  - exists (shape.opening checkSuitePayload (created, None)
            ++ EvLog DebugLevel "Check run %d created" [ArgPointer (CheckRun_ID created)]
            :: quiet),
      pr, created, None.
    eexists. split; [exact Hn|]. split; [rewrite <- app_assoc; reflexivity|].
    read. rewrite Hov, Hoc, Hqv, Hqc. repeat split.
  - exists (shape.opening checkSuitePayload (created, None)
            ++ EvLog DebugLevel "Check run %d created" [ArgPointer (CheckRun_ID created)]
            :: quiet),
      pr, created, (Some e').
    eexists. split; [exact Hn|]. split; [rewrite <- app_assoc; reflexivity|].
    read. rewrite Hov, Hoc, Hqv, Hqc. repeat split.
Qed.

(** C10 (several pull requests).  The pull requests are taken in payload
    order: the numbers handed to ListCommits are an initial part of the
    payload's.  A scan that comes back with a non-empty set of results
    is the last gathering or scanning call of the run: the scans before
    it all came back empty, the pull requests after the one being
    scanned are never listed, and exactly one verdict is sent.  The
    completion written after the loop (Success, summary [No issues
    detected], no text) appears only when every pull request of the
    payload was listed and every scan came back empty and without
    error. *)
Theorem HandleCheckSuite_first_finding_decides `{Externals}
    (handler : PayloadHandler) (checkSuitePayload : CheckSuiteEvent)
    (past : list Event) :
  let trace := emitted (HandleCheckSuite handler checkSuitePayload) past in
  let numbers := payloadNumbers checkSuitePayload in
  (exists k, listed trace = firstn k numbers) /\
  (forall fileQueries results,
     In (EvCheckFileContentFromQueries fileQueries (results, None)) trace ->
     results <> [] ->
     exists k,
       (k < List.length numbers)%nat /\
       listed trace = firstn (S k) numbers /\
       scans trace = repeat ([], None) k ++ [(results, None)] /\
       (exists earlier,
          fetches trace
            = earlier ++ [EvCheckFileContentFromQueries fileQueries (results, None)]) /\
       (exists conclusion,
          verdicts trace = [(checkRunStatusCompleted, conclusion)])) /\
  (allClear trace = true ->
   listed trace = numbers /\
   scans trace = repeat ([], None) (List.length numbers)).
Proof.
  intros trace numbers. subst trace numbers.
  pose proof (HandleCheckSuite_run handler checkSuitePayload past) as HR.
  split; [|split].
  - destruct HR as [created e | created reply _ | created quiet ending pr k Hq He Hn Hl Hs
                    | created quiet reply _ Hq Hl Hs].
    + exists 0%nat. reflexivity.
    + exists 0%nat. pose proof (opening_read checkSuitePayload (created, None))
        as (_ & _ & Hol & _).
      read. rewrite Hol. reflexivity.
    + exists (S k). pose proof (opening_read checkSuitePayload (created, None))
        as (_ & _ & Hol & _).
      rewrite listed_app, listed_cons, Hl, Hol. reflexivity.
    + exists (List.length (payloadNumbers checkSuitePayload)).
      pose proof (opening_read checkSuitePayload (created, None))
        as (_ & _ & Hol & _).
      read. rewrite Hol, Hl, app_nil_r, firstn_all. reflexivity.
  - intros fileQueries results Hin Hne.
    destruct (Run_fetch checkSuitePayload _ _ HR Hin eq_refl)
      as [Hcalm | (created & quiet & rest & pr & k & Heq & Hq & He & Hn & Hl & Hs)].
    { apply calm_scan in Hcalm. destruct Hcalm as [-> _]. contradiction. }
    rewrite Heq. clear Heq Hin HR.
    pose proof (opening_read checkSuitePayload (created, None))
      as (Hov & _ & Hol & Hos & _ & Hof & _).
    apply Ending_read in He.
    destruct He as (ev & rest' & c & reply & Heq & _ & Hfr & Hsr & _ & Hv & _).
    injection Heq as <- <-.
    apply calm_silent in Hq. destruct Hq as (Hqv & _).
    exists k. split; [|split; [|split; [|split]]].
    + unfold payloadNumbers. rewrite length_map.
      apply nth_error_Some. congruence.
    + rewrite listed_app, listed_cons, Hl, Hol. reflexivity.
    + read. rewrite Hos, Hs, Hsr. reflexivity.
    + exists (fetches quiet). read. rewrite Hof, Hfr. reflexivity.
    + exists c. rewrite verdicts_app, verdicts_cons, verdicts_app, Hov, Hqv, Hv.
      reflexivity.
  - intros Hclear.
    destruct HR as [created e | created reply _ | created quiet ending pr k Hq He Hn Hl Hs
                    | created quiet reply _ Hq Hl Hs].
    + discriminate Hclear.
    + pose proof (opening_read checkSuitePayload (created, None))
        as (_ & _ & _ & _ & _ & _ & _ & Hoa).
      revert Hclear. read. rewrite Hoa. discriminate.
    + pose proof (opening_read checkSuitePayload (created, None))
        as (_ & _ & _ & _ & _ & _ & _ & Hoa).
      apply Ending_read in He.
      destruct He as (ev & rest' & c & reply & _ & _ & _ & _ & _ & _ & _ & _ & Ha & _).
      apply calm_silent in Hq. destruct Hq as (_ & _ & _ & _ & Hqa).
      revert Hclear.
      rewrite allClear_app, allClear_cons, allClear_app, Hoa, Hqa, Ha. discriminate.
    + pose proof (opening_read checkSuitePayload (created, None))
        as (_ & _ & Hol & Hos & _).
      read. rewrite Hol, Hos, Hl, Hs, !app_nil_r.
      unfold payloadNumbers. rewrite length_map. split; reflexivity.
Qed.

(** *** The push handler *)

(** C9 (push with an open pull request).  When the list of open pull
    requests whose head is the pushed ref comes back non-empty, the
    handler writes one more log line and returns: the trace holds no
    scan of the push and no remediation call. *)
Theorem HandlePush_skips_when_pull_request_open `{Externals}
    (handler : PayloadHandler) (pushPayload : PushEvent) (past : list Event)
    (owner repo : string) (opts : PullRequestListOptions)
    (pullRequests : list PullRequest) (err : error) :
  let trace := emitted (HandlePush handler pushPayload) past in
  In (EvList owner repo opts (pullRequests, err)) trace ->
  pullRequests <> [] ->
  owner = Login (Owner (PushEvent_Repo pushPayload)) /\
  repo = Name (PushEvent_Repo pushPayload) /\
  opts = {| State := "open";
            Head := (Pusher_Name (PushEvent_Pusher pushPayload) ++ ":"
                       ++ Ref pushPayload)%string |} /\
  trace =
    [EvLog InfoLevel "Handling push..." [];
     EvList owner repo opts (pullRequests, err);
     EvLog InfoLevel
       ("Pull Request already exists for %s, skipping check on push." ++ fmt.nl)%string
       [ArgString (Ref pushPayload)]] /\
  (forall ev, In ev trace ->
     match ev with
     | EvCheckPush _ _ => False
     | EvHandleMatchesFromPush _ _ _ => False
     | _ => True
     end).
Proof.
  intros trace. subst trace.
  unfold emitted, HandlePush, bind, log, PullRequests_List, Scanner_CheckPush,
    HandleMatchesFromPush, ret.
  cbn [fst snd app].
  match goal with
  | |- context [reply_List handler ?past' ?o ?r ?opt] =>
      destruct (reply_List handler past' o r opt) as [[|pullRequest rest] err']
  end; cbn [fst snd app List.length Nat.ltb Nat.leb].
  - match goal with
    | |- context [reply_CheckPush handler ?past' ?p] =>
        destruct (reply_CheckPush handler past' p) as [[|result results] [e|]]
    end; cbn [fst snd app List.length Nat.ltb Nat.leb];
      try match goal with
      | |- context [reply_HandleMatchesFromPush handler ?past' ?p ?rs] =>
          destruct (reply_HandleMatchesFromPush handler past' p rs) as [e'|]
      end; cbn [fst snd app];
      intros Hin Hne; exfalso;
      repeat (destruct Hin as [Hin | Hin]; [try discriminate Hin|]);
      try contradiction; injection Hin as _ _ _ <- _; contradiction.
  - intros Hin Hne.
    destruct Hin as [Hin | [Hin | [Hin | []]]]; try discriminate Hin.
    injection Hin as <- <- <- <- <-.
    repeat split.
    intros ev [<- | [<- | [<- | []]]]; exact I.
Qed.

(** *** The push remediator *)

(** What [%d] prints reads back as the number printed. *)
Lemma fmt_d_exact (z : Z) :
  option_map Z.of_int (NilZero.int_of_string (fmt.d z)) = Some z.
Proof.
  unfold fmt.d.
  destruct z as [|p|p].
  - reflexivity.
  - rewrite NilZero.isi.
    + cbn [option_map]. f_equal. apply DecimalZ.of_to.
    + cbn. intros [= Hp]. revert Hp. apply DecimalPos.Unsigned.to_uint_nonnil.
    + cbn. discriminate.
  - rewrite NilZero.isi.
    + cbn [option_map]. f_equal. apply DecimalZ.of_to.
    + cbn. discriminate.
    + cbn. intros [= Hp]. revert Hp. apply DecimalPos.Unsigned.to_uint_nonnil.
Qed.

Example fmt_d_samples :
  fmt.d 2 = "2"%string /\ fmt.d 12 = "12"%string /\ fmt.d 0 = "0"%string /\
  fmt.d (-7) = "-7"%string.
Proof. repeat split. Qed.

(** C7 (title of the issue).  With two or more scan results the title
    of the issue request is the plural form carrying the number of
    results in decimal; with exactly one it is the singular form. *)
Theorem RemediateFromPush_title
    (pushPayload : remediator.PushPayload)
    (results : list remediator.CommitScanResult)
    (handlerContext : remediator.HandlerContext) :
  exists request reply,
    snd (remediator.RemediateFromPush pushPayload results handlerContext)
      = [remediator.IssuesCreate
           (remediator.Repository_Owner_Login pushPayload)
           (remediator.Repository_Name pushPayload) request reply] /\
    ((2 <= List.length results)%nat ->
     remediator.Title request
       = ("Potentially sensitive data found in "
            ++ fmt.d (Z.of_nat (List.length results)) ++ " commits")%string) /\
    (List.length results = 1%nat ->
     remediator.Title request = "Potentially sensitive data found in a commit"%string).
Proof.
  unfold remediator.RemediateFromPush.
  match goal with
  | |- context [remediator.Issues_Create handlerContext ?o ?r ?req] =>
      exists req, (remediator.Issues_Create handlerContext o r req);
      destruct (remediator.Issues_Create handlerContext o r req)
  end; (split; [reflexivity|]); cbn [remediator.Title];
    (split; intros Hlen;
     [ destruct results as [|r1 [|r2 rest]]; cbn in Hlen; try lia; reflexivity
     | rewrite Hlen; reflexivity ]).
Qed.

(** C8 (one issue per push).  Whatever the scan results, and so for
    every non-empty list of them, the remediator sends exactly one
    request to create an issue, to the repository of the push; the
    assignee of that request is the pusher, and the error of the
    request is what the remediator returns. *)
Theorem RemediateFromPush_one_issue
    (pushPayload : remediator.PushPayload)
    (results : list remediator.CommitScanResult)
    (handlerContext : remediator.HandlerContext) :
  exists request,
    remediator.RemediateFromPush pushPayload results handlerContext
      = (remediator.Issues_Create handlerContext
           (remediator.Repository_Owner_Login pushPayload)
           (remediator.Repository_Name pushPayload) request,
         [remediator.IssuesCreate
            (remediator.Repository_Owner_Login pushPayload)
            (remediator.Repository_Name pushPayload) request
            (remediator.Issues_Create handlerContext
               (remediator.Repository_Owner_Login pushPayload)
               (remediator.Repository_Name pushPayload) request)]) /\
    remediator.Assignee request = remediator.Pusher_Name pushPayload.
Proof.
  unfold remediator.RemediateFromPush.
  match goal with
  | |- context [remediator.Issues_Create handlerContext ?o ?r ?req] =>
      exists req; destruct (remediator.Issues_Create handlerContext o r req)
  end; split; reflexivity.
Qed.

(** *** The theorems at work on the sample platforms *)

Ltac pick := vm_compute; repeat (first [left; reflexivity | right]).

(** The comment is refused: the scan of pull request 1 came back with
    resolved matches only, and the run is completed with Failure. *)
Lemma HandleCheckSuite_resolved_success_counterexample :
  In (EvCheckFileContentFromQueries sample.queries (sample.resolved, None))
     (emitted (HandleCheckSuite sample.reminderRefused (sample.suite [sample.pr 1])) []) /\
  sample.resolved <> [] /\
  AllMatchesAreResolved sample.resolved = true /\
  comments
    (emitted (HandleCheckSuite sample.reminderRefused (sample.suite [sample.pr 1])) [])
    = [(1%Z, reminderBody (shape.held (sample.suite [sample.pr 1]) sample.run),
        Some "comment refused"%string)] /\
  verdicts
    (emitted (HandleCheckSuite sample.reminderRefused (sample.suite [sample.pr 1])) [])
    = [(checkRunStatusCompleted, checkRunConclusionFailure)] /\
  ~ In (checkRunStatusCompleted, checkRunConclusionSuccess)
      (verdicts
         (emitted (HandleCheckSuite sample.reminderRefused (sample.suite [sample.pr 1]))
            [])).
Proof.
  split; [pick|]. split; [discriminate|]. split; [reflexivity|].
  split; [reflexivity|]. split; [reflexivity|].
  vm_compute. intros [Heq | []]. discriminate Heq.
Qed.

Lemma HandleCheckSuite_resolved_reminds_witness :
  exists before pullRequest created commentReply after,
    In pullRequest [sample.pr 1; sample.pr 2] /\
    emitted (HandleCheckSuite sample.reminded (sample.suite [sample.pr 1; sample.pr 2])) []
      = before
        ++ EvCheckFileContentFromQueries sample.queries (sample.resolved, None)
        :: EvLog InfoLevel
             "Matches found but resolved in pull request #%d, passing check with reminder"
             [ArgPointer (Number pullRequest)]
        :: EvCreateComment "octo" "orca" (deref (Number pullRequest))
             {| Body := reminderBody
                          (shape.held (sample.suite [sample.pr 1; sample.pr 2]) created) |}
             commentReply
        :: after /\
    verdicts before = [] /\
    comments before = [] /\
    verdicts after
      = [(checkRunStatusCompleted,
          match commentReply with
          | None => checkRunConclusionSuccess
          | Some _ => checkRunConclusionFailure
          end)].
Proof.
  apply (HandleCheckSuite_resolved_reminds (H := sample.externals) sample.reminded
           (sample.suite [sample.pr 1; sample.pr 2]) [] sample.queries sample.resolved).
  - pick.
  - discriminate.
  - reflexivity.
Defined.

Lemma HandleCheckSuite_unresolved_fails_witness :
  verdicts
    (emitted
       (HandleCheckSuite sample.secondUnresolved
          (sample.suite [sample.pr 1; sample.pr 2; sample.pr 3])) [])
  = [(checkRunStatusCompleted, checkRunConclusionFailure)].
Proof.
  apply (HandleCheckSuite_unresolved_fails (H := sample.externals)
           sample.secondUnresolved
           (sample.suite [sample.pr 1; sample.pr 2; sample.pr 3]) []
           sample.queries sample.unresolved None
           (sample.res "c1" [true; false]) {| Resolved := false |}).
  - pick.
  - pick.
  - pick.
  - reflexivity.
Defined.

Lemma HandleCheckSuite_no_pull_request_witness :
  PullRequests (CheckSuiteEvent_CheckSuite (sample.suite [])) = [] /\
  fetches (emitted (HandleCheckSuite sample.clean (sample.suite [])) []) = [] /\
  checkRunCreated (emitted (HandleCheckSuite sample.clean (sample.suite [])) []) = true /\
  verdicts (emitted (HandleCheckSuite sample.clean (sample.suite [])) [])
    = [(checkRunStatusCompleted, checkRunConclusionSkipped)].
Proof.
  split; [reflexivity|].
  destruct (HandleCheckSuite_no_pull_request (H := sample.externals) sample.clean
              (sample.suite []) [] eq_refl) as (Hfetches & Hskipped & _).
  split; [exact Hfetches|]. split; [reflexivity|].
  apply Hskipped. reflexivity.
Defined.

Lemma HandleCheckSuite_fetch_error_aborts_witness :
  exists before created summary reply logs,
    emitted
      (HandleCheckSuite sample.secondScanFails
         (sample.suite [sample.pr 1; sample.pr 2; sample.pr 3])) []
      = before
        ++ EvCheckFileContentFromQueries sample.queries ([], Some "scan failed"%string)
        :: EvUpdateCheckRun "octo" "orca" (deref (CheckRun_ID created))
             {| Status := checkRunStatusCompleted;
                Conclusion := checkRunConclusionFailure;
                Output := {| Title := "Orca Checks"; Summary := summary; Text := None |} |}
             reply
        :: logs /\
    handleFailureEvents
      (shape.held (sample.suite [sample.pr 1; sample.pr 2; sample.pr 3]) created)
      summary "scan failed" reply
      = EvUpdateCheckRun "octo" "orca" (deref (CheckRun_ID created))
          {| Status := checkRunStatusCompleted;
             Conclusion := checkRunConclusionFailure;
             Output := {| Title := "Orca Checks"; Summary := summary; Text := None |} |}
          reply
        :: logs /\
    Forall (fun ev => isLog ev = true) logs /\
    verdicts before = [] /\
    comments before = [] /\
    verdicts
      (emitted
         (HandleCheckSuite sample.secondScanFails
            (sample.suite [sample.pr 1; sample.pr 2; sample.pr 3])) [])
      = [(checkRunStatusCompleted, checkRunConclusionFailure)] /\
    comments
      (emitted
         (HandleCheckSuite sample.secondScanFails
            (sample.suite [sample.pr 1; sample.pr 2; sample.pr 3])) [])
      = [].
Proof.
  apply (HandleCheckSuite_fetch_error_aborts (H := sample.externals)
           sample.secondScanFails
           (sample.suite [sample.pr 1; sample.pr 2; sample.pr 3]) []
           (EvCheckFileContentFromQueries sample.queries ([], Some "scan failed"%string))
           "scan failed"%string).
  - pick.
  - reflexivity.
Defined.

Lemma HandleCheckSuite_completes_once_witness :
  checkRunCreated
    (emitted
       (HandleCheckSuite sample.updateRefused (sample.suite [sample.pr 1; sample.pr 2]))
       []) = true /\
  exists created before owner repo id opts reply logs,
    In (EvCreateCheckRun "octo" "orca"
          {| CreateCheckRunOptions_Name := "Orca Checks";
             CreateCheckRunOptions_HeadSHA := "abc123";
             CreateCheckRunOptions_Status := checkRunStatusInProgress |}
          (created, None)) before /\
    emitted
      (HandleCheckSuite sample.updateRefused (sample.suite [sample.pr 1; sample.pr 2]))
      []
      = before ++ EvUpdateCheckRun owner repo id opts reply :: logs /\
    statusWrites before = [(checkRunStatusInProgress, None)] /\
    Status opts = checkRunStatusCompleted /\
    Forall (fun ev => isLog ev = true) logs /\
    (forall e, reply = Some e ->
       In (EvLog ErrorLevel "Failed to update check run %d: %v"
             [ArgPointer (CheckRun_ID created); ArgError e]) logs) /\
    statusWrites
      (emitted
         (HandleCheckSuite sample.updateRefused (sample.suite [sample.pr 1; sample.pr 2]))
         [])
      = [(checkRunStatusInProgress, None); (checkRunStatusCompleted, reply)].
Proof.
  split; [reflexivity|].
  apply (HandleCheckSuite_completes_once (H := sample.externals) sample.updateRefused
           (sample.suite [sample.pr 1; sample.pr 2]) []).
  reflexivity.
Defined.

Lemma HandleCheckSuite_first_finding_decides_witness :
  (exists k,
     (k < 3)%nat /\
     listed
       (emitted
          (HandleCheckSuite sample.secondUnresolved
             (sample.suite [sample.pr 1; sample.pr 2; sample.pr 3])) [])
       = firstn (S k) [1%Z; 2%Z; 3%Z] /\
     scans
       (emitted
          (HandleCheckSuite sample.secondUnresolved
             (sample.suite [sample.pr 1; sample.pr 2; sample.pr 3])) [])
       = repeat ([], None) k ++ [(sample.unresolved, None)] /\
     (exists earlier,
        fetches
          (emitted
             (HandleCheckSuite sample.secondUnresolved
                (sample.suite [sample.pr 1; sample.pr 2; sample.pr 3])) [])
          = earlier
            ++ [EvCheckFileContentFromQueries sample.queries (sample.unresolved, None)]) /\
     (exists conclusion,
        verdicts
          (emitted
             (HandleCheckSuite sample.secondUnresolved
                (sample.suite [sample.pr 1; sample.pr 2; sample.pr 3])) [])
          = [(checkRunStatusCompleted, conclusion)])) /\
  (listed
     (emitted
        (HandleCheckSuite sample.clean
           (sample.suite [sample.pr 1; sample.pr 2; sample.pr 3])) [])
     = [1%Z; 2%Z; 3%Z] /\
   scans
     (emitted
        (HandleCheckSuite sample.clean
           (sample.suite [sample.pr 1; sample.pr 2; sample.pr 3])) [])
     = repeat ([], None) 3).
Proof.
  split.
  - apply (proj1 (proj2
      (HandleCheckSuite_first_finding_decides (H := sample.externals)
         sample.secondUnresolved
         (sample.suite [sample.pr 1; sample.pr 2; sample.pr 3]) []))
      sample.queries sample.unresolved).
    + pick.
    + discriminate.
  - apply (proj2 (proj2
      (HandleCheckSuite_first_finding_decides (H := sample.externals)
         sample.clean
         (sample.suite [sample.pr 1; sample.pr 2; sample.pr 3]) []))).
    reflexivity.
Defined.

Lemma HandlePush_skips_when_pull_request_open_witness :
  emitted (HandlePush (sample.pushPlatform [sample.pr 4]) sample.push) []
  = [EvLog InfoLevel "Handling push..." [];
     EvList "octo" "orca"
       {| State := "open"; Head := "mona:refs/heads/feature" |}
       ([sample.pr 4], None);
     EvLog InfoLevel
       ("Pull Request already exists for %s, skipping check on push." ++ fmt.nl)%string
       [ArgString "refs/heads/feature"]].
Proof.
  apply (HandlePush_skips_when_pull_request_open (H := sample.externals)
           (sample.pushPlatform [sample.pr 4]) sample.push []
           "octo"%string "orca"%string
           {| State := "open"; Head := "mona:refs/heads/feature" |}
           [sample.pr 4] None).
  - pick.
  - discriminate.
Defined.

Lemma RemediateFromPush_title_witness :
  (exists request reply,
     snd (remediator.RemediateFromPush sample.pushed
            [sample.finding "c1"; sample.finding "c2"] sample.accepting)
       = [remediator.IssuesCreate "octo" "orca" request reply] /\
     remediator.Title request
       = "Potentially sensitive data found in 2 commits"%string) /\
  (exists request reply,
     snd (remediator.RemediateFromPush sample.pushed
            [sample.finding "c1"] sample.accepting)
       = [remediator.IssuesCreate "octo" "orca" request reply] /\
     remediator.Title request
       = "Potentially sensitive data found in a commit"%string).
Proof.
  split.
  - destruct (RemediateFromPush_title sample.pushed
                [sample.finding "c1"; sample.finding "c2"] sample.accepting)
      as (request & reply & Hcalls & Hplural & _).
    exists request, reply. split; [exact Hcalls|].
    apply Hplural. apply le_n.
  - destruct (RemediateFromPush_title sample.pushed
                [sample.finding "c1"] sample.accepting)
      as (request & reply & Hcalls & _ & Hsingular).
    exists request, reply. split; [exact Hcalls|].
    apply Hsingular. reflexivity.
Defined.

(* ================================================================== *)
(** ** Further properties *)

Import reading.

(** *** More on the check-suite handler *)

Section MorePieces.
Context `{Externals}.

Lemma updates_app (a b : list Event) : updates (a ++ b) = updates a ++ updates b.
Proof. apply flat_map_app. Qed.

Lemma updates_cons (ev : Event) (rest : list Event) :
  updates (ev :: rest) = updateOf ev ++ updates rest.
Proof. reflexivity. Qed.

Lemma updates_nil : updates (@nil Event) = [].
Proof. reflexivity. Qed.

Lemma updates_handleFailureEvents checkRun summary e reply :
  updates (handleFailureEvents checkRun summary e reply)
  = [(Login (Owner (CheckSuite_Repository (CheckRun_CheckSuite checkRun))),
      Name (CheckSuite_Repository (CheckRun_CheckSuite checkRun)),
      deref (CheckRun_ID checkRun),
      {| Status := checkRunStatusCompleted;
         Conclusion := checkRunConclusionFailure;
         Output := {| Title := "Orca Checks"; Summary := summary; Text := None |} |})].
Proof. destruct reply; reflexivity. Qed.

Lemma updates_completeCheckRunEvents checkRun conclusion summary text reply :
  updates (completeCheckRunEvents checkRun conclusion summary text reply)
  = [(Login (Owner (CheckSuite_Repository (CheckRun_CheckSuite checkRun))),
      Name (CheckSuite_Repository (CheckRun_CheckSuite checkRun)),
      deref (CheckRun_ID checkRun),
      {| Status := checkRunStatusCompleted;
         Conclusion := conclusion;
         Output := {| Title := "Orca Checks"; Summary := summary; Text := text |} |})].
Proof. destruct reply; reflexivity. Qed.

Lemma updates_calm (quiet : list Event) :
  Forall (fun ev => shape.calm ev = true) quiet -> updates quiet = [].
Proof.
  induction 1 as [|ev rest Hev _ IH]; [reflexivity|].
  rewrite updates_cons, IH. destruct ev; try discriminate Hev; reflexivity.
Qed.

Lemma updates_opening checkSuitePayload (reply : CheckRun * error) :
  updates (shape.opening checkSuitePayload reply) = [].
Proof. reflexivity. Qed.

Lemma posts_app (a b : list Event) : posts (a ++ b) = posts a ++ posts b.
Proof. apply flat_map_app. Qed.

Lemma posts_cons (ev : Event) (rest : list Event) :
  posts (ev :: rest) = postOf ev ++ posts rest.
Proof. reflexivity. Qed.

Lemma posts_nil : posts (@nil Event) = [].
Proof. reflexivity. Qed.

Lemma posts_handleFailureEvents checkRun summary e reply :
  posts (handleFailureEvents checkRun summary e reply) = [].
Proof. destruct reply; reflexivity. Qed.

Lemma posts_completeCheckRunEvents checkRun conclusion summary text reply :
  posts (completeCheckRunEvents checkRun conclusion summary text reply) = [].
Proof. destruct reply; reflexivity. Qed.

Lemma posts_calm (quiet : list Event) :
  Forall (fun ev => shape.calm ev = true) quiet -> posts quiet = [].
Proof.
  induction 1 as [|ev rest Hev _ IH]; [reflexivity|].
  rewrite posts_cons, IH. destruct ev; try discriminate Hev; reflexivity.
Qed.

Lemma posts_opening checkSuitePayload (reply : CheckRun * error) :
  posts (shape.opening checkSuitePayload reply) = [].
Proof. reflexivity. Qed.

Lemma In_updates (trace : list Event) owner repo id opts reply :
  In (EvUpdateCheckRun owner repo id opts reply) trace ->
  In (owner, repo, id, opts) (updates trace).
Proof.
  intros Hin. apply in_flat_map. eexists. split; [exact Hin|]. left. reflexivity.
Qed.

Lemma In_scans (trace : list Event) fileQueries reply :
  In (EvCheckFileContentFromQueries fileQueries reply) trace ->
  In reply (scans trace).
Proof.
  intros Hin. apply in_flat_map. eexists. split; [exact Hin|]. left. reflexivity.
Qed.

Lemma In_comments (trace : list Event) owner repo number comment reply :
  In (EvCreateComment owner repo number comment reply) trace ->
  In (number, Body comment, reply) (comments trace).
Proof.
  intros Hin. apply in_flat_map. eexists. split; [exact Hin|]. left. reflexivity.
Qed.

End MorePieces.

#[local] Hint Rewrite
  @updates_app @updates_cons @updates_nil
  @updates_handleFailureEvents @updates_completeCheckRunEvents
  @updates_opening
  @posts_app @posts_cons @posts_nil
  @posts_handleFailureEvents @posts_completeCheckRunEvents @posts_opening
  : read.

Ltac reads :=
  autorewrite with read;
  cbn [verdictOf statusWriteOf listedOf scanOf commentOf updateOf postOf isFetch
       isCreation isAllClear app orb andb fst snd
       Status Conclusion Output Summary Text CreateCheckRunOptions_Status].

(** What the opening of a run with a created check run reads as. *)
Ltac opened payload created :=
  pose proof (opening_read payload (created, None))
    as (Hov & Hos & Hol & Hosc & Hoc & Hof & Hocr & Hoa).

(** X1 (creation fails).  When CreateCheckRun comes back with an error
    the handler does nothing more: its trace is the two opening log
    lines and the failed request, so no gathering call, no comment and
    no UpdateCheckRun is made; the error itself is not logged. *)
Theorem HandleCheckSuite_creation_failed `{Externals}
    (handler : PayloadHandler) (checkSuitePayload : CheckSuiteEvent)
    (past : list Event) :
  let trace := emitted (HandleCheckSuite handler checkSuitePayload) past in
  checkRunCreated trace = false ->
  exists created e,
    trace =
      [EvLog InfoLevel "Handling check suite event from %s/%s (%d)"
         [ArgString (Login (Owner (CheckSuiteEvent_Repo checkSuitePayload)));
          ArgString (Name (CheckSuiteEvent_Repo checkSuitePayload));
          ArgInt (CheckSuite_ID (CheckSuiteEvent_CheckSuite checkSuitePayload))];
       EvLog DebugLevel "Creating new check run" [];
       EvCreateCheckRun
         (Login (Owner (CheckSuiteEvent_Repo checkSuitePayload)))
         (Name (CheckSuiteEvent_Repo checkSuitePayload))
         {| CreateCheckRunOptions_Name := "Orca Checks";
            CreateCheckRunOptions_HeadSHA :=
              CheckSuite_HeadSHA (CheckSuiteEvent_CheckSuite checkSuitePayload);
            CreateCheckRunOptions_Status := checkRunStatusInProgress |}
         (created, Some e)].
Proof.
  intros trace. subst trace.
  destruct (HandleCheckSuite_run handler checkSuitePayload past)
    as [created e | created reply _ | created quiet ending pr k _ _ _ _ _
        | created quiet reply _ _ _ _]; intros Hcreated.
  - exists created, e. reflexivity.
  - opened checkSuitePayload created.
    rewrite checkRunCreated_app, Hocr in Hcreated. discriminate.
  - opened checkSuitePayload created.
    rewrite checkRunCreated_app, Hocr in Hcreated. discriminate.
  - opened checkSuitePayload created.
    rewrite checkRunCreated_app, Hocr in Hcreated. discriminate.
Qed.

(** X2 (where the completion goes).  Every UpdateCheckRun request of the
    handler is addressed to the repository of the event payload and to
    the id of the check run that CreateCheckRun returned, whatever
    repository that reply carried; its output title is [Orca Checks] and
    its status is Completed. *)
Theorem HandleCheckSuite_update_addressed `{Externals}
    (handler : PayloadHandler) (checkSuitePayload : CheckSuiteEvent)
    (past : list Event) (owner repo : string) (id : Z)
    (opts : UpdateCheckRunOptions) (reply : error) :
  let trace := emitted (HandleCheckSuite handler checkSuitePayload) past in
  In (EvUpdateCheckRun owner repo id opts reply) trace ->
  owner = Login (Owner (CheckSuiteEvent_Repo checkSuitePayload)) /\
  repo = Name (CheckSuiteEvent_Repo checkSuitePayload) /\
  Status opts = checkRunStatusCompleted /\
  Title (Output opts) = "Orca Checks"%string /\
  exists created creation,
    In (EvCreateCheckRun
          (Login (Owner (CheckSuiteEvent_Repo checkSuitePayload)))
          (Name (CheckSuiteEvent_Repo checkSuitePayload))
          creation (created, None)) trace /\
    id = deref (CheckRun_ID created).
Proof.
  intros trace Hin. subst trace. apply In_updates in Hin. revert Hin.
  destruct (HandleCheckSuite_run handler checkSuitePayload past)
    as [created e | created ureply _ | created quiet ending pr k Hq He _ _ _
        | created quiet ureply _ Hq _ _].
  - intros [].
  - reads. intros [[= <- <- <- <-] | []].
    repeat split. exists created. eexists. split; [|reflexivity].
    apply in_or_app. left. do 2 right. left. reflexivity.
  - apply updates_calm in Hq.
    assert (exists conclusion summary text,
              updates ending
              = [(Login (Owner (CheckSuiteEvent_Repo checkSuitePayload)),
                  Name (CheckSuiteEvent_Repo checkSuitePayload),
                  deref (CheckRun_ID created),
                  {| Status := checkRunStatusCompleted;
                     Conclusion := conclusion;
                     Output := {| Title := "Orca Checks"; Summary := summary;
                                  Text := text |} |})]) as (c & s & t & Hu).
    { inversion He as [ev e summary ureply Hf _ | | |]; subst; reads;
        try (do 3 eexists; reflexivity).
      destruct ev; try discriminate Hf; do 3 eexists; reflexivity. }
    reads. rewrite Hq, Hu. intros [[= <- <- <- <-] | []].
    repeat split. exists created. eexists. split; [|reflexivity].
    apply in_or_app. left. do 2 right. left. reflexivity.
  - apply updates_calm in Hq. reads. rewrite Hq.
    intros [[= <- <- <- <-] | []].
    repeat split. exists created. eexists. split; [|reflexivity].
    apply in_or_app. left. do 2 right. left. reflexivity.
Qed.

(** The head of an ending is in the trace of its run. *)
Lemma In_ended `{Externals} (front quiet rest : list Event) (mid ev : Event) :
  In ev (front ++ mid :: quiet ++ ev :: rest).
Proof.
  apply in_or_app. right. right. apply in_or_app. right. left. reflexivity.
Qed.

Lemma In_created `{Externals} checkSuitePayload created (rest : list Event) :
  In (EvCreateCheckRun
        (Login (Owner (CheckSuiteEvent_Repo checkSuitePayload)))
        (Name (CheckSuiteEvent_Repo checkSuitePayload))
        {| CreateCheckRunOptions_Name := "Orca Checks";
           CreateCheckRunOptions_HeadSHA :=
             CheckSuite_HeadSHA (CheckSuiteEvent_CheckSuite checkSuitePayload);
           CreateCheckRunOptions_Status := checkRunStatusInProgress |}
        (created, None))
     (shape.opening checkSuitePayload (created, None) ++ rest).
Proof. apply in_or_app. left. do 2 right. left. reflexivity. Qed.


(** X4 (no failure without a cause).  A verdict with conclusion Failure
    is sent only when a gathering or scanning call came back with an
    error, or the reminder comment was refused, or a scan came back
    without error with a match that is not resolved. *)
Theorem HandleCheckSuite_failure_has_cause `{Externals}
    (handler : PayloadHandler) (checkSuitePayload : CheckSuiteEvent)
    (past : list Event) :
  let trace := emitted (HandleCheckSuite handler checkSuitePayload) past in
  In (checkRunStatusCompleted, checkRunConclusionFailure) (verdicts trace) ->
  (exists ev e, In ev trace /\ fetchError ev = Some e) \/
  (exists number body e, In (number, body, Some e) (comments trace)) \/
  (exists fileQueries results result m,
     In (EvCheckFileContentFromQueries fileQueries (results, None)) trace /\
     In result results /\ In m (Matches result) /\ Resolved m = false).
Proof.
  intros trace. subst trace.
  destruct (HandleCheckSuite_run handler checkSuitePayload past)
    as [created e | created ureply _ | created quiet ending pr k Hq He Hn _ _
        | created quiet ureply _ Hq _ _].
  - intros [].
  - opened checkSuitePayload created. reads. rewrite Hov.
    intros [Heq | []]. discriminate Heq.
  - opened checkSuitePayload created.
    pose proof (calm_silent _ Hq) as (Hqv & _ & Hqc & _).
    inversion He as [ev e summary ureply Hf Herr | qs rs ureply Hne Hres
                     | qs rs ureply Hne Hres | qs rs e ureply Hne Hres]; subst;
      intros Hin.
    + left. exists ev, e. split; [apply In_ended | exact Herr].
    + right. right. apply AllMatchesAreResolved_false in Hres.
      destruct Hres as (result & m & Hr & Hm & Hf).
      exists qs, rs, result, m. split; [apply In_ended|]. auto.
    + revert Hin. reads. rewrite Hov, Hqv. intros [Heq | []]. discriminate Heq.
    + right. left. eexists _, _, e. reads. rewrite Hoc, Hqc. left. reflexivity.
  - opened checkSuitePayload created.
    pose proof (calm_silent _ Hq) as (Hqv & _).
    reads. rewrite Hov, Hqv. intros [Heq | []]. discriminate Heq.
Qed.

(** X5 (no success without grounds).  A verdict with conclusion Success
    is sent only in two situations: every pull request of the payload
    was listed and every scan came back empty and without error (the
    completion then says [No issues detected] and carries no text); or
    a scan came back without error with a non-empty set of results that
    are all resolved, and the one comment posted was accepted. *)
Theorem HandleCheckSuite_success_has_grounds `{Externals}
    (handler : PayloadHandler) (checkSuitePayload : CheckSuiteEvent)
    (past : list Event) :
  let trace := emitted (HandleCheckSuite handler checkSuitePayload) past in
  In (checkRunStatusCompleted, checkRunConclusionSuccess) (verdicts trace) ->
  (allClear trace = true /\
   listed trace = payloadNumbers checkSuitePayload /\
   scans trace
     = repeat ([], None)
         (List.length (PullRequests (CheckSuiteEvent_CheckSuite checkSuitePayload))) /\
   comments trace = []) \/
  (exists fileQueries results number body,
     In (EvCheckFileContentFromQueries fileQueries (results, None)) trace /\
     results <> [] /\
     AllMatchesAreResolved results = true /\
     comments trace = [(number, body, None)]).
Proof.
  intros trace. subst trace.
  destruct (HandleCheckSuite_run handler checkSuitePayload past)
    as [created e | created ureply _ | created quiet ending pr k Hq He Hn _ _
        | created quiet ureply _ Hq Hl Hs].
  - intros [].
  - opened checkSuitePayload created. reads. rewrite Hov.
    intros [Heq | []]. discriminate Heq.
  - opened checkSuitePayload created.
    pose proof (calm_silent _ Hq) as (Hqv & _ & Hqc & _).
    inversion He as [ev e summary ureply Hf Herr | qs rs ureply Hne Hres
                     | qs rs ureply Hne Hres | qs rs e ureply Hne Hres]; subst;
      intros Hin.
    + revert Hin. rewrite verdicts_app, verdicts_cons, verdicts_app, verdicts_cons,
        verdicts_handleFailureEvents, Hov, Hqv.
      destruct ev; try discriminate Hf; intros [Heq | []]; discriminate Heq.
    + revert Hin. reads. rewrite Hov, Hqv. intros [Heq | []]. discriminate Heq.
    + right. eexists qs, rs, _, _. split; [apply In_ended|].
      split; [exact Hne|]. split; [exact Hres|].
      reads. rewrite Hoc, Hqc. reflexivity.
    + revert Hin. reads. rewrite Hov, Hqv. intros [Heq | []]. discriminate Heq.
  - intros _. left. opened checkSuitePayload created.
    pose proof (calm_silent _ Hq) as (_ & _ & Hqc & _ & Hqa).
    reads. rewrite Hoa, Hol, Hosc, Hoc, Hl, Hs, Hqc, Hqa, !app_nil_r.
    repeat split.
Qed.

(** X6 (a clean run passes).  When the check run is created, the payload
    has a pull request, no gathering or scanning call of the run comes
    back with an error and no scan comes back with a result, the handler
    lists every pull request of the payload, posts no comment and sends
    the one verdict Success, with the summary [No issues detected]. *)
Theorem HandleCheckSuite_clean_run_passes `{Externals}
    (handler : PayloadHandler) (checkSuitePayload : CheckSuiteEvent)
    (past : list Event) :
  let trace := emitted (HandleCheckSuite handler checkSuitePayload) past in
  checkRunCreated trace = true ->
  PullRequests (CheckSuiteEvent_CheckSuite checkSuitePayload) <> [] ->
  (forall ev, In ev trace -> fetchError ev = None) ->
  (forall reply, In reply (scans trace) -> fst reply = []) ->
  verdicts trace = [(checkRunStatusCompleted, checkRunConclusionSuccess)] /\
  allClear trace = true /\
  listed trace = payloadNumbers checkSuitePayload /\
  posts trace = [].
Proof.
  intros trace. subst trace.
  destruct (HandleCheckSuite_run handler checkSuitePayload past)
    as [created e | created ureply Hprs | created quiet ending pr k Hq He Hn _ _
        | created quiet ureply _ Hq Hl Hs]; intros Hcreated Hne Herr Hscan.
  - discriminate Hcreated.
  - contradiction.
  - exfalso.
    inversion He as [ev e summary ureply Hf Hev | qs rs ureply Hrs Hres
                     | qs rs ureply Hrs Hres | qs rs e ureply Hrs Hres]; subst.
    + specialize (Herr ev (In_ended _ _ _ _ _)). congruence.
    + specialize (Hscan (rs, None) (In_scans _ _ _ (In_ended _ _ _ _ _))).
      contradiction.
    + specialize (Hscan (rs, None) (In_scans _ _ _ (In_ended _ _ _ _ _))).
      contradiction.
    + specialize (Hscan (rs, None) (In_scans _ _ _ (In_ended _ _ _ _ _))).
      contradiction.
  - opened checkSuitePayload created.
    pose proof (calm_silent _ Hq) as (Hqv & _ & _ & _ & Hqa).
    reads. rewrite Hov, Hoa, Hol, Hl, Hqv, Hqa, (posts_calm _ Hq), !app_nil_r.
    repeat split.
Qed.

(** X7 (what the detail text is).  An UpdateCheckRun request carries a
    detail text only when it reports scan results: a scan of the run
    came back without error with a non-empty set of results, the
    summary and the text of the request are the title and the text that
    BuildMessage renders from those results, and the conclusion is
    Success when all their matches are resolved and Failure otherwise. *)
Theorem HandleCheckSuite_text_reports_scan `{Externals}
    (handler : PayloadHandler) (checkSuitePayload : CheckSuiteEvent)
    (past : list Event) (owner repo : string) (id : Z)
    (opts : UpdateCheckRunOptions) (reply : error) (text : string) :
  let trace := emitted (HandleCheckSuite handler checkSuitePayload) past in
  In (EvUpdateCheckRun owner repo id opts reply) trace ->
  Text (Output opts) = Some text ->
  exists fileQueries results,
    In (EvCheckFileContentFromQueries fileQueries (results, None)) trace /\
    results <> [] /\
    Summary (Output opts) = fst (BuildMessage results) /\
    text = snd (BuildMessage results) /\
    Conclusion opts
      = (if AllMatchesAreResolved results then checkRunConclusionSuccess
         else checkRunConclusionFailure).
Proof.
  intros trace Hin. subst trace. apply In_updates in Hin. revert Hin.
  destruct (HandleCheckSuite_run handler checkSuitePayload past)
    as [created e | created ureply _ | created quiet ending pr k Hq He _ _ _
        | created quiet ureply _ Hq _ _].
  - intros [].
  - reads. intros [[= <- <- <- <-] | []]. discriminate.
  - pose proof (updates_calm _ Hq) as Hqu.
    inversion He as [ev e summary ureply Hf Hev | qs rs ureply Hrs Hres
                     | qs rs ureply Hrs Hres | qs rs e ureply Hrs Hres]; subst.
    + rewrite updates_app, updates_cons, updates_app, updates_cons,
        updates_handleFailureEvents, updates_opening, Hqu.
      destruct ev; try discriminate Hf;
        intros [[= <- <- <- <-] | []]; discriminate.
    + reads. rewrite Hqu. intros [[= <- <- <- <-] | []]. intros [= <-].
      exists qs, rs. split; [apply In_ended|]. rewrite Hres. repeat split.
      exact Hrs.
    + reads. rewrite Hqu. intros [[= <- <- <- <-] | []]. intros [= <-].
      exists qs, rs. split; [apply In_ended|]. rewrite Hres. repeat split.
      exact Hrs.
    + reads. rewrite Hqu. intros [[= <- <- <- <-] | []]. discriminate.
  - pose proof (updates_calm _ Hq) as Hqu. reads. rewrite Hqu.
    intros [[= <- <- <- <-] | []]. discriminate.
Qed.

(** *** The file queries handed to the scanner *)

Section Queries.
Context `{Externals}.

Lemma rangeFiles_map checkSuitePayload commitSha files :
  forall fileQueries,
    rangeFiles checkSuitePayload commitSha files fileQueries
    = fileQueries ++ map (fileQuery checkSuitePayload commitSha) files.
Proof.
  induction files as [|file rest IH]; intros fileQueries; cbn [rangeFiles map].
  - rewrite app_nil_r. reflexivity.
  - rewrite IH, <- app_assoc. reflexivity.
Qed.

Lemma Commits_queries checkSuitePayload checkRun pullRequest commits
    fileQueries flow trace :
  shape.Commits checkSuitePayload checkRun pullRequest commits
    fileQueries flow trace ->
  match flow with
  | Next gathered =>
      fetchedFor checkSuitePayload commits trace /\
      gathered = fileQueries ++ flat_map (queriesOf checkSuitePayload) trace /\
      Forall (fun ev => shape.fetched ev = true) trace
  | Returned => scans trace = []
  end.
Proof.
  induction 1 as [qs | commit rest qs cwf flow trace _ IH | commit rest qs cwf e reply].
  - split; [constructor|]. split; [rewrite app_nil_r; reflexivity | constructor].
  - destruct flow as [gathered|].
    + destruct IH as (Hf & Hg & Hall). split; [|split].
      * constructor; [exists cwf; reflexivity | exact Hf].
      * rewrite Hg, rangeFiles_map, <- app_assoc. reflexivity.
      * constructor; [reflexivity | exact Hall].
    + rewrite scans_cons, IH. reflexivity.
  - reads. reflexivity.
Qed.

Lemma scan_not_fetched fileQueries reply (trace : list Event) :
  Forall (fun ev => shape.fetched ev = true) trace ->
  ~ In (EvCheckFileContentFromQueries fileQueries reply) trace.
Proof.
  intros Hall Hin. rewrite Forall_forall in Hall.
  specialize (Hall _ Hin). discriminate Hall.
Qed.

Lemma Turn_queries checkSuitePayload checkRun pullRequest flow turn fileQueries reply :
  shape.Turn checkSuitePayload checkRun pullRequest flow turn ->
  In (EvCheckFileContentFromQueries fileQueries reply) turn ->
  scannedFrom checkSuitePayload [pullRequest] turn fileQueries reply.
Proof.
  assert (forall commits gets qs' reply' rest,
            fetchedFor checkSuitePayload commits gets ->
            Forall (fun ev => shape.fetched ev = true) gets ->
            qs' = flat_map (queriesOf checkSuitePayload) gets ->
            scans rest = [] ->
            In (EvCheckFileContentFromQueries fileQueries reply)
               (EvListCommits
                  (Login (Owner (CheckSuiteEvent_Repo checkSuitePayload)))
                  (Name (CheckSuiteEvent_Repo checkSuitePayload))
                  (deref (Number pullRequest)) (commits, None)
                :: gets ++ EvCheckFileContentFromQueries qs' reply' :: rest) ->
            scannedFrom checkSuitePayload [pullRequest]
              (EvListCommits
                 (Login (Owner (CheckSuiteEvent_Repo checkSuitePayload)))
                 (Name (CheckSuiteEvent_Repo checkSuitePayload))
                 (deref (Number pullRequest)) (commits, None)
               :: gets ++ EvCheckFileContentFromQueries qs' reply' :: rest)
              fileQueries reply) as Hfound.
  { intros commits gets qs' reply' rest Hf Hall Hqs Hrest [Heq | Hin];
      [discriminate Heq|].
    apply in_app_or in Hin. destruct Hin as [Hin | [Heq | Hin]].
    - exfalso. exact (scan_not_fetched _ _ _ Hall Hin).
    - injection Heq as <- <-.
      exists [], pullRequest, commits, gets, rest.
      split; [left; reflexivity|]. split; [reflexivity|]. split; assumption.
    - apply In_scans in Hin. rewrite Hrest in Hin. destruct Hin. }
  destruct 1 as [commits e ureply | commits trace HC
                 | commits qs trace results e ureply HC
                 | commits qs trace HC | commits qs trace results ureply HC Hne Hres
                 | commits qs trace results ureply HC Hne Hres
                 | commits qs trace results e ureply HC Hne Hres];
    try (apply Commits_queries in HC; cbn [app] in HC).
  - intros Hin. apply In_scans in Hin. revert Hin. reads. intros [].
  - intros Hin. apply In_scans in Hin. revert Hin. reads. rewrite HC. intros [].
  - destruct HC as (Hf & Hg & Hall). apply Hfound; try assumption.
    reads. reflexivity.
  - destruct HC as (Hf & Hg & Hall). apply Hfound; try assumption.
    reads. reflexivity.
  - destruct HC as (Hf & Hg & Hall). apply Hfound; try assumption.
    reads. reflexivity.
  - destruct HC as (Hf & Hg & Hall). apply Hfound; try assumption.
    reads. reflexivity.
  - destruct HC as (Hf & Hg & Hall). apply Hfound; try assumption.
    reads. reflexivity.
Qed.

Lemma scannedFrom_embed checkSuitePayload pullRequests pullRequests' front back
    trace fileQueries reply :
  (forall pullRequest, In pullRequest pullRequests -> In pullRequest pullRequests') ->
  scannedFrom checkSuitePayload pullRequests trace fileQueries reply ->
  scannedFrom checkSuitePayload pullRequests' (front ++ trace ++ back) fileQueries reply.
Proof.
  intros Hsub (before & pr & commits & gets & after & Hin & -> & Hf & Hq).
  exists (front ++ before), pr, commits, gets, (after ++ back).
  split; [auto|]. split; [|split; assumption].
  rewrite <- !app_assoc. cbn [app]. rewrite <- !app_assoc. reflexivity.
Qed.

Lemma Loop_queries checkSuitePayload checkRun pullRequests flow trace fileQueries reply :
  shape.Loop checkSuitePayload checkRun pullRequests flow trace ->
  In (EvCheckFileContentFromQueries fileQueries reply) trace ->
  scannedFrom checkSuitePayload pullRequests trace fileQueries reply.
Proof.
  induction 1 as [| pullRequest rest turn flow trace HT _ IH | pullRequest rest turn HT];
    intros Hin.
  - destruct Hin.
  - apply in_app_or in Hin. destruct Hin as [Hin | Hin].
    + pose proof (Turn_queries _ _ _ _ _ _ _ HT Hin) as Hs.
      apply (scannedFrom_embed _ [pullRequest] (pullRequest :: rest) [] trace) in Hs.
      * exact Hs.
      * intros pr [<- | []]. left. reflexivity.
    + specialize (IH Hin).
      apply (scannedFrom_embed _ rest (pullRequest :: rest) turn []) in IH.
      * rewrite app_nil_r in IH. exact IH.
      * intros pr Hpr. right. exact Hpr.
  - pose proof (Turn_queries _ _ _ _ _ _ _ HT Hin) as Hs.
    apply (scannedFrom_embed _ [pullRequest] (pullRequest :: rest) [] []) in Hs.
    + rewrite app_nil_r in Hs. exact Hs.
    + intros pr [<- | []]. left. reflexivity.
Qed.

(** A run of the handler is a front, the loop over the pull requests
    and a tail; the front and the tail hold no scan. *)
Lemma HandleCheckSuite_loop (handler : PayloadHandler) checkSuitePayload past :
  exists created flow front looped tail,
    emitted (HandleCheckSuite handler checkSuitePayload) past
      = front ++ looped ++ tail /\
    scans front = [] /\
    scans tail = [] /\
    (looped = [] \/
     shape.Loop checkSuitePayload (shape.held checkSuitePayload created)
       (PullRequests (CheckSuiteEvent_CheckSuite checkSuitePayload)) flow looped).
Proof.
  unfold emitted, HandleCheckSuite, bind, log, Checks_CreateCheckRun.
  cbn [fst snd app].
  match goal with
  | |- context [reply_CreateCheckRun handler ?past' ?o ?r ?opts] =>
      destruct (reply_CreateCheckRun handler past' o r opts) as [created [e|]]
  end; cbn [fst snd app].
  { unfold ret. cbn [fst snd app].
    match goal with
    | |- exists c f fr l t, ?whole = _ /\ _ => exists created, Returned, whole, [], []
    end.
    split; [rewrite !app_nil_r; reflexivity|].
    split; [reflexivity|]. split; [reflexivity|]. left. reflexivity. }
  destruct (PullRequests (CheckSuiteEvent_CheckSuite checkSuitePayload))
    as [|pullRequest rest] eqn:Hprs.
  - cbn [List.length Nat.ltb Nat.leb]. unfold bind.
    rewrite completeCheckRun_run. cbn [fst snd app].
    match goal with
    | |- exists c f fr l t, ?whole = _ /\ _ => exists created, Returned, whole, [], []
    end.
    split; [rewrite !app_nil_r; reflexivity|].
    split; [|split; [reflexivity | left; reflexivity]].
    reads. reflexivity.
  - cbn [List.length Nat.ltb Nat.leb].
    match goal with
    | |- context [rangePullRequests handler ?p ?c ?prs ?past'] =>
        pose proof (rangePullRequests_shape handler p c prs past') as HL;
        destruct (rangePullRequests handler p c prs past') as [[[]|] trace]
    end; cbn [fst snd] in *.
    + rewrite completeCheckRun_run. cbn [fst snd].
      exists created, (Next tt).
      eexists [_; _; _; _], trace, _. split; [reflexivity|].
      split; [reflexivity|]. split; [reads; reflexivity|]. right. exact HL.
    + unfold ret. cbn [fst snd].
      exists created, Returned.
      eexists [_; _; _; _], trace, []. split; [reflexivity|].
      split; [reflexivity|]. split; [reflexivity|]. right. exact HL.
Qed.

End Queries.

(** X8 (what the scanner is asked).  Every scan of the handler directly
    follows the listing of the commits of a pull request of the payload
    and one GetCommit call per listed commit, each under the SHA from
    the listing and each answered without error; the file queries
    handed to the scanner are, in that order, one per file of the
    GetCommit replies, each with the owner and name of the payload's
    repository, the listed SHA, the file name and the file status
    mapped from the platform's status word. *)
Theorem HandleCheckSuite_scans_fetched_files `{Externals}
    (handler : PayloadHandler) (checkSuitePayload : CheckSuiteEvent)
    (past : list Event) (fileQueries : list GitHubFileQuery)
    (reply : list CommitScanResult * error) :
  let trace := emitted (HandleCheckSuite handler checkSuitePayload) past in
  In (EvCheckFileContentFromQueries fileQueries reply) trace ->
  exists before pullRequest commits gets after,
    In pullRequest (PullRequests (CheckSuiteEvent_CheckSuite checkSuitePayload)) /\
    trace =
      before
      ++ EvListCommits
           (Login (Owner (CheckSuiteEvent_Repo checkSuitePayload)))
           (Name (CheckSuiteEvent_Repo checkSuitePayload))
           (deref (Number pullRequest)) (commits, None)
      :: gets
      ++ EvCheckFileContentFromQueries fileQueries reply
      :: after /\
    Forall2
      (fun commit ev =>
         exists commitWithFiles,
           ev = EvGetCommit
                  (Login (Owner (CheckSuiteEvent_Repo checkSuitePayload)))
                  (Name (CheckSuiteEvent_Repo checkSuitePayload))
                  (SHA commit) (commitWithFiles, None))
      commits gets /\
    fileQueries = flat_map (queriesOf checkSuitePayload) gets.
Proof.
  intros trace Hin. subst trace.
  destruct (HandleCheckSuite_loop handler checkSuitePayload past)
    as (created & flow & front & looped & tail & Heq & Hfront & Htail & Hloop).
  rewrite Heq in Hin |- *.
  apply in_app_or in Hin. destruct Hin as [Hin | Hin].
  { apply In_scans in Hin. rewrite Hfront in Hin. destruct Hin. }
  apply in_app_or in Hin. destruct Hin as [Hin | Hin].
  2: { apply In_scans in Hin. rewrite Htail in Hin. destruct Hin. }
  destruct Hloop as [-> | Hloop]; [destruct Hin|].
  pose proof (Loop_queries _ _ _ _ _ _ _ Hloop Hin) as Hs.
  apply (scannedFrom_embed _ _ _ front tail _ _ _ (fun _ Hpr => Hpr)) in Hs.
  exact Hs.
Qed.

(** *** More on the push handler *)

(** Runs the push handler on the replies it meets, one after the other. *)
Ltac push_cases handler :=
  unfold emitted, HandlePush, bind, log, PullRequests_List, Scanner_CheckPush,
    HandleMatchesFromPush, ret;
  cbn [fst snd app];
  match goal with
  | |- context [reply_List handler ?past' ?o ?r ?opt] =>
      destruct (reply_List handler past' o r opt) as [[|openPR openPRs] listErr]
  end; cbn [fst snd app List.length Nat.ltb Nat.leb];
  try match goal with
  | |- context [reply_CheckPush handler ?past' ?p] =>
      destruct (reply_CheckPush handler past' p) as [[|found1 found] [scanErr|]]
  end; cbn [fst snd app List.length Nat.ltb Nat.leb];
  try match goal with
  | |- context [reply_HandleMatchesFromPush handler ?past' ?p ?rs] =>
      destruct (reply_HandleMatchesFromPush handler past' p rs) as [handleErr|]
  end; cbn [fst snd app].

(** Splits a membership in an explicit list into its cases, dropping
    those between events of different kinds. *)
Ltac among H :=
  repeat (destruct H as [H | H]; [try discriminate H|]); try (exfalso; exact H).

(** X9 (an empty listing lets the scan go on).  When the listing of open
    pull requests comes back empty, also when it comes back with an
    error, the handler goes on and scans the push: the error of the
    listing is never looked at. *)
Theorem HandlePush_scans_without_pull_request `{Externals}
    (handler : PayloadHandler) (pushPayload : PushEvent) (past : list Event)
    (owner repo : string) (opts : PullRequestListOptions) (err : error) :
  let trace := emitted (HandlePush handler pushPayload) past in
  In (EvList owner repo opts ([], err)) trace ->
  exists reply after,
    trace =
      EvLog InfoLevel "Handling push..." []
      :: EvList owner repo opts ([], err)
      :: EvCheckPush pushPayload reply
      :: after.
Proof.
  intros trace. subst trace. push_cases handler; intros Hin; among Hin.
  all: injection Hin as Ho Hr Hop He; subst; eexists _, _; reflexivity.
Qed.

(** X10 (when a push is remediated).  The match handler is called for a
    push exactly when the scan of the push came back without error and
    with at least one result, and then once, with the payload of the
    event and with the results of that scan; after a scan that failed
    or found nothing it is not called. *)
Theorem HandlePush_remediates_findings `{Externals}
    (handler : PayloadHandler) (pushPayload : PushEvent) (past : list Event)
    (scanned : PushEvent) (results : list CommitScanResult) (err : error) :
  let trace := emitted (HandlePush handler pushPayload) past in
  In (EvCheckPush scanned (results, err)) trace ->
  scanned = pushPayload /\
  (err = None -> results <> [] ->
   exists reply, remediations trace = [(pushPayload, results, reply)]) /\
  (err <> None \/ results = [] -> remediations trace = []).
Proof.
  intros trace. subst trace. push_cases handler; intros Hin; among Hin.
  all: inversion Hin; subst; clear Hin.
  all: split; [reflexivity|]; split.
  all: try (intros _ Hne; contradiction).
  all: try (intros Hnone; discriminate Hnone).
  all: try (intros _; reflexivity).
  all: try (intros _ _; eexists; reflexivity).
  all: intros [Herr | Hnil]; [contradiction | discriminate Hnil].
Qed.

(** X11 (a failed scan or remediation of a push).  When the scan of the
    push, or the match handler, comes back with an error, that call is
    the last event of the handler: no further call is made and no log
    line is written, the error event built by the logger being dropped
    unsent. *)
Theorem HandlePush_error_ends_silently `{Externals}
    (handler : PayloadHandler) (pushPayload : PushEvent) (past : list Event)
    (ev : Event) (e : string) :
  let trace := emitted (HandlePush handler pushPayload) past in
  In ev trace ->
  (exists scanned results, ev = EvCheckPush scanned (results, Some e)) \/
  (exists handled results, ev = EvHandleMatchesFromPush handled results (Some e)) ->
  exists before, trace = before ++ [ev].
Proof.
  intros trace. subst trace.
  push_cases handler; intros Hin [(p' & rs & ->) | (p' & rs & ->)]; among Hin;
    try discriminate Hin.
  all: try (eexists [_; _]; cbn [app]; rewrite <- Hin; reflexivity).
  all: try (eexists [_; _; _; _]; cbn [app]; rewrite <- Hin; reflexivity).
Qed.

(** *** The handlers of issues, pull requests, reviews and comments *)

Lemma Trigger_eq_dec (t t' : content.Trigger) : {t = t'} + {t <> t'}.
Proof. decide equality. Qed.

Section Content.
Context `{content.Scanned}.

Lemma EvHandleMatches_inj t payload result reply t' payload' result' reply' :
  content.EvHandleMatches t payload result reply
    = content.EvHandleMatches t' payload' result' reply' ->
  t = t' /\
  existT content.Payload t payload = existT content.Payload t' payload' /\
  existT content.ScanResult t result = existT content.ScanResult t' result' /\
  reply = reply'.
Proof. intros Heq. inversion Heq. repeat split; assumption. Qed.

Lemma EvCheck_inj t payload reply t' payload' reply' :
  content.EvCheck t payload reply = content.EvCheck t' payload' reply' ->
  t = t' /\
  existT content.Payload t payload = existT content.Payload t' payload' /\
  existT (fun t => (content.ScanResult t * error)%type) t reply
    = existT (fun t => (content.ScanResult t * error)%type) t' reply'.
Proof. intros Heq. inversion Heq. repeat split; assumption. Qed.

Lemma same_payload t (payload payload' : content.Payload t) :
  existT content.Payload t payload = existT content.Payload t payload' ->
  payload = payload'.
Proof. apply inj_pair2_eq_dec. exact Trigger_eq_dec. Qed.

Lemma same_result t (result result' : content.ScanResult t) :
  existT content.ScanResult t result = existT content.ScanResult t result' ->
  result = result'.
Proof. apply inj_pair2_eq_dec. exact Trigger_eq_dec. Qed.

Lemma same_reply t (reply reply' : content.ScanResult t * error) :
  existT (fun t => (content.ScanResult t * error)%type) t reply
    = existT (fun t => (content.ScanResult t * error)%type) t reply' ->
  reply = reply'.
Proof. apply inj_pair2_eq_dec. exact Trigger_eq_dec. Qed.

(** Every run of one of the five handlers is its greeting, its scan
    and one of four continuations. *)
Lemma handlerOf_run (handler : content.PayloadHandler) (t : content.Trigger)
    (payload : content.Payload t) (past : list content.Event) :
  exists greeting result err,
    (exists e,
       err = Some e /\
       content.emitted (content.handlerOf handler t payload) past
         = [content.EvLog InfoLevel greeting [];
            content.EvCheck t payload (result, err)]) \/
    (err = None /\ content.HasMatches t result = false /\
     content.emitted (content.handlerOf handler t payload) past
       = [content.EvLog InfoLevel greeting [];
          content.EvCheck t payload (result, err);
          content.EvLog InfoLevel "No matches to address" []]) \/
    (exists e,
       err = None /\ content.HasMatches t result = true /\
       content.emitted (content.handlerOf handler t payload) past
         = [content.EvLog InfoLevel greeting [];
            content.EvCheck t payload (result, err);
            content.EvLog InfoLevel
              "Potentially sensitive information detected. Rectifying..." [];
            content.EvHandleMatches t payload result (Some e)]) \/
    (exists farewell,
       err = None /\ content.HasMatches t result = true /\
       content.emitted (content.handlerOf handler t payload) past
         = [content.EvLog InfoLevel greeting [];
            content.EvCheck t payload (result, err);
            content.EvLog InfoLevel
              "Potentially sensitive information detected. Rectifying..." [];
            content.EvHandleMatches t payload result None;
            content.EvLog InfoLevel farewell []]).
Proof.
  destruct t; cbn [content.handlerOf];
    unfold content.emitted, content.HandleIssue, content.HandleIssueComment,
      content.HandlePullRequest, content.HandlePullRequestReview,
      content.HandlePullRequestReviewComment,
      content.Scanner_CheckIssue, content.Scanner_CheckIssueComment,
      content.Scanner_CheckPullRequest, content.Scanner_CheckPullRequestReview,
      content.Scanner_CheckPullRequestReviewComment,
      content.HandleMatchesFromIssue, content.HandleMatchesFromIssueComment,
      content.HandleMatchesFromPullRequest, content.HandleMatchesFromPullRequestReview,
      content.HandleMatchesFromPullRequestReviewComment,
      content.bind, content.log, content.check, content.handleMatches, content.ret;
    cbn [fst snd app];
    match goal with
    | |- context [content.reply_Check handler ?past' ?t' ?p] =>
        destruct (content.reply_Check handler past' t' p) as [result [e|]]
    end; cbn [fst snd app];
    eexists _, result, _.
  all: try (left; eexists; split; reflexivity).
  all: right; destruct (content.HasMatches _ result) eqn:Hhas; cbn [fst snd app].
  all: try (left; repeat split; reflexivity).
  all: right;
    match goal with
    | |- context [content.reply_HandleMatches ?h ?past' ?t' ?p ?r] =>
        destruct (content.reply_HandleMatches h past' t' p r) as [e|]
    end; cbn [fst snd app].
  all: try (left; eexists; repeat split; reflexivity).
  all: right; eexists; repeat split; reflexivity.
Qed.

Lemma EvHandleMatches_same t payload result reply t' payload' result' reply' :
  content.EvHandleMatches t payload result reply
    = content.EvHandleMatches t' payload' result' reply' ->
  t' = t /\
  existT content.Payload t' payload' = existT content.Payload t payload /\
  existT content.ScanResult t' result' = existT content.ScanResult t result /\
  reply' = reply.
Proof.
  intros Heq. apply EvHandleMatches_inj in Heq.
  destruct Heq as (-> & Hp & Hr & ->). rewrite Hp, Hr. repeat split.
Qed.

Lemma EvCheck_same t payload reply t' payload' reply' :
  content.EvCheck t payload reply = content.EvCheck t' payload' reply' ->
  t' = t /\
  existT content.Payload t' payload' = existT content.Payload t payload /\
  existT (fun t => (content.ScanResult t * error)%type) t' reply'
    = existT (fun t => (content.ScanResult t * error)%type) t reply.
Proof.
  intros Heq. apply EvCheck_inj in Heq.
  destruct Heq as (-> & Hp & Hr). rewrite Hp, Hr. repeat split.
Qed.

End Content.

(** X12 (when a finding in a text is remediated).  In each of the five
    handlers, a call of the match handler is the one that belongs to
    the handler's own event kind, is made with the payload the handler
    received and with the result of the handler's scan, and is made
    only if that scan came back without error and its result has
    matches. *)
Theorem content_remediation_follows_scan `{content.Scanned}
    (handler : content.PayloadHandler) (t : content.Trigger)
    (payload : content.Payload t) (past : list content.Event)
    (t' : content.Trigger) (payload' : content.Payload t')
    (result' : content.ScanResult t') (reply' : error) :
  let trace := content.emitted (content.handlerOf handler t payload) past in
  In (content.EvHandleMatches t' payload' result' reply') trace ->
  t' = t /\
  existT content.Payload t' payload' = existT content.Payload t payload /\
  content.HasMatches t' result' = true /\
  In (content.EvCheck t' payload' (result', None)) trace.
Proof.
  intros trace. subst trace.
  destruct (handlerOf_run handler t payload past)
    as (greeting & result & err
        & [(e & -> & ->) | [(-> & Hhas & ->) | [(e & -> & Hhas & ->)
                                                | (farewell & -> & Hhas & ->)]]]);
    intros Hin; among Hin.
  all: apply EvHandleMatches_same in Hin; destruct Hin as (-> & Hp & Hr & _);
    pose proof (same_payload _ _ _ Hp) as ->;
    pose proof (same_result _ _ _ Hr) as ->;
    repeat split; try assumption; right; left; reflexivity.
Qed.

(** X13 (what the scan of a text decides).  In each of the five handlers
    the scan made is the one of the handler's own event kind, on the
    payload received.  When it comes back without error with a result
    that has matches, the match handler of that kind is called with
    that payload and result; when it comes back with an error, or with
    a result without matches, no match handler is called. *)
Theorem content_scan_decides `{content.Scanned}
    (handler : content.PayloadHandler) (t : content.Trigger)
    (payload : content.Payload t) (past : list content.Event)
    (t' : content.Trigger) (payload' : content.Payload t')
    (result' : content.ScanResult t') (err : error) :
  let trace := content.emitted (content.handlerOf handler t payload) past in
  In (content.EvCheck t' payload' (result', err)) trace ->
  t' = t /\
  existT content.Payload t' payload' = existT content.Payload t payload /\
  (err = None -> content.HasMatches t' result' = true ->
   exists reply, In (content.EvHandleMatches t' payload' result' reply) trace) /\
  (err <> None \/ content.HasMatches t' result' = false ->
   filter content.isHandleMatches trace = []).
Proof.
  intros trace. subst trace.
  destruct (handlerOf_run handler t payload past)
    as (greeting & result & err0
        & [(e & -> & ->) | [(-> & Hhas & ->) | [(e & -> & Hhas & ->)
                                                | (farewell & -> & Hhas & ->)]]]);
    intros Hin; among Hin.
  all: apply EvCheck_same in Hin; destruct Hin as (-> & Hp & Hr);
    pose proof (same_payload _ _ _ Hp) as ->;
    pose proof (same_reply _ _ _ Hr) as [= -> ->].
  all: split; [reflexivity|]; split; [reflexivity|]; split.
  - discriminate.
  - reflexivity.
  - congruence.
  - reflexivity.
  - intros _ _. eexists. do 3 right. left. reflexivity.
  - intros [Herr | Hno]; congruence.
  - intros _ _. eexists. do 3 right. left. reflexivity.
  - intros [Herr | Hno]; congruence.
Qed.

(** X14 (one scan, at most one remediation).  Each of the five handlers
    writes its greeting, then scans the payload it received, once, and
    calls a match handler at most once. *)
Theorem content_scans_once `{content.Scanned}
    (handler : content.PayloadHandler) (t : content.Trigger)
    (payload : content.Payload t) (past : list content.Event) :
  let trace := content.emitted (content.handlerOf handler t payload) past in
  (exists greeting reply after,
     trace
       = content.EvLog InfoLevel greeting []
         :: content.EvCheck t payload reply :: after) /\
  List.length (filter content.isCheck trace) = 1%nat /\
  (List.length (filter content.isHandleMatches trace) <= 1)%nat.
Proof.
  intros trace. subst trace.
  destruct (handlerOf_run handler t payload past)
    as (greeting & result & err
        & [(e & -> & ->) | [(-> & Hhas & ->) | [(e & -> & Hhas & ->)
                                                | (farewell & -> & Hhas & ->)]]]).
  all: split; [eexists _, _, _; reflexivity|]; cbn; split; [reflexivity | lia].
Qed.

(** X15 (a failed scan or remediation of a text).  In each of the five
    handlers, when the scan or the match handler comes back with an
    error, that call is the last event of the handler: no further call
    is made and no log line is written, the error event built by the
    logger being dropped unsent. *)
Theorem content_error_ends_silently `{content.Scanned}
    (handler : content.PayloadHandler) (t : content.Trigger)
    (payload : content.Payload t) (past : list content.Event)
    (ev : content.Event) (e : string) :
  let trace := content.emitted (content.handlerOf handler t payload) past in
  In ev trace ->
  (exists t' payload' result', ev = content.EvCheck t' payload' (result', Some e)) \/
  (exists t' payload' result',
     ev = content.EvHandleMatches t' payload' result' (Some e)) ->
  exists before, trace = before ++ [ev].
Proof.
  intros trace. subst trace.
  destruct (handlerOf_run handler t payload past)
    as (greeting & result & err
        & [(e0 & -> & ->) | [(-> & Hhas & ->) | [(e0 & -> & Hhas & ->)
                                                 | (farewell & -> & Hhas & ->)]]]);
    intros Hin [(t' & p' & r' & ->) | (t' & p' & r' & ->)]; among Hin.
  all: first
    [ eexists [_]; rewrite <- Hin; reflexivity
    | eexists [_; _; _]; rewrite <- Hin; reflexivity
    | apply EvCheck_same in Hin; destruct Hin as (-> & _ & Hr);
      apply same_reply in Hr; discriminate Hr
    | apply EvHandleMatches_same in Hin; destruct Hin as (_ & _ & _ & Hr);
      discriminate Hr ].
Qed.

(** *** Building a payload handler *)

(** X16 (handler or error).  NewPayloadHandler returns a handler exactly
    when it returns no error.  When the scanner cannot be made its
    error is returned and the API client is never asked for; once the
    scanner is made the client is asked for, once; when the client
    cannot be made, its error is returned; otherwise the handler holds
    the two ids given and the scanner and client just made. *)
Theorem NewPayloadHandler_handler_or_error `{construction.Parts}
    (makers : construction.Makers) (installationId appId : Z)
    (privateKey : construction.PrivateKey)
    (patternStore : construction.PatternStore) :
  let result :=
    fst (construction.NewPayloadHandler makers installationId appId privateKey
           patternStore) in
  let calls :=
    snd (construction.NewPayloadHandler makers installationId appId privateKey
           patternStore) in
  let scanner := construction.NewScanner makers patternStore in
  let client := construction.GetGitHubApiClient makers installationId appId privateKey in
  (fst result = None <-> snd result <> None) /\
  (forall e, snd scanner = Some e ->
     result = (None, Some e) /\ calls = [construction.CallNewScanner patternStore]) /\
  (snd scanner = None ->
     calls = [construction.CallNewScanner patternStore;
              construction.CallGetGitHubApiClient installationId appId privateKey]) /\
  (forall e, snd scanner = None -> snd client = Some e -> result = (None, Some e)) /\
  (forall handler, fst result = Some handler ->
     snd scanner = None /\ snd client = None /\
     construction.InstallationId handler = installationId /\
     construction.AppId handler = appId /\
     construction.PayloadHandler_Scanner handler = fst scanner /\
     construction.GitHubClient handler = fst client).
Proof.
  unfold construction.NewPayloadHandler.
  destruct (construction.NewScanner makers patternStore) as [scanner [e|]]; cbn.
  { split; [split; [intros _; discriminate | reflexivity]|].
    split; [intros e' [= <-]; split; reflexivity|].
    split; [intros Hnone; discriminate Hnone|].
    split; [intros e' Hnone; discriminate Hnone|].
    intros handler Hsome. discriminate Hsome. }
  destruct (construction.GetGitHubApiClient makers installationId appId privateKey)
    as [client [e|]]; cbn.
  { split; [split; [intros _; discriminate | reflexivity]|].
    split; [intros e' Hsome; discriminate Hsome|].
    split; [reflexivity|].
    split; [intros e' _ [= <-]; reflexivity|].
    intros handler Hsome. discriminate Hsome. }
  split; [split; [intros Hnone; discriminate Hnone | intros Hne; contradiction]|].
  split; [intros e' Hsome; discriminate Hsome|].
  split; [reflexivity|].
  split; [intros e' _ Hsome; discriminate Hsome|].
  intros handler [= <-]. repeat split.
Qed.

(** *** More on AllMatchesAreResolved *)

(** X17 (only the matches count).  AllMatchesAreResolved looks at nothing
    but the matches: it is the conjunction of the Resolved flags of all
    matches of all results, so scan results without matches never
    change it, and the answer for two lists put together is the
    conjunction of the answers for each. *)
Theorem AllMatchesAreResolved_flat (scanResults : list CommitScanResult) :
  AllMatchesAreResolved scanResults = forallb Resolved (flat_map Matches scanResults) /\
  forall more : list CommitScanResult,
    AllMatchesAreResolved (scanResults ++ more)
    = AllMatchesAreResolved scanResults && AllMatchesAreResolved more.
Proof.
  assert (forall matches, rangeMatches matches = forallb Resolved matches) as Hinner.
  { induction matches as [|m rest IH]; [reflexivity|].
    cbn. rewrite IH. destruct (Resolved m); reflexivity. }
  assert (forall rs, AllMatchesAreResolved rs = forallb Resolved (flat_map Matches rs))
    as Hflat.
  { induction rs as [|result rest IH]; [reflexivity|].
    cbn. rewrite forallb_app, <- IH, Hinner.
    destruct (forallb Resolved (Matches result)); reflexivity. }
  split; [apply Hflat|].
  intros more. rewrite !Hflat, flat_map_app, forallb_app. reflexivity.
Qed.

(** *** The body and the title of the push report *)

Section Strings.
Local Open Scope string_scope.

Lemma append_assoc (a b c : string) : (a ++ b) ++ c = a ++ (b ++ c).
Proof. induction a as [|ch a IH]; cbn; [reflexivity | rewrite IH; reflexivity]. Qed.

Lemma append_nil_r (a : string) : a ++ EmptyString = a.
Proof. induction a as [|ch a IH]; cbn; [reflexivity | rewrite IH; reflexivity]. Qed.

Lemma length_append (a b : string) :
  String.length (a ++ b) = (String.length a + String.length b)%nat.
Proof. induction a as [|ch a IH]; cbn; [reflexivity | rewrite IH; reflexivity]. Qed.

Lemma append_cancel_l (a x y : string) : a ++ x = a ++ y -> x = y.
Proof. induction a as [|ch a IH]; cbn; [auto | intros [= Heq]; auto]. Qed.

Lemma append_cancel_r (a : string) : forall x y : string, x ++ a = y ++ a -> x = y.
Proof.
  induction x as [|ch x IH]; intros [|ch' y] Heq; cbn in Heq.
  - reflexivity.
  - exfalso. apply (f_equal String.length) in Heq. cbn in Heq.
    rewrite length_append in Heq. lia.
  - exfalso. apply (f_equal String.length) in Heq. cbn in Heq.
    rewrite length_append in Heq. lia.
  - injection Heq as -> Heq. f_equal. apply IH. exact Heq.
Qed.

Lemma occursIn_refl (text : string) : report.occursIn text text.
Proof. exists EmptyString, EmptyString. rewrite append_nil_r. reflexivity. Qed.

Lemma occursIn_within (part text front back : string) :
  report.occursIn part text -> report.occursIn part (front ++ text ++ back).
Proof.
  intros (before & after & ->). exists (front ++ before), (after ++ back).
  rewrite !append_assoc. reflexivity.
Qed.

Lemma occursIn_front (part text back : string) :
  report.occursIn part text -> report.occursIn part (text ++ back).
Proof. intros Hocc. apply (occursIn_within part text EmptyString back Hocc). Qed.

Lemma occursIn_back (part text front : string) :
  report.occursIn part text -> report.occursIn part (front ++ text).
Proof.
  intros Hocc. rewrite <- (append_nil_r text). apply occursIn_within. exact Hocc.
Qed.

Lemma occursIn_joined {A : Type} (f : A -> string) (x : A) (items : list A) :
  In x items -> report.occursIn (f x) (report.joined (map f items)).
Proof.
  induction items as [|y rest IH]; intros Hin; [destruct Hin|].
  cbn. destruct Hin as [-> | Hin].
  - apply occursIn_front, occursIn_refl.
  - apply occursIn_back, IH, Hin.
Qed.

Lemma occursIn_trans (a b c : string) :
  report.occursIn a b -> report.occursIn b c -> report.occursIn a c.
Proof.
  intros Hab (before & after & ->). apply occursIn_within. exact Hab.
Qed.

Lemma rangeFileMatches_joined fileMatches :
  forall body,
    remediator.rangeFileMatches fileMatches body
    = body ++ report.joined (map report.fileLine fileMatches).
Proof.
  induction fileMatches as [|f rest IH]; intros body; cbn.
  - rewrite append_nil_r. reflexivity.
  - rewrite IH, append_assoc. reflexivity.
Qed.

Lemma rangeLineMatches_joined contentMatch lineMatches :
  forall body,
    remediator.rangeLineMatches contentMatch lineMatches body
    = body ++ report.joined (map (report.lineLink contentMatch) lineMatches).
Proof.
  induction lineMatches as [|l rest IH]; intros body; cbn.
  - rewrite append_nil_r. reflexivity.
  - rewrite IH, append_assoc. reflexivity.
Qed.

Lemma rangeContentMatches_joined contentMatches :
  forall body,
    remediator.rangeContentMatches contentMatches body
    = body ++ report.joined (map report.contentPart contentMatches).
Proof.
  induction contentMatches as [|c rest IH]; intros body;
    cbn [remediator.rangeContentMatches map report.joined fold_right].
  - rewrite append_nil_r. reflexivity.
  - rewrite IH, rangeLineMatches_joined. unfold report.contentPart.
    rewrite !append_assoc. reflexivity.
Qed.

Lemma rangeResults_joined results :
  forall body,
    remediator.rangeResults results body
    = body ++ report.joined (map report.resultPart results).
Proof.
  induction results as [|r rest IH]; intros body;
    cbn [remediator.rangeResults map report.joined fold_right].
  - rewrite append_nil_r. reflexivity.
  - rewrite IH. unfold report.resultPart, report.header.
    destruct (remediator.FileMatches r) as [|f fs] eqn:Hf;
      destruct (remediator.ContentMatches r) as [|c cs] eqn:Hc;
      cbn [List.length Nat.ltb Nat.leb];
      rewrite ?rangeContentMatches_joined, ?rangeFileMatches_joined, !append_assoc;
      cbn [append]; rewrite ?append_nil_r; reflexivity.
Qed.

End Strings.

Lemma RemediateFromPush_bodies
    (pushPayload : remediator.PushPayload)
    (results : list remediator.CommitScanResult)
    (handlerContext : remediator.HandlerContext) :
  report.bodies (snd (remediator.RemediateFromPush pushPayload results handlerContext))
  = [remediator.rangeResults results report.preamble].
Proof.
  unfold remediator.RemediateFromPush.
  match goal with
  | |- context [remediator.Issues_Create handlerContext ?o ?r ?req] =>
      destruct (remediator.Issues_Create handlerContext o r req)
  end; reflexivity.
Qed.

(** X18 (the body, part by part).  The body of the issue request is the
    opening paragraph followed by one part per scan result, in the
    order of the results; a part depends on its own result only: the
    header naming the commit, then, if the result has dangerous files,
    their heading, one bullet per file and two line feeds, then, if it
    has content matches, their heading and, per file, a title line and
    one link per matching line. *)
Theorem RemediateFromPush_body_by_parts
    (pushPayload : remediator.PushPayload)
    (results : list remediator.CommitScanResult)
    (handlerContext : remediator.HandlerContext) :
  report.bodies (snd (remediator.RemediateFromPush pushPayload results handlerContext))
  = [(report.preamble ++ report.joined (map report.resultPart results))%string].
Proof.
  rewrite RemediateFromPush_bodies.
  rewrite rangeResults_joined. reflexivity.
Qed.

(** X19 (every finding can be located).  For every scan result handed to
    the remediator the body of the issue names its commit in a header
    line; for each of its dangerous files the body holds a bullet with
    the path and the URL of the file; and for each line match of each
    of its content matches the body holds the title line of the file
    and the link made of the file's URL and the line number. *)
Theorem RemediateFromPush_findings_located
    (pushPayload : remediator.PushPayload)
    (results : list remediator.CommitScanResult)
    (handlerContext : remediator.HandlerContext)
    (result : remediator.CommitScanResult) :
  In result results ->
  exists body,
    report.bodies (snd (remediator.RemediateFromPush pushPayload results handlerContext))
      = [body] /\
    report.occursIn
      ("Introduced in " ++ remediator.Commit result ++ ":" ++ fmt.nl)%string body /\
    (forall dangerousFile,
       In dangerousFile (remediator.FileMatches result) ->
       report.occursIn
         ("- [" ++ remediator.FileMatch_Path dangerousFile ++ "]("
            ++ remediator.FileMatch_URL dangerousFile ++ ")" ++ fmt.nl)%string body) /\
    (forall contentMatch lineMatch,
       In contentMatch (remediator.ContentMatches result) ->
       In lineMatch (remediator.LineMatches contentMatch) ->
       report.occursIn
         ("### " ++ remediator.ContentMatch_Path contentMatch ++ fmt.nl)%string body /\
       report.occursIn
         (remediator.ContentMatch_URL contentMatch ++ "#L"
            ++ fmt.d (remediator.LineNumber lineMatch) ++ fmt.nl)%string body).
Proof.
  intros Hin. eexists. split.
  { rewrite RemediateFromPush_bodies, rangeResults_joined. reflexivity. }
  assert (report.occursIn (report.resultPart result)
            (report.preamble ++ report.joined (map report.resultPart results))%string)
    as Hpart.
  { apply occursIn_back. apply (occursIn_joined report.resultPart). exact Hin. }
  split; [|split].
  - eapply occursIn_trans; [|exact Hpart].
    unfold report.resultPart. apply occursIn_front. apply occursIn_refl.
  - intros f Hf. eapply occursIn_trans; [|exact Hpart].
    unfold report.resultPart.
    destruct (remediator.FileMatches result) as [|f0 fs] eqn:Hfs; [destruct Hf|].
    apply occursIn_back. apply occursIn_front. do 2 apply occursIn_back.
    apply occursIn_front.
    apply (occursIn_joined report.fileLine f (f0 :: fs) Hf).
  - intros c l Hc Hl.
    assert (report.occursIn (report.contentPart c) (report.resultPart result)) as Hcp.
    { unfold report.resultPart.
      destruct (remediator.ContentMatches result) as [|c0 cs] eqn:Hcs; [destruct Hc|].
      do 4 apply occursIn_back.
      apply (occursIn_joined report.contentPart c (c0 :: cs) Hc). }
    split.
    + eapply occursIn_trans; [|exact Hpart]. eapply occursIn_trans; [|exact Hcp].
      unfold report.contentPart.
      rewrite <- !append_assoc. apply occursIn_front.
      rewrite !append_assoc. apply occursIn_refl.
    + eapply occursIn_trans; [|exact Hpart]. eapply occursIn_trans; [|exact Hcp].
      unfold report.contentPart. do 3 apply occursIn_back.
      apply (occursIn_joined (report.lineLink c) l _ Hl).
Qed.

(** X20 (no result at all).  Handed an empty list of scan results, the
    remediator still sends its one request: the title is the singular
    one and the body is the opening paragraph alone. *)
Theorem RemediateFromPush_without_results
    (pushPayload : remediator.PushPayload)
    (handlerContext : remediator.HandlerContext) :
  exists reply,
    remediator.RemediateFromPush pushPayload [] handlerContext
    = (reply,
       [remediator.IssuesCreate
          (remediator.Repository_Owner_Login pushPayload)
          (remediator.Repository_Name pushPayload)
          {| remediator.Title := "Potentially sensitive data found in a commit";
             remediator.Body :=
               ("Potentially sensitive data has recently been pushed to this repository."
                  ++ fmt.nl ++ fmt.nl)%string;
             remediator.Assignee := remediator.Pusher_Name pushPayload |}
          reply]).
Proof.
  unfold remediator.RemediateFromPush.
  cbn [List.length Nat.ltb Nat.leb remediator.rangeResults].
  match goal with
  | |- context [remediator.Issues_Create handlerContext ?o ?r ?req] =>
      exists (remediator.Issues_Create handlerContext o r req);
      destruct (remediator.Issues_Create handlerContext o r req)
  end; reflexivity.
Qed.

Lemma fmt_d_inj (n m : Z) : fmt.d n = fmt.d m -> n = m.
Proof.
  intros Heq. pose proof (fmt_d_exact n) as Hn. rewrite Heq, fmt_d_exact in Hn.
  congruence.
Qed.

Lemma fmt_d_nonempty (n : Z) : fmt.d n <> EmptyString.
Proof.
  intros Heq. pose proof (fmt_d_exact n) as Hn. rewrite Heq in Hn. discriminate Hn.
Qed.

Lemma RemediateFromPush_titles
    (pushPayload : remediator.PushPayload)
    (results : list remediator.CommitScanResult)
    (handlerContext : remediator.HandlerContext) :
  report.titles (snd (remediator.RemediateFromPush pushPayload results handlerContext))
  = [if (1 <? List.length results)%nat
     then ("Potentially sensitive data found in "
             ++ (fmt.d (Z.of_nat (List.length results)) ++ " commits"))%string
     else ("Potentially sensitive data found in " ++ "a commit")%string].
Proof.
  unfold remediator.RemediateFromPush.
  match goal with
  | |- context [remediator.Issues_Create handlerContext ?o ?r ?req] =>
      destruct (remediator.Issues_Create handlerContext o r req)
  end; cbn [snd report.titles map remediator.Title];
    destruct (1 <? List.length results)%nat; reflexivity.
Qed.

(** X21 (the title tells the count).  A plural title carries its count
    faithfully: when the remediator is handed two or more results, any
    other call whose issue has the same title was handed the same
    number of results. *)
Theorem RemediateFromPush_title_tells_count
    (pushPayload pushPayload' : remediator.PushPayload)
    (results results' : list remediator.CommitScanResult)
    (handlerContext handlerContext' : remediator.HandlerContext) :
  (2 <= List.length results)%nat ->
  report.titles (snd (remediator.RemediateFromPush pushPayload results handlerContext))
  = report.titles
      (snd (remediator.RemediateFromPush pushPayload' results' handlerContext')) ->
  List.length results' = List.length results.
Proof.
  intros Hlen Htitles. rewrite !RemediateFromPush_titles in Htitles.
  apply (f_equal (fun l => List.hd EmptyString l)) in Htitles.
  cbn [List.hd] in Htitles.
  assert ((1 <? List.length results)%nat = true) as Hplural
    by (apply Nat.ltb_lt; lia).
  rewrite Hplural in Htitles.
  destruct (1 <? List.length results')%nat.
  - apply append_cancel_l in Htitles. apply append_cancel_r in Htitles.
    apply fmt_d_inj in Htitles. lia.
  - exfalso. apply append_cancel_l in Htitles.
    pose proof (fmt_d_nonempty (Z.of_nat (List.length results))) as Hne.
    apply (f_equal String.length) in Htitles.
    rewrite length_append in Htitles. cbn in Htitles.
    destruct (fmt.d (Z.of_nat (List.length results))); [contradiction|].
    cbn in Htitles. lia.
Qed.

(** *** The further properties at work on concrete settings *)

#[local] Existing Instance sample.externals.
#[local] Existing Instance scenario.texts.

Lemma HandleCheckSuite_creation_failed_witness :
  exists created e,
    emitted
      (HandleCheckSuite (scenario.creating sample.run (Some "refused"%string))
         (sample.suite [sample.pr 1])) []
    = [EvLog InfoLevel "Handling check suite event from %s/%s (%d)"
         [ArgString "octo"; ArgString "orca"; ArgInt 7];
       EvLog DebugLevel "Creating new check run" [];
       EvCreateCheckRun "octo" "orca"
         {| CreateCheckRunOptions_Name := "Orca Checks";
            CreateCheckRunOptions_HeadSHA := "abc123";
            CreateCheckRunOptions_Status := checkRunStatusInProgress |}
         (created, Some e)].
Proof.
  apply (HandleCheckSuite_creation_failed (H := sample.externals)
           (scenario.creating sample.run (Some "refused"%string))
           (sample.suite [sample.pr 1]) []).
  reflexivity.
Defined.

Lemma HandleCheckSuite_update_addressed_witness :
  "octo"%string = Login (Owner (CheckSuiteEvent_Repo (sample.suite [sample.pr 1]))) /\
  "orca"%string = Name (CheckSuiteEvent_Repo (sample.suite [sample.pr 1])) /\
  checkRunStatusCompleted = checkRunStatusCompleted /\
  "Orca Checks"%string = "Orca Checks"%string /\
  exists created creation,
    In (EvCreateCheckRun "octo" "orca" creation (created, None))
       (emitted
          (HandleCheckSuite (scenario.creating scenario.foreignRun None)
             (sample.suite [sample.pr 1])) []) /\
    77%Z = deref (CheckRun_ID created).
Proof.
  apply (HandleCheckSuite_update_addressed (H := sample.externals)
           (scenario.creating scenario.foreignRun None)
           (sample.suite [sample.pr 1]) []
           "octo"%string "orca"%string 77%Z
           {| Status := checkRunStatusCompleted;
              Conclusion := checkRunConclusionSuccess;
              Output := {| Title := "Orca Checks"; Summary := "No issues detected";
                           Text := None |} |}
           None).
  pick.
Defined.

Lemma HandleCheckSuite_failure_has_cause_witness :
  (exists ev e,
     In ev
        (emitted
           (HandleCheckSuite sample.secondScanFails
              (sample.suite [sample.pr 1; sample.pr 2; sample.pr 3])) []) /\
     fetchError ev = Some e) \/
  (exists number body e,
     In (number, body, Some e)
        (comments
           (emitted
              (HandleCheckSuite sample.secondScanFails
                 (sample.suite [sample.pr 1; sample.pr 2; sample.pr 3])) []))) \/
  (exists fileQueries results result m,
     In (EvCheckFileContentFromQueries fileQueries (results, None))
        (emitted
           (HandleCheckSuite sample.secondScanFails
              (sample.suite [sample.pr 1; sample.pr 2; sample.pr 3])) []) /\
     In result results /\ In m (Matches result) /\ Resolved m = false).
Proof.
  apply (HandleCheckSuite_failure_has_cause (H := sample.externals)
           sample.secondScanFails
           (sample.suite [sample.pr 1; sample.pr 2; sample.pr 3]) []).
  pick.
Defined.

Lemma HandleCheckSuite_success_has_grounds_witness :
  (allClear
     (emitted (HandleCheckSuite sample.reminded (sample.suite [sample.pr 1])) [])
   = true /\
   listed (emitted (HandleCheckSuite sample.reminded (sample.suite [sample.pr 1])) [])
   = payloadNumbers (sample.suite [sample.pr 1]) /\
   scans (emitted (HandleCheckSuite sample.reminded (sample.suite [sample.pr 1])) [])
   = repeat ([], None) 1 /\
   comments (emitted (HandleCheckSuite sample.reminded (sample.suite [sample.pr 1])) [])
   = []) \/
  (exists fileQueries results number body,
     In (EvCheckFileContentFromQueries fileQueries (results, None))
        (emitted (HandleCheckSuite sample.reminded (sample.suite [sample.pr 1])) []) /\
     results <> [] /\
     AllMatchesAreResolved results = true /\
     comments (emitted (HandleCheckSuite sample.reminded (sample.suite [sample.pr 1])) [])
     = [(number, body, None)]).
Proof.
  apply (HandleCheckSuite_success_has_grounds (H := sample.externals) sample.reminded
           (sample.suite [sample.pr 1]) []).
  pick.
Defined.

Lemma HandleCheckSuite_clean_run_passes_witness :
  verdicts
    (emitted (HandleCheckSuite sample.clean (sample.suite [sample.pr 1; sample.pr 2])) [])
  = [(checkRunStatusCompleted, checkRunConclusionSuccess)] /\
  allClear
    (emitted (HandleCheckSuite sample.clean (sample.suite [sample.pr 1; sample.pr 2])) [])
  = true /\
  listed
    (emitted (HandleCheckSuite sample.clean (sample.suite [sample.pr 1; sample.pr 2])) [])
  = [1%Z; 2%Z] /\
  posts
    (emitted (HandleCheckSuite sample.clean (sample.suite [sample.pr 1; sample.pr 2])) [])
  = [].
Proof.
  apply (HandleCheckSuite_clean_run_passes (H := sample.externals) sample.clean
           (sample.suite [sample.pr 1; sample.pr 2]) []).
  - reflexivity.
  - discriminate.
  - intros ev Hin. vm_compute in Hin.
    repeat (destruct Hin as [<- | Hin]; [reflexivity|]). destruct Hin.
  - intros reply Hin. vm_compute in Hin.
    repeat (destruct Hin as [<- | Hin]; [reflexivity|]). destruct Hin.
Defined.

Lemma HandleCheckSuite_text_reports_scan_witness :
  exists fileQueries results,
    In (EvCheckFileContentFromQueries fileQueries (results, None))
       (emitted
          (HandleCheckSuite sample.secondUnresolved
             (sample.suite [sample.pr 1; sample.pr 2; sample.pr 3])) []) /\
    results <> [] /\
    "Potentially sensitive data detected"%string = fst (BuildMessage results) /\
    "1 commits flagged"%string = snd (BuildMessage results) /\
    checkRunConclusionFailure
      = (if AllMatchesAreResolved results then checkRunConclusionSuccess
         else checkRunConclusionFailure).
Proof.
  apply (HandleCheckSuite_text_reports_scan (H := sample.externals)
           sample.secondUnresolved
           (sample.suite [sample.pr 1; sample.pr 2; sample.pr 3]) []
           "octo"%string "orca"%string 55%Z
           {| Status := checkRunStatusCompleted;
              Conclusion := checkRunConclusionFailure;
              Output := {| Title := "Orca Checks";
                           Summary := "Potentially sensitive data detected";
                           Text := Some "1 commits flagged"%string |} |}
           None "1 commits flagged"%string).
  - pick.
  - reflexivity.
Defined.

Lemma HandleCheckSuite_scans_fetched_files_witness :
  exists before pullRequest commits gets after,
    In pullRequest [sample.pr 1; sample.pr 2; sample.pr 3] /\
    emitted
      (HandleCheckSuite sample.secondUnresolved
         (sample.suite [sample.pr 1; sample.pr 2; sample.pr 3])) []
    = before
      ++ EvListCommits "octo" "orca" (deref (Number pullRequest)) (commits, None)
      :: gets
      ++ EvCheckFileContentFromQueries sample.queries (sample.unresolved, None)
      :: after /\
    Forall2
      (fun commit ev =>
         exists commitWithFiles,
           ev = EvGetCommit "octo" "orca" (SHA commit) (commitWithFiles, None))
      commits gets /\
    sample.queries
      = flat_map (queriesOf (sample.suite [sample.pr 1; sample.pr 2; sample.pr 3])) gets.
Proof.
  apply (HandleCheckSuite_scans_fetched_files (H := sample.externals)
           sample.secondUnresolved
           (sample.suite [sample.pr 1; sample.pr 2; sample.pr 3]) []
           sample.queries (sample.unresolved, None)).
  pick.
Defined.

Lemma HandlePush_scans_without_pull_request_witness :
  exists reply after,
    emitted
      (HandlePush
         (scenario.pushing ([], Some "listing failed"%string) (sample.unresolved, None)
            None)
         sample.push) []
    = EvLog InfoLevel "Handling push..." []
      :: EvList "octo" "orca"
           {| State := "open"; Head := "mona:refs/heads/feature" |}
           ([], Some "listing failed"%string)
      :: EvCheckPush sample.push reply
      :: after.
Proof.
  apply (HandlePush_scans_without_pull_request (H := sample.externals)
           (scenario.pushing ([], Some "listing failed"%string)
              (sample.unresolved, None) None)
           sample.push [] "octo"%string "orca"%string
           {| State := "open"; Head := "mona:refs/heads/feature" |}
           (Some "listing failed"%string)).
  pick.
Defined.

Lemma HandlePush_remediates_findings_witness :
  sample.push = sample.push /\
  (@None string = None -> sample.unresolved <> [] ->
   exists reply,
     remediations
       (emitted
          (HandlePush (scenario.pushing ([], None) (sample.unresolved, None) None)
             sample.push) [])
     = [(sample.push, sample.unresolved, reply)]) /\
  (@None string <> None \/ sample.unresolved = [] ->
   remediations
     (emitted
        (HandlePush (scenario.pushing ([], None) (sample.unresolved, None) None)
           sample.push) [])
   = []).
Proof.
  apply (HandlePush_remediates_findings (H := sample.externals)
           (scenario.pushing ([], None) (sample.unresolved, None) None)
           sample.push [] sample.push sample.unresolved None).
  pick.
Defined.

Lemma HandlePush_error_ends_silently_witness :
  exists before,
    emitted
      (HandlePush (scenario.pushing ([], None) ([], Some "scan failed"%string) None)
         sample.push) []
    = before ++ [EvCheckPush sample.push ([], Some "scan failed"%string)].
Proof.
  apply (HandlePush_error_ends_silently (H := sample.externals)
           (scenario.pushing ([], None) ([], Some "scan failed"%string) None)
           sample.push []
           (EvCheckPush sample.push ([], Some "scan failed"%string))
           "scan failed"%string).
  - pick.
  - left. exists sample.push, []. reflexivity.
Defined.

Lemma content_remediation_follows_scan_witness :
  content.IssueComment = content.IssueComment /\
  existT content.Payload content.IssueComment "see key AKIA1234"%string
    = existT content.Payload content.IssueComment "see key AKIA1234"%string /\
  content.HasMatches content.IssueComment ["AKIA1234"%string] = true /\
  In (content.EvCheck content.IssueComment "see key AKIA1234"%string
        (["AKIA1234"%string], None))
     (content.emitted
        (content.handlerOf (scenario.reading (["AKIA1234"%string], None) None)
           content.IssueComment "see key AKIA1234"%string) []).
Proof.
  apply (content_remediation_follows_scan (H := scenario.texts)
           (scenario.reading (["AKIA1234"%string], None) None)
           content.IssueComment "see key AKIA1234"%string []
           content.IssueComment "see key AKIA1234"%string ["AKIA1234"%string] None).
  pick.
Defined.

Lemma content_scan_decides_witness :
  exists reply,
    In (content.EvHandleMatches content.PullRequestReview "token ghp_1"%string
          ["ghp_1"%string] reply)
       (content.emitted
          (content.handlerOf (scenario.reading (["ghp_1"%string], None) None)
             content.PullRequestReview "token ghp_1"%string) []).
Proof.
  destruct (content_scan_decides (H := scenario.texts)
              (scenario.reading (["ghp_1"%string], None) None)
              content.PullRequestReview "token ghp_1"%string []
              content.PullRequestReview "token ghp_1"%string ["ghp_1"%string] None)
    as (_ & _ & Hcalled & _).
  - pick.
  - apply Hcalled; reflexivity.
Defined.

Lemma content_error_ends_silently_witness :
  exists before,
    content.emitted
      (content.handlerOf (scenario.reading ([], Some "scan failed"%string) None)
         content.Issue "some text"%string) []
    = before
      ++ [content.EvCheck content.Issue "some text"%string
            ([], Some "scan failed"%string)].
Proof.
  apply (content_error_ends_silently (H := scenario.texts)
           (scenario.reading ([], Some "scan failed"%string) None)
           content.Issue "some text"%string []
           (@content.EvCheck scenario.texts content.Issue "some text"%string
              ([], Some "scan failed"%string))
           "scan failed"%string).
  - pick.
  - left. eexists _, _, _. reflexivity.
Defined.

Lemma RemediateFromPush_findings_located_witness :
  exists body,
    report.bodies
      (snd (remediator.RemediateFromPush sample.pushed
              [sample.finding "c1"; sample.finding "c2"] sample.accepting))
      = [body] /\
    report.occursIn ("Introduced in c2:" ++ fmt.nl)%string body.
Proof.
  destruct (RemediateFromPush_findings_located sample.pushed
              [sample.finding "c1"; sample.finding "c2"] sample.accepting
              (sample.finding "c2"))
    as (body & Hbody & Hheader & _).
  - right. left. reflexivity.
  - exists body. split; [exact Hbody | exact Hheader].
Defined.

Lemma RemediateFromPush_title_tells_count_witness :
  List.length [sample.finding "c3"; sample.finding "c4"]
  = List.length [sample.finding "c1"; sample.finding "c2"].
Proof.
  apply (RemediateFromPush_title_tells_count sample.pushed sample.pushed
           [sample.finding "c1"; sample.finding "c2"]
           [sample.finding "c3"; sample.finding "c4"]
           sample.accepting sample.accepting).
  - apply le_n.
  - reflexivity.
Defined.
